(** * The serialization engine: contexts, reference handling, set serializer

    A shallow embedding of

    - [src/reference-handlers/direct-reference-handler.ts]
      ([DirectReferenceHandler.define], [DirectReferenceHandler.restore]),
    - [src/serializer-context.ts] (class [SerializerContext]),
    - [src/serializers/set-serializer.ts] (class [SetSerializer]),
    - [src/functions/is-ctor-function.ts] ([isCtorFunction]),
    - [src/type-artisan.ts] ([TypeArtisan.resolveTypeMetadata]).

    JavaScript values are an inductive type over an explicit object heap;
    the traversal is a state-and-exception monad over the heap, the two
    operation-scoped maps every context of one traversal shares (the
    reference map and the reference callback map) and the error log. *)

From Stdlib Require Import ZArith String List Lia.
From stdpp Require Import base option gmap strings list pretty.

Set Warnings "-register-all".

Open Scope string_scope.
Open Scope list_scope.
Open Scope Z_scope.

(** ** JavaScript values *)

(** Identity of a heap object (object, array, [Set], function). *)
Definition Loc := positive.

(** A function object: its identity and its [name] property. *)
Record Fn := { fnId : Loc; fnName : string }.

#[global] Instance Fn_eq_dec : EqDecision Fn.
Proof. solve_decision. Defined.

(** [VResolver k] is the closure [() => referenceMap.get(k)] that the
    reference handler returns on a re-entrant visit; it is a function
    whose [name] is the empty string.  Two resolvers of one key are not
    told apart. *)
Inductive Value :=
| VUndefined
| VNull
| VBoolean (b : bool)
| VNumber (n : Z)
| VString (s : string)
| VObject (l : Loc)
| VFunction (f : Fn)
| VResolver (referenceKey : Loc).

#[global] Instance Value_eq_dec : EqDecision Value.
Proof. solve_decision. Defined.

(** What lives at a heap location.  [OVariable] is a local variable that a
    closure captured: closures see later assignments to it. *)
Inductive Obj :=
| ORecord (fields : gmap string Value)
| OArray (items : list Value)
| OSet (items : list Value)
| OVariable (n : Z).

Abbreviation Heap := (gmap Loc Obj).

(** lodash [isUndefined], [isNull], [isNil]. *)
Definition isUndefined (x : Value) : bool :=
  match x with VUndefined => true | _ => false end.

Definition isNull (x : Value) : bool :=
  match x with VNull => true | _ => false end.

Definition isNil (x : Value) : bool :=
  match x with VUndefined | VNull => true | _ => false end.

(** lodash [isFunction]. *)
Definition isFunction (x : Value) : bool :=
  match x with VFunction _ | VResolver _ => true | _ => false end.

(** The [name] property of a function value. *)
Definition functionName (x : Value) : string :=
  match x with VFunction f => fnName f | _ => "" end.

(** [a === b]. *)
Definition strictEquals (a b : Value) : bool := bool_decide (a = b).

(** [a ?? b] on values. *)
Definition nullish (a b : Value) : Value := if isNil a then b else a.

(** [a ?? b] where [a] is an optional, typed field. *)
Definition orElse {A : Type} (a : option A) (b : A) : A :=
  match a with Some x => x | None => b end.

(** [a ?? b] where both are optional. *)
Definition orElseOpt {A : Type} (a b : option A) : option A :=
  match a with Some x => Some x | None => b end.

(** lodash [isSet] and [isArray], with the object they found. *)
Definition asSet (h : Heap) (x : Value) : option (Loc * list Value) :=
  match x with
  | VObject l => match h !! l with Some (OSet items) => Some (l, items) | _ => None end
  | _ => None
  end.

Definition asArray (h : Heap) (x : Value) : option (Loc * list Value) :=
  match x with
  | VObject l => match h !! l with Some (OArray items) => Some (l, items) | _ => None end
  | _ => None
  end.

(** [src/functions/is-ctor-function.ts]:
    [return isFunction(x) && x.name !== '';] *)
Definition isCtorFunction (x : Value) : bool :=
  isFunction x && negb (String.eqb (functionName x) "").

(** ** Exceptions, state and the traversal monad *)

Inductive Exception :=
| Error (message : string)
| TypeError (message : string)
| RangeError (message : string).

Inductive Outcome (A : Type) :=
| Ok (a : A)
| Throw (e : Exception).

Arguments Ok {A} a.
Arguments Throw {A} e.

(** A reference callback is a deferred setter, the closure
    [registerReferenceCallback] builds: when replayed it reads the
    reference map and writes the object graph. *)
Definition ReferenceCallback : Type := gmap Loc Value -> Heap -> Heap.

(** [(referenceValue) => void]: writes one slot of the object graph. *)
Definition ReferenceValueSetter : Type := Value -> Heap -> Heap.

(** [referenceMap] and [referenceCallbackMap] are the two [WeakMap]s created
    per top-level operation; every context of the traversal holds the same
    two objects.  [errorLog] collects the calls of [log.error]. *)
Record State := {
  heap : Heap;
  referenceMap : gmap Loc Value;
  referenceCallbackMap : gmap Loc (list ReferenceCallback);
  errorLog : list (string * Value)
}.

Definition M (A : Type) : Type := State -> Outcome A * State.

Definition ret {A} (a : A) : M A := fun s => (Ok a, s).

Definition throw {A} (e : Exception) : M A := fun s => (Throw e, s).

Definition bind {A B} (m : M A) (k : A -> M B) : M B :=
  fun s =>
    match m s with
    | (Ok a, s') => k a s'
    | (Throw e, s') => (Throw e, s')
    end.

Declare Scope js_scope.
Delimit Scope js_scope with js.
Notation "x <- m ;; k" := (bind m (fun x => k))
  (at level 100, m at next level, right associativity) : js_scope.
Notation "m ;;; k" := (bind m (fun _ => k))
  (at level 100, right associativity) : js_scope.
Open Scope js_scope.

Definition getHeap : M Heap := fun s => (Ok (heap s), s).

(** The state with another object graph. *)
Definition withHeap (h : Heap) (s : State) : State :=
  {| heap := h; referenceMap := referenceMap s;
     referenceCallbackMap := referenceCallbackMap s;
     errorLog := errorLog s |}.

(** [WeakMap.prototype.get]: [undefined] when the key has no entry. *)
Definition WeakMap_get {V : Type} (absent : V) (m : gmap Loc V) (k : Loc) : V :=
  match m !! k with Some v => v | None => absent end.

Definition referenceMap_get (key : Loc) : M Value :=
  fun s => (Ok (WeakMap_get VUndefined (referenceMap s) key), s).

Definition setReference (key : Loc) (v : Value) (s : State) : State :=
  {| heap := heap s; referenceMap := <[key := v]> (referenceMap s);
     referenceCallbackMap := referenceCallbackMap s;
     errorLog := errorLog s |}.

Definition referenceMap_set (key : Loc) (v : Value) : M unit :=
  fun s => (Ok tt, setReference key v s).

(** [new ...]: a fresh object. *)
Definition alloc (o : Obj) : M Loc :=
  fun s =>
    let l := fresh (dom (heap s)) in
    (Ok l, withHeap (<[l := o]> (heap s)) s).

(** [log.error(message, x)]. *)
Definition log_error (message : string) (x : Value) : M unit :=
  fun s => (Ok tt, {| heap := heap s; referenceMap := referenceMap s;
                      referenceCallbackMap := referenceCallbackMap s;
                      errorLog := errorLog s ++ [(message, x)] |}).

(** ** Metadata *)

(** What a type can be named by: an alias, the type function itself, or a
    lazy resolver (recorded by what it yields). *)
Inductive TypeArgument :=
| ArgAlias (alias : string)
| ArgTypeFn (typeFn : Fn)
| ArgTypeResolver (yields : option Fn).

(** A generic argument is a type argument or the pair
    [[typeArgument, genericArguments]]. *)
Inductive GenericArgument :=
| GenericType (typeArgument : TypeArgument)
| GenericPair (typeArgument : TypeArgument) (nested : list GenericArgument).

(** The serializers and reference handlers a metadata object can hold.
    [SetSerializer] and [DirectReferenceHandler] are the implementations
    this development embeds; every other serializer is external and named
    by an identifier. *)
Inductive SerializerImpl :=
| SetSerializerImpl
| ExternalSerializer (id : string).

Inductive ReferenceHandlerImpl :=
| DirectReferenceHandlerImpl.

Record Log := { errorEnabled : bool }.

Module TypeMetadata.
Record t := {
  typeName : string;
  discriminator : string;
  discriminant : Value;
  discriminantMap : list (Fn * Value);
  genericArguments : option (list GenericArgument);
  log : Log;
  referenceHandler : ReferenceHandlerImpl;
  serializer : SerializerImpl;
  preserveNull : bool;
  useDefaultValue : bool;
  serializedDefaultValue : Value;
  deserializedDefaultValue : Value
}.
End TypeMetadata.

Module PropertyMetadata.
Record t := {
  propertyName : string;
  genericArguments : option (list GenericArgument);
  referenceHandler : option ReferenceHandlerImpl;
  serializer : option SerializerImpl;
  preserveNull : option bool;
  useDefaultValue : option bool;
  serializedDefaultValue : Value;
  deserializedDefaultValue : Value
}.
End PropertyMetadata.

(** A json-path key is a field name or an index. *)
Inductive JsonPathKey :=
| PathName (name : string)
| PathIndex (index : Z).

Module SerializerContextOptions.
Record t := {
  jsonPathKey : JsonPathKey;
  typeMetadata : TypeMetadata.t;
  propertyMetadata : option PropertyMetadata.t;
  genericArguments : option (list GenericArgument);
  referenceValueSetter : option ReferenceValueSetter
}.
End SerializerContextOptions.

(** ** [SerializerContext] *)

(** One node of the traversal.  [root] is the field [$]. *)
Inductive SerializerContext := {
  root : Value;
  serializerContextOptions : SerializerContextOptions.t;
  parentSerializerContext : option SerializerContext
}.

Definition jsonPathKey (c : SerializerContext) : JsonPathKey :=
  SerializerContextOptions.jsonPathKey (serializerContextOptions c).

Definition referenceValueSetter (c : SerializerContext) : option ReferenceValueSetter :=
  SerializerContextOptions.referenceValueSetter (serializerContextOptions c).

Definition typeMetadata (c : SerializerContext) : TypeMetadata.t :=
  SerializerContextOptions.typeMetadata (serializerContextOptions c).

Definition propertyMetadata (c : SerializerContext) : option PropertyMetadata.t :=
  SerializerContextOptions.propertyMetadata (serializerContextOptions c).

(** [this.propertyMetadata?.preserveNull ?? this.typeMetadata.preserveNull] *)
Definition preserveNull (c : SerializerContext) : bool :=
  orElse (propertyMetadata c ≫= PropertyMetadata.preserveNull)
         (TypeMetadata.preserveNull (typeMetadata c)).

(** [this.propertyMetadata?.useDefaultValue ?? this.typeMetadata.useDefaultValue] *)
Definition useDefaultValue (c : SerializerContext) : bool :=
  orElse (propertyMetadata c ≫= PropertyMetadata.useDefaultValue)
         (TypeMetadata.useDefaultValue (typeMetadata c)).

(** [this.propertyMetadata?.f] for a field [f] holding a value. *)
Definition propertyValue (f : PropertyMetadata.t -> Value) (c : SerializerContext) : Value :=
  match propertyMetadata c with Some p => f p | None => VUndefined end.

Definition serializedDefaultValue (c : SerializerContext) : Value :=
  if useDefaultValue c
  then nullish (propertyValue PropertyMetadata.serializedDefaultValue c)
               (TypeMetadata.serializedDefaultValue (typeMetadata c))
  else VUndefined.

Definition serializedNullValue (c : SerializerContext) : Value :=
  if preserveNull c then VNull else serializedDefaultValue c.

Definition deserializedDefaultValue (c : SerializerContext) : Value :=
  if useDefaultValue c
  then nullish (propertyValue PropertyMetadata.deserializedDefaultValue c)
               (TypeMetadata.deserializedDefaultValue (typeMetadata c))
  else VUndefined.

Definition deserializedNullValue (c : SerializerContext) : Value :=
  if preserveNull c then VNull else deserializedDefaultValue c.

(** The template literal [`${jsonPathKey}`]. *)
Definition keyText (k : JsonPathKey) : string :=
  match k with PathName name => name | PathIndex index => pretty index end.

Fixpoint jsonPath (c : SerializerContext) : string :=
  match parentSerializerContext c with
  | None => keyText (jsonPathKey c)
  | Some parent =>
      match jsonPathKey c with
      | PathIndex _ => jsonPath parent +:+ "[" +:+ keyText (jsonPathKey c) +:+ "]"
      | PathName _ => jsonPath parent +:+ "['" +:+ keyText (jsonPathKey c) +:+ "']"
      end
  end.

Definition discriminantMap (c : SerializerContext) : list (Fn * Value) :=
  TypeMetadata.discriminantMap (typeMetadata c).

(** [options.genericArguments ?? propertyMetadata?.genericArguments
     ?? typeMetadata.genericArguments] *)
Definition genericArguments (c : SerializerContext) : option (list GenericArgument) :=
  orElseOpt (SerializerContextOptions.genericArguments (serializerContextOptions c))
    (orElseOpt (propertyMetadata c ≫= PropertyMetadata.genericArguments)
       (TypeMetadata.genericArguments (typeMetadata c))).

Definition log (c : SerializerContext) : Log := TypeMetadata.log (typeMetadata c).

Definition referenceHandler (c : SerializerContext) : ReferenceHandlerImpl :=
  orElse (propertyMetadata c ≫= PropertyMetadata.referenceHandler)
         (TypeMetadata.referenceHandler (typeMetadata c)).

Definition serializer (c : SerializerContext) : SerializerImpl :=
  orElse (propertyMetadata c ≫= PropertyMetadata.serializer)
         (TypeMetadata.serializer (typeMetadata c)).

(** *** The callback queue *)

Definition pushReferenceCallback (referenceKey : Loc)
    (referenceCallback : ReferenceCallback) : M unit :=
  fun s =>
    let referenceCallbacks :=
      match referenceCallbackMap s !! referenceKey with
      | Some callbacks => callbacks
      | None => []
      end in
    (Ok tt, {| heap := heap s; referenceMap := referenceMap s;
               referenceCallbackMap :=
                 <[referenceKey := referenceCallbacks ++ [referenceCallback]]>
                   (referenceCallbackMap s);
               errorLog := errorLog s |}).

(** Calling one callback. *)
Definition runReferenceCallback (s : State) (referenceCallback : ReferenceCallback) : State :=
  withHeap (referenceCallback (referenceMap s) (heap s)) s.

(** The callbacks queued for a key, in queue order. *)
Definition queuedCallbacks (s : State) (referenceKey : Loc) : list ReferenceCallback :=
  match referenceCallbackMap s !! referenceKey with
  | Some callbacks => callbacks
  | None => []
  end.

Definition resolveReferenceCallbacks (referenceKey : Loc) : M unit :=
  fun s =>
    match referenceCallbackMap s !! referenceKey with
    | None => (Ok tt, s)
    | Some referenceCallbacks =>
        (Ok tt, fold_left runReferenceCallback referenceCallbacks s)
    end.

Definition registerReferenceCallback (c : SerializerContext) (referenceKey : Loc) : M unit :=
  match referenceValueSetter c with
  | None => ret tt
  | Some setter =>
      pushReferenceCallback referenceKey
        (fun referenceMap => setter (WeakMap_get VUndefined referenceMap referenceKey))
  end.

(** ** [DirectReferenceHandler] *)

Module DirectReferenceHandler.

(** [define(serializerContext, referenceKey, referenceValueInitializer)].
    The context's [referenceMap] and [referenceCallbackMap] are the
    traversal's two maps, held in the state.  The initializer is any
    computation of the traversal monad: it may re-enter the handler, queue
    callbacks and throw. *)
Definition define (serializerContext : SerializerContext) (referenceKey : Loc)
    (referenceValueInitializer : M Value) : M Value :=
  referenceValue <- referenceMap_get referenceKey ;;
  if isNil referenceValue then
    referenceMap_set referenceKey (VObject referenceKey) ;;;
    value <- referenceValueInitializer ;;
    referenceMap_set referenceKey value ;;;
    resolveReferenceCallbacks referenceKey ;;;
    ret value
  else if strictEquals referenceValue (VObject referenceKey) then
    ret (VResolver referenceKey)
  else
    ret referenceValue.

(** [restore(serializerContext, referenceKey, referenceValueInitializer)]. *)
Definition restore (serializerContext : SerializerContext) (referenceKey : Loc)
    (referenceValueInitializer : M Value) : M Value :=
  referenceValue <- referenceMap_get referenceKey ;;
  if isNil referenceValue then
    referenceMap_set referenceKey (VObject referenceKey) ;;;
    value <- referenceValueInitializer ;;
    referenceMap_set referenceKey value ;;;
    resolveReferenceCallbacks referenceKey ;;;
    ret value
  else if strictEquals referenceValue (VObject referenceKey) then
    ret (VResolver referenceKey)
  else
    ret referenceValue.

End DirectReferenceHandler.

(** Calling a value the handler returned as a resolver:
    [() => referenceMap.get(referenceKey)]. *)
Definition callResolver (resolver : Value) : M Value :=
  match resolver with
  | VResolver referenceKey => referenceMap_get referenceKey
  | _ => throw (TypeError "resolver is not a function")
  end.

(** [this.referenceHandler.define(this, referenceKey, referenceValueGetter)] *)
Definition defineReference (c : SerializerContext) (referenceKey : Loc)
    (referenceValueGetter : M Value) : M Value :=
  match referenceHandler c with
  | DirectReferenceHandlerImpl =>
      DirectReferenceHandler.define c referenceKey referenceValueGetter
  end.

(** [this.referenceHandler.restore(this, referenceKey, referenceValueGetter)] *)
Definition restoreReference (c : SerializerContext) (referenceKey : Loc)
    (referenceValueGetter : M Value) : M Value :=
  match referenceHandler c with
  | DirectReferenceHandlerImpl =>
      DirectReferenceHandler.restore c referenceKey referenceValueGetter
  end.

(** ** Deriving contexts *)

Definition liftOutcome {A} (o : Outcome A) : M A := fun s => (o, s).

(** [new SerializerContext(this.$, this.referenceMap, this.referenceCallbackMap,
    serializerContextOptions, this)] *)
Definition defineChildSerializerContext (c : SerializerContext)
    (options : SerializerContextOptions.t) : SerializerContext :=
  {| root := root c;
     serializerContextOptions := options;
     parentSerializerContext := Some c |}.

(** [array[i]] for a number [i]: [undefined] outside the array. *)
Definition arrayAt {A : Type} (items : list A) (i : Z) : option A :=
  if i <? 0 then None else items !! Z.to_nat i.

(** [Map.prototype.get] on the discriminant map. *)
Definition Map_get (m : list (Fn * Value)) (k : Fn) : Value :=
  match find (fun entry => bool_decide (entry.1 = k)) m with
  | Some entry => entry.2
  | None => VUndefined
  end.

(** [record[name]]: own fields of a record (or of a function object);
    reading a property of [undefined] or [null] is a [TypeError]. *)
Definition getProperty (h : Heap) (record : Value) (name : string) : Outcome Value :=
  match record with
  | VUndefined | VNull => Throw (TypeError "Cannot read properties of undefined or null")
  | VObject l | VFunction {| fnId := l |} =>
      match h !! l with
      | Some (ORecord fields) =>
          Ok (match fields !! name with Some v => v | None => VUndefined end)
      | _ => Ok VUndefined
      end
  | _ => Ok VUndefined
  end.

(** [Object.assign({}, this.serializerContextOptions)] followed by
    [serializerContextOptions.typeMetadata = typeMetadata], under the same
    parent. *)
Definition withTypeMetadata (c : SerializerContext) (tm : TypeMetadata.t) : SerializerContext :=
  {| root := root c;
     serializerContextOptions :=
       {| SerializerContextOptions.jsonPathKey := jsonPathKey c;
          SerializerContextOptions.typeMetadata := tm;
          SerializerContextOptions.propertyMetadata := propertyMetadata c;
          SerializerContextOptions.genericArguments :=
            SerializerContextOptions.genericArguments (serializerContextOptions c);
          SerializerContextOptions.referenceValueSetter := referenceValueSetter c |};
     parentSerializerContext := parentSerializerContext c |}.

Definition genericArgumentsMissing (c : SerializerContext) : Exception :=
  Error (jsonPath c +:+
    ": cannot define generic arguments. This is usually caused by invalid configuration.").

Definition genericArgumentMissing (c : SerializerContext) (genericIndex : Z) : Exception :=
  Error (jsonPath c +:+ ": cannot define generic argument for index " +:+
    pretty genericIndex +:+ ". This is usually caused by invalid configuration.").

Definition discriminantMissing (c : SerializerContext) : Exception :=
  Error (jsonPath c +:+
    ": cannot define discriminant of polymorphic type. This is usually caused by invalid configuration.").

(** [isArray(genericArgument) ? genericArgument[0] : genericArgument] *)
Definition genericTypeArgument (genericArgument : GenericArgument) : TypeArgument :=
  match genericArgument with
  | GenericPair t _ => t
  | GenericType t => t
  end.

(** [isArray(genericArgument) ? genericArgument[1] : undefined] *)
Definition genericGenericArguments (genericArgument : GenericArgument)
    : option (list GenericArgument) :=
  match genericArgument with
  | GenericPair _ nested => Some nested
  | GenericType _ => None
  end.

Section TypeResolution.

(** [Metadata.defineTypeMetadata], inherited by [SerializerContext]: the
    class [Metadata] and the registry behind it are not part of the sources,
    so the resolution of a type argument to its type metadata is a
    parameter.  It may throw (an unknown alias, a resolver that yields
    nothing). *)
Variable defineTypeMetadata : TypeArgument -> Outcome TypeMetadata.t.

Definition defineGenericSerializerContext (c : SerializerContext) (genericIndex : Z)
    : Outcome SerializerContext :=
  match genericArguments c with
  | None => Throw (genericArgumentsMissing c)
  | Some genericArguments =>
      match arrayAt genericArguments genericIndex with
      | None => Throw (genericArgumentMissing c genericIndex)
      | Some genericArgument =>
          match defineTypeMetadata (genericTypeArgument genericArgument) with
          | Throw e => Throw e
          | Ok typeMetadata =>
              Ok {| root := root c;
                    serializerContextOptions :=
                      {| SerializerContextOptions.jsonPathKey := jsonPathKey c;
                         SerializerContextOptions.typeMetadata := typeMetadata;
                         SerializerContextOptions.propertyMetadata := None;
                         SerializerContextOptions.genericArguments :=
                           genericGenericArguments genericArgument;
                         SerializerContextOptions.referenceValueSetter :=
                           referenceValueSetter c |};
                    parentSerializerContext := parentSerializerContext c |}
          end
      end
  end.

Definition definePolymorphicSerializerContextByTypeFn (c : SerializerContext) (typeFn : Fn)
    : Outcome SerializerContext :=
  let discriminant := Map_get (discriminantMap c) typeFn in
  if isNil discriminant then Throw (discriminantMissing c)
  else
    match defineTypeMetadata (ArgTypeFn typeFn) with
    | Throw e => Throw e
    | Ok typeMetadata => Ok (withTypeMetadata c typeMetadata)
    end.

(** The loop [for (const [typeCtor, discriminant] of this.discriminantMap)]. *)
Fixpoint scanDiscriminantMap (h : Heap) (c : SerializerContext) (record : Value)
    (entries : list (Fn * Value)) : Outcome SerializerContext :=
  match entries with
  | [] => Throw (discriminantMissing c)
  | (typeCtor, discriminant) :: rest =>
      match defineTypeMetadata (ArgTypeFn typeCtor) with
      | Throw e => Throw e
      | Ok typeMetadata =>
          match getProperty h record (TypeMetadata.discriminator typeMetadata) with
          | Throw e => Throw e
          | Ok v =>
              if strictEquals v discriminant
              then Ok (withTypeMetadata c typeMetadata)
              else scanDiscriminantMap h c record rest
          end
      end
  end.

Definition definePolymorphicSerializerContextByDiscriminant (h : Heap)
    (c : SerializerContext) (record : Value) : Outcome SerializerContext :=
  scanDiscriminantMap h c record (discriminantMap c).

(** [isCtorFunction(x) ? ...ByTypeFn(x) : ...ByDiscriminant(x)].
    [isCtorFunction] holds of function objects only, so the first branch
    always has the function at hand. *)
Definition definePolymorphicSerializerContext (h : Heap) (c : SerializerContext)
    (x : Value) : Outcome SerializerContext :=
  if isCtorFunction x then
    match x with
    | VFunction typeFn => definePolymorphicSerializerContextByTypeFn c typeFn
    | _ => definePolymorphicSerializerContextByDiscriminant h c x
    end
  else definePolymorphicSerializerContextByDiscriminant h c x.

End TypeResolution.

(** ** The registry's resolver *)

(** The double-quote character. *)
Definition doubleQuote : string := String (Ascii.ascii_of_nat 34) EmptyString.

(** The backslash character. *)
Definition backslash : string := String (Ascii.ascii_of_nat 92) EmptyString.

(** A hexadecimal digit, in lower case as [JSON.stringify] writes it. *)
Definition hexDigit (n : nat) : Ascii.ascii :=
  Ascii.ascii_of_nat (if (n <? 10)%nat then (48 + n)%nat else (87 + n)%nat).

(** [UnicodeEscape] of ECMAScript for a code unit below 256: a backslash,
    [u] and four hexadecimal digits. *)
Definition UnicodeEscape (n : nat) : string :=
  backslash +:+ "u00" +:+
  String (hexDigit (n / 16)) (String (hexDigit (n mod 16)) EmptyString).

(** What [QuoteJSONString] of ECMAScript writes for one character: the
    double quote and the backslash are preceded by a backslash, backspace,
    tab, line feed, form feed and carriage return have their short escapes,
    the other control characters their unicode escape, and every other
    character stands for itself.  A string is the UTF-8 text of a
    well-formed JavaScript string, so the bytes of a character outside
    ASCII stand for themselves as the character does. *)
Definition QuoteJSONCharacter (a : Ascii.ascii) : string :=
  let n := Ascii.nat_of_ascii a in
  if (n =? 8)%nat then backslash +:+ "b"
  else if (n =? 9)%nat then backslash +:+ "t"
  else if (n =? 10)%nat then backslash +:+ "n"
  else if (n =? 12)%nat then backslash +:+ "f"
  else if (n =? 13)%nat then backslash +:+ "r"
  else if (n =? 34)%nat then backslash +:+ doubleQuote
  else if (n =? 92)%nat then backslash +:+ backslash
  else if (n <? 32)%nat then UnicodeEscape n
  else String a EmptyString.

Fixpoint QuoteJSONText (s : string) : string :=
  match s with
  | EmptyString => EmptyString
  | String a rest => QuoteJSONCharacter a +:+ QuoteJSONText rest
  end.

(** [QuoteJSONString]: the escaped text between double quotes. *)
Definition QuoteJSONString (s : string) : string :=
  doubleQuote +:+ QuoteJSONText s +:+ doubleQuote.

(** [JSON.stringify(typeArgument)] inside a template literal: an alias is
    a quoted string, a function has no JSON form. *)
Definition JSON_stringify (typeArgument : TypeArgument) : string :=
  match typeArgument with
  | ArgAlias alias => QuoteJSONString alias
  | _ => "undefined"
  end.

(** [TypeArtisan.resolveTypeMetadata] of [src/type-artisan.ts], the
    resolver every type metadata is built with: an alias is looked up in
    [typeCtorMap], a type function stands for itself, a resolver is
    called; a nil result throws, and otherwise the type's metadata is
    extracted (declared on first use, so always there). *)
Definition resolveTypeMetadata (typeCtorMap : gmap string Fn)
    (extractTypeMetadata : Fn -> TypeMetadata.t) (typeArgument : TypeArgument)
    : Outcome TypeMetadata.t :=
  let typeCtor :=
    match typeArgument with
    | ArgAlias alias => typeCtorMap !! alias
    | ArgTypeFn typeFn => Some typeFn
    | ArgTypeResolver yields => yields
    end in
  match typeCtor with
  | None =>
      Throw (Error ("Cannot resolve type metadata for provided type argument: " +:+
                    JSON_stringify typeArgument +:+
                    "! Looks like your configuration is invalid!"))
  | Some typeCtor => Ok (extractTypeMetadata typeCtor)
  end.

(** ** Arrays, sets and captured variables on the heap *)

(** [array[i] = v]: replaces a slot, appends at the end, and pads with
    holes (read as [undefined]) beyond the end. *)
Definition arrayStore (items : list Value) (i : Z) (v : Value) : list Value :=
  if i <? 0 then items
  else
    let n := Z.to_nat i in
    if (n <? length items)%nat then <[n := v]> items
    else items ++ replicate (n - length items)%nat VUndefined ++ [v].

(** [set.add(v)]: insertion order, no duplicates. *)
Definition setAdd (items : list Value) (v : Value) : list Value :=
  if bool_decide (v ∈ items) then items else items ++ [v].

Definition heapArrayStore (array : Loc) (i : Z) (v : Value) (h : Heap) : Heap :=
  match h !! array with
  | Some (OArray items) => <[array := OArray (arrayStore items i v)]> h
  | _ => h
  end.

Definition heapSetAdd (set : Loc) (v : Value) (h : Heap) : Heap :=
  match h !! set with
  | Some (OSet items) => <[set := OSet (setAdd items v)]> h
  | _ => h
  end.

Definition updateHeap (f : Heap -> Heap) : M unit :=
  fun s => (Ok tt, withHeap (f (heap s)) s).

(** The items of a collection at the time a loop over it starts. *)
Definition itemsOf (l : Loc) : M (list Value) :=
  fun s =>
    match heap s !! l with
    | Some (OSet items) | Some (OArray items) => (Ok items, s)
    | _ => (Ok [], s)
    end.

(** ** [SetSerializer] *)

Module SetSerializer.

Section Serializer.

Variable defineTypeMetadata : TypeArgument -> Outcome TypeMetadata.t.

(** [valueSerializerContext.serialize(v)] and
    [valueSerializerContext.deserialize(v)]: the serializer of the element
    context, whichever it is. *)
Variable serializeValue : SerializerContext -> Value -> M Value.
Variable deserializeValue : SerializerContext -> Value -> M Value.

(** [v => array[i] = v], where [i] is the loop's variable, declared outside
    the loop: the closure reads it when it is called. *)
Definition arraySlotSetter (array i : Loc) : ReferenceValueSetter :=
  fun v h =>
    match h !! i with
    | Some (OVariable n) => heapArrayStore array n v h
    | _ => h
    end.

(** [v => set.add(v)] *)
Definition setAddSetter (set : Loc) : ReferenceValueSetter :=
  fun v h => heapSetAdd set v h.

(** The body of [for (const v of set)]; [i] is the variable's value before
    the iteration and [ivar] the variable as the closures see it. *)
Fixpoint serializeItems (genericSerializerContext : SerializerContext)
    (array ivar : Loc) (i : Z) (items : list Value) : M unit :=
  match items with
  | [] => ret tt
  | v :: rest =>
      let i := i + 1 in
      updateHeap (insert ivar (OVariable i)) ;;;
      let valueSerializerContext :=
        defineChildSerializerContext genericSerializerContext
          {| SerializerContextOptions.jsonPathKey := PathIndex i;
             SerializerContextOptions.typeMetadata := typeMetadata genericSerializerContext;
             SerializerContextOptions.propertyMetadata := None;
             SerializerContextOptions.genericArguments := None;
             SerializerContextOptions.referenceValueSetter :=
               Some (arraySlotSetter array ivar) |} in
      r <- serializeValue valueSerializerContext v ;;
      updateHeap (heapArrayStore array i r) ;;;
      serializeItems genericSerializerContext array ivar i rest
  end.

(** The arrow function [serialize] passes to [defineReference]. *)
Definition serializeInitializer (set : Loc) (serializerContext : SerializerContext)
    : M Value :=
  array <- alloc (OArray []) ;;
  genericSerializerContext <-
    liftOutcome (defineGenericSerializerContext defineTypeMetadata serializerContext 0) ;;
  ivar <- alloc (OVariable (-1)) ;;
  items <- itemsOf set ;;
  serializeItems genericSerializerContext array ivar (-1) items ;;;
  ret (VObject array).

Definition serialize (x : Value) (serializerContext : SerializerContext) : M Value :=
  if isUndefined x then ret (serializedDefaultValue serializerContext)
  else if isNull x then ret (serializedNullValue serializerContext)
  else
    h <- getHeap ;;
    match asSet h x with
    | Some (set, _) =>
        defineReference serializerContext set
          (serializeInitializer set serializerContext)
    | None =>
        (if errorEnabled (log serializerContext)
         then log_error (jsonPath serializerContext +:+ ": cannot serialize value as set.") x
         else ret tt) ;;;
        ret VUndefined
    end.

(** The body of [for (let i = 0; i < array.length; i++)], over the items
    the array holds when the loop starts (the serializers of the elements
    do not write their input). *)
Fixpoint deserializeItems (genericSerializerContext : SerializerContext)
    (set : Loc) (i : Z) (items : list Value) : M unit :=
  match items with
  | [] => ret tt
  | v :: rest =>
      let valueSerializerContext :=
        defineChildSerializerContext genericSerializerContext
          {| SerializerContextOptions.jsonPathKey := PathIndex i;
             SerializerContextOptions.typeMetadata := typeMetadata genericSerializerContext;
             SerializerContextOptions.propertyMetadata := None;
             SerializerContextOptions.genericArguments := None;
             SerializerContextOptions.referenceValueSetter := Some (setAddSetter set) |} in
      r <- deserializeValue valueSerializerContext v ;;
      updateHeap (heapSetAdd set r) ;;;
      deserializeItems genericSerializerContext set (i + 1) rest
  end.

(** The arrow function [deserialize] passes to [restoreReference]. *)
Definition deserializeInitializer (array : Loc) (serializerContext : SerializerContext)
    : M Value :=
  set <- alloc (OSet []) ;;
  genericSerializerContext <-
    liftOutcome (defineGenericSerializerContext defineTypeMetadata serializerContext 0) ;;
  items <- itemsOf array ;;
  deserializeItems genericSerializerContext set 0 items ;;;
  ret (VObject set).

Definition deserialize (x : Value) (serializerContext : SerializerContext) : M Value :=
  if isUndefined x then ret (deserializedDefaultValue serializerContext)
  else if isNull x then ret (deserializedNullValue serializerContext)
  else
    h <- getHeap ;;
    match asArray h x with
    | Some (array, _) =>
        restoreReference serializerContext array
          (deserializeInitializer array serializerContext)
    | None =>
        (if errorEnabled (log serializerContext)
         then log_error (jsonPath serializerContext +:+ ": cannot deserialize value as set.") x
         else ret tt) ;;;
        ret VUndefined
    end.

End Serializer.

End SetSerializer.

(** ** [SerializerContext.serialize] and [SerializerContext.deserialize] *)

Section Dispatch.

Variable defineTypeMetadata : TypeArgument -> Outcome TypeMetadata.t.

(** The serializers other than [SetSerializer] are not part of the sources:
    they are parameters, named by the identifier the metadata holds. *)
Variable externalSerialize : string -> Value -> SerializerContext -> M Value.
Variable externalDeserialize : string -> Value -> SerializerContext -> M Value.

Definition stackOverflow : Exception := RangeError "Maximum call stack size exceeded".

(** [this.serializer.serialize(x, this)].  [callStack] bounds the depth of
    nested calls, as the call stack does. *)
Fixpoint serialize (callStack : nat) (c : SerializerContext) (x : Value) : M Value :=
  match callStack with
  | O => throw stackOverflow
  | S depth =>
      match serializer c with
      | SetSerializerImpl =>
          SetSerializer.serialize defineTypeMetadata (serialize depth) x c
      | ExternalSerializer id => externalSerialize id x c
      end
  end.

(** [this.serializer.deserialize(x, this)]. *)
Fixpoint deserialize (callStack : nat) (c : SerializerContext) (x : Value) : M Value :=
  match callStack with
  | O => throw stackOverflow
  | S depth =>
      match serializer c with
      | SetSerializerImpl =>
          SetSerializer.deserialize defineTypeMetadata (deserialize depth) x c
      | ExternalSerializer id => externalDeserialize id x c
      end
  end.

End Dispatch.

(** ** [DescInjectSorter] *)

(** What the sorter reads of an inject: its index among the constructor's
    parameters. *)
Record InjectMetadata := { injectIndex : Z }.

Module DescInjectSorter.

(** [src/inject-sorters/desc-inject-sorter.ts]:
    [return y.injectIndex - x.injectIndex;] *)
Definition sort (x y : InjectMetadata) : Z := injectIndex y - injectIndex x.

End DescInjectSorter.

(** * Vocabulary of the properties *)

(** The two entry points of the handler, by the direction of the
    traversal. *)
Inductive Direction := Serializing | Deserializing.

Definition handle (d : Direction) : SerializerContext -> Loc -> M Value -> M Value :=
  match d with
  | Serializing => DirectReferenceHandler.define
  | Deserializing => DirectReferenceHandler.restore
  end.

(** The entry the handler reads: [referenceMap.get(referenceKey)]. *)
Definition entryOf (s : State) (referenceKey : Loc) : Value :=
  WeakMap_get VUndefined (referenceMap s) referenceKey.

(** The state after the callbacks queued for [referenceKey] were replayed,
    in queue order. *)
Definition replayed (referenceKey : Loc) (s : State) : State :=
  fold_left runReferenceCallback (queuedCallbacks s referenceKey) s.

(** The third case as the specification words it: whenever the key has an
    entry that is not the key itself, the handler returns the entry. *)
Definition stored_entry_returned_directly : Prop :=
  forall d c referenceKey initializer s v,
    referenceMap s !! referenceKey = Some v ->
    v <> VObject referenceKey ->
    handle d c referenceKey initializer s = (Ok v, s).

(** Reuse as the specification words it: once a first call for the key has
    completed, a later call returns the produced value and leaves the
    initializer alone, whatever the produced value is. *)
Definition produced_value_always_reused : Prop :=
  forall d d' c c' referenceKey initializer initializer' s v s1,
    referenceMap s !! referenceKey = None ->
    handle d c referenceKey initializer s = (Ok v, s1) ->
    handle d' c' referenceKey initializer' s1 = (Ok v, s1).

(** The default a context is configured with for one direction: the
    property's when the context has a property and its default is not nil,
    else the type's. *)
Definition configuredDefault (propertyDefault : PropertyMetadata.t -> Value)
    (typeDefault : TypeMetadata.t -> Value) (c : SerializerContext) : Value :=
  match propertyMetadata c with
  | Some p => if isNil (propertyDefault p) then typeDefault (typeMetadata c)
              else propertyDefault p
  | None => typeDefault (typeMetadata c)
  end.

(** The state after [log.error(message, x)] when error logging is enabled,
    the state itself when it is not. *)
Definition afterErrorLog (c : SerializerContext) (message : string) (x : Value)
    (s : State) : State :=
  if errorEnabled (log c)
  then {| heap := heap s; referenceMap := referenceMap s;
          referenceCallbackMap := referenceCallbackMap s;
          errorLog := errorLog s ++ [(message, x)] |}
  else s.

(** Generic argument [i] of a context, when its effective generic arguments
    are present and [i] is within their range. *)
Definition genericArgumentAt (c : SerializerContext) (i : Z) : option GenericArgument :=
  match genericArguments c with
  | Some arguments => arrayAt arguments i
  | None => None
  end.


(** A context [c'] is the context [c] with the type metadata [tm]: its
    type metadata is [tm] and everything else is as in [c]. *)
Definition polymorphicContextOf (c : SerializerContext) (tm : TypeMetadata.t)
    (c' : SerializerContext) : Prop :=
  typeMetadata c' = tm
  /\ jsonPathKey c' = jsonPathKey c
  /\ propertyMetadata c' = propertyMetadata c
  /\ SerializerContextOptions.genericArguments (serializerContextOptions c')
     = SerializerContextOptions.genericArguments (serializerContextOptions c)
  /\ referenceValueSetter c' = referenceValueSetter c
  /\ root c' = root c
  /\ parentSerializerContext c' = parentSerializerContext c.

(** A member of the discriminant map matches a record when the record's
    field named by the member's discriminator equals the member's
    discriminant. *)
Definition memberMatches (defineTypeMetadata : TypeArgument -> Outcome TypeMetadata.t)
    (h : Heap) (record : Value) (member : Fn * Value) : bool :=
  match defineTypeMetadata (ArgTypeFn member.1) with
  | Ok tm =>
      match getProperty h record (TypeMetadata.discriminator tm) with
      | Ok v => strictEquals v member.2
      | Throw _ => false
      end
  | Throw _ => false
  end.

(** Entering [define] or [restore]: the handler's body with the entry it
    read named [entryOf s referenceKey]. *)
Ltac enter_handler d s referenceKey :=
  destruct d; simpl;
  unfold DirectReferenceHandler.define, DirectReferenceHandler.restore,
    bind, referenceMap_get, referenceMap_set, ret;
  fold (entryOf s referenceKey).

(** * Concrete inputs *)

Module Fixture.

Definition numberMetadata : TypeMetadata.t :=
  {| TypeMetadata.typeName := "Number";
     TypeMetadata.discriminator := "$type";
     TypeMetadata.discriminant := VString "Number";
     TypeMetadata.discriminantMap := [];
     TypeMetadata.genericArguments := None;
     TypeMetadata.log := {| errorEnabled := true |};
     TypeMetadata.referenceHandler := DirectReferenceHandlerImpl;
     TypeMetadata.serializer := ExternalSerializer "Number";
     TypeMetadata.preserveNull := true;
     TypeMetadata.useDefaultValue := false;
     TypeMetadata.serializedDefaultValue := VNumber 0;
     TypeMetadata.deserializedDefaultValue := VNumber 0 |}.

(** A type's metadata, by its name, serializer, type-level generic
    arguments and null/default policy. *)
Definition metadata (name : string) (s : SerializerImpl)
    (generics : option (list GenericArgument))
    (keepNull useDefault : bool) (default : Value) : TypeMetadata.t :=
  {| TypeMetadata.typeName := name;
     TypeMetadata.discriminator := "$type";
     TypeMetadata.discriminant := VString name;
     TypeMetadata.discriminantMap := [];
     TypeMetadata.genericArguments := generics;
     TypeMetadata.log := {| errorEnabled := true |};
     TypeMetadata.referenceHandler := DirectReferenceHandlerImpl;
     TypeMetadata.serializer := s;
     TypeMetadata.preserveNull := keepNull;
     TypeMetadata.useDefaultValue := useDefault;
     TypeMetadata.serializedDefaultValue := default;
     TypeMetadata.deserializedDefaultValue := default |}.

(** A property's metadata: its generic arguments and its defaults; the
    policies are left to the type. *)
Definition property (name : string) (generics : option (list GenericArgument))
    (default : Value) : PropertyMetadata.t :=
  {| PropertyMetadata.propertyName := name;
     PropertyMetadata.genericArguments := generics;
     PropertyMetadata.referenceHandler := None;
     PropertyMetadata.serializer := None;
     PropertyMetadata.preserveNull := None;
     PropertyMetadata.useDefaultValue := None;
     PropertyMetadata.serializedDefaultValue := default;
     PropertyMetadata.deserializedDefaultValue := default |}.

(** A root context, keyed [$]. *)
Definition rootContext (tm : TypeMetadata.t) : SerializerContext :=
  {| root := VUndefined;
     serializerContextOptions :=
       {| SerializerContextOptions.jsonPathKey := PathName "$";
          SerializerContextOptions.typeMetadata := tm;
          SerializerContextOptions.propertyMetadata := None;
          SerializerContextOptions.genericArguments := None;
          SerializerContextOptions.referenceValueSetter := None |};
     parentSerializerContext := None |}.

(** The context of a field of the root object. *)
Definition fieldContext (tm : TypeMetadata.t) (p : PropertyMetadata.t) : SerializerContext :=
  defineChildSerializerContext (rootContext numberMetadata)
    {| SerializerContextOptions.jsonPathKey := PathName (PropertyMetadata.propertyName p);
       SerializerContextOptions.typeMetadata := tm;
       SerializerContextOptions.propertyMetadata := Some p;
       SerializerContextOptions.genericArguments := None;
       SerializerContextOptions.referenceValueSetter := None |}.

(** The type functions of a small registry: the built-in [Set] and
    [Number], and two members [A] and [B] of a polymorphic root [Root]. *)
Definition SetFn : Fn := {| fnId := 100%positive; fnName := "Set" |}.
Definition NumberFn : Fn := {| fnId := 101%positive; fnName := "Number" |}.
Definition RootFn : Fn := {| fnId := 102%positive; fnName := "Root" |}.
Definition AFn : Fn := {| fnId := 103%positive; fnName := "A" |}.
Definition BFn : Fn := {| fnId := 104%positive; fnName := "B" |}.

(** [Set], registered with no generic arguments of its own; [keepNull] is
    its null-preservation flag. *)
Definition setMetadata (keepNull : bool) : TypeMetadata.t :=
  metadata "Set" SetSerializerImpl None keepNull false VUndefined.

(** A member of the polymorphic hierarchy: discriminator field [tag],
    its own discriminant, and the hierarchy's discriminant map. *)
Definition memberMetadata (name : string) : TypeMetadata.t :=
  {| TypeMetadata.typeName := name;
     TypeMetadata.discriminator := "tag";
     TypeMetadata.discriminant := VString name;
     TypeMetadata.discriminantMap := [(AFn, VString "A"); (BFn, VString "B")];
     TypeMetadata.genericArguments := None;
     TypeMetadata.log := {| errorEnabled := true |};
     TypeMetadata.referenceHandler := DirectReferenceHandlerImpl;
     TypeMetadata.serializer := ExternalSerializer "Object";
     TypeMetadata.preserveNull := true;
     TypeMetadata.useDefaultValue := false;
     TypeMetadata.serializedDefaultValue := VUndefined;
     TypeMetadata.deserializedDefaultValue := VUndefined |}.

(** The registered types: the alias ["Number"], and the metadata of each
    type function (a function never registered gets plain metadata). *)
Definition typeCtorMap : gmap string Fn := {[ "Number" := NumberFn ]}.

Definition extractTypeMetadata (keepNull : bool) (f : Fn) : TypeMetadata.t :=
  if bool_decide (f = SetFn) then setMetadata keepNull
  else if bool_decide (f = NumberFn) then numberMetadata
  else if bool_decide (f = RootFn) then memberMetadata "Root"
  else if bool_decide (f = AFn) then memberMetadata "A"
  else if bool_decide (f = BFn) then memberMetadata "B"
  else metadata (fnName f) (ExternalSerializer "Object") None true false VUndefined.

Definition registry (keepNull : bool) : TypeArgument -> Outcome TypeMetadata.t :=
  resolveTypeMetadata typeCtorMap (extractTypeMetadata keepNull).

(** Primitive serializers that pass their input through. *)
Definition passThrough (id : string) (x : Value) (c : SerializerContext) : M Value :=
  ret x.

(** A field [tags] declared as a set of numbers, and one declared as a set
    of sets of numbers. *)
Definition numberSetField (keepNull : bool) : SerializerContext :=
  fieldContext (setMetadata keepNull)
    (property "tags" (Some [GenericType (ArgTypeFn NumberFn)]) VUndefined).

Definition nestedSetField (keepNull : bool) : SerializerContext :=
  fieldContext (setMetadata keepNull)
    (property "tags"
       (Some [GenericPair (ArgTypeFn SetFn) [GenericType (ArgTypeFn NumberFn)]])
       VUndefined).


(** A heap with the records [{tag: "A"}] (object 10) and [{tag: "C"}]
    (object 11). *)
Definition taggedRecords : Heap :=
  <[10%positive := ORecord {[ "tag" := VString "A" ]}]>
    (<[11%positive := ORecord {[ "tag" := VString "C" ]}]> ∅).

(** The context of element 0 of a set being rebuilt as object 2: its
    deferred setter adds to that set. *)
Definition elementContext : SerializerContext :=
  defineChildSerializerContext (rootContext numberMetadata)
    {| SerializerContextOptions.jsonPathKey := PathIndex 0;
       SerializerContextOptions.typeMetadata := numberMetadata;
       SerializerContextOptions.propertyMetadata := None;
       SerializerContextOptions.genericArguments := None;
       SerializerContextOptions.referenceValueSetter :=
         Some (SetSerializer.setAddSetter 2%positive) |}.

(** The state a top-level operation starts in: fresh maps over a heap. *)
Definition freshState (h : Heap) : State :=
  {| heap := h; referenceMap := ∅; referenceCallbackMap := ∅; errorLog := [] |}.

(** A state in which a first visit of object 1 stored [v]. *)
Definition visitedState (v : Value) : State :=
  {| heap := ∅; referenceMap := {[ 1%positive := v ]};
     referenceCallbackMap := ∅; errorLog := [] |}.

End Fixture.

(** * Vocabulary of the further properties *)

(** The state after [pushReferenceCallback] was called for each callback of
    a list, in order. *)
Definition pushedAll (referenceKey : Loc) (callbacks : list ReferenceCallback)
    (s : State) : State :=
  fold_left (fun st callback => snd (pushReferenceCallback referenceKey callback st))
    callbacks s.

(** The state in which a handler runs its initializer: the placeholder is
    stored. *)
Definition inProgress (referenceKey : Loc) (s : State) : State :=
  setReference referenceKey (VObject referenceKey) s.

(** An element serializer that defers: it registers the deferred setter of
    the context it is given for [referenceKey], and returns its input. *)
Definition deferringSerializer (referenceKey : Loc) (c : SerializerContext) (x : Value)
    : M Value :=
  registerReferenceCallback c referenceKey ;;; ret x.

(** The callback [registerReferenceCallback] queues for a setter:
    [() => referenceValueSetter(referenceMap.get(referenceKey))]. *)
Definition deferredCallback (setter : ReferenceValueSetter) (referenceKey : Loc)
    : ReferenceCallback :=
  fun referenceMap => setter (WeakMap_get VUndefined referenceMap referenceKey).

(** The text a json-path key adds to the path of the parent. *)
Definition pathSegment (k : JsonPathKey) : string :=
  match k with
  | PathIndex index => "[" +:+ pretty index +:+ "]"
  | PathName name => "['" +:+ name +:+ "']"
  end.

(** The context reached from [c] by defining a child for each of the
    options in turn, and the text these steps add to the path. *)
Definition descendant (c : SerializerContext) (steps : list SerializerContextOptions.t)
    : SerializerContext :=
  fold_left defineChildSerializerContext steps c.

Definition pathSegments (steps : list SerializerContextOptions.t) : string :=
  fold_right (fun options rest =>
                pathSegment (SerializerContextOptions.jsonPathKey options) +:+ rest)
    "" steps.

(** A context is an element context of a generic context when it is a
    child of it for an index, with the same root and type metadata, no
    property metadata and no generic arguments among its options. *)
Definition elementContextOf (genericSerializerContext ctx : SerializerContext) : Prop :=
  parentSerializerContext ctx = Some genericSerializerContext
  /\ root ctx = root genericSerializerContext
  /\ typeMetadata ctx = typeMetadata genericSerializerContext
  /\ propertyMetadata ctx = None
  /\ SerializerContextOptions.genericArguments (serializerContextOptions ctx) = None
  /\ exists i, jsonPathKey ctx = PathIndex i.

(** Text [JSON.stringify] has nothing to escape in: no control character,
    double quote or backslash. *)
Definition plainCharacter (a : Ascii.ascii) : bool :=
  let n := Ascii.nat_of_ascii a in
  (32 <=? n)%nat && negb (n =? 34)%nat && negb (n =? 92)%nat.

Fixpoint plainText (s : string) : bool :=
  match s with
  | EmptyString => true
  | String a rest => plainCharacter a && plainText rest
  end.

(** The items a [Set] holds after [add] was called for each value of a
    list, in order. *)
Definition addedAll (values : list Value) : list Value :=
  fold_left setAdd values [].

(** The text of the path of element [i] below a path. *)
Definition elementPath (path : string) (i : Z) : string :=
  path +:+ "[" +:+ pretty i +:+ "]".

(** A list of injects is in the order the sorter asks for when no inject
    has to come after a later one. *)
Definition sorterOrdered (injects : list InjectMetadata) : Prop :=
  forall i j x y, (i < j)%nat -> injects !! i = Some x -> injects !! j = Some y ->
    DescInjectSorter.sort x y <= 0.

(** * Properties *)

(** ** The reference handler *)

Lemma resolveReferenceCallbacks_replayed referenceKey s :
  resolveReferenceCallbacks referenceKey s = (Ok tt, replayed referenceKey s).
Proof.
  unfold resolveReferenceCallbacks, replayed, queuedCallbacks.
  destruct (referenceCallbackMap s !! referenceKey); reflexivity.
Qed.

Lemma fold_runReferenceCallback_referenceMap callbacks s :
  referenceMap (fold_left runReferenceCallback callbacks s) = referenceMap s.
Proof.
  revert s. induction callbacks as [|cb callbacks IH]; intros s; simpl; [reflexivity|].
  rewrite IH. reflexivity.
Qed.

Lemma replayed_referenceMap referenceKey s :
  referenceMap (replayed referenceKey s) = referenceMap s.
Proof. apply fold_runReferenceCallback_referenceMap. Qed.

Lemma entryOf_setReference referenceKey v s :
  entryOf (setReference referenceKey v s) referenceKey = v.
Proof.
  unfold entryOf, WeakMap_get, setReference; simpl.
  rewrite lookup_insert_eq. reflexivity.
Qed.

(** The first branch: the entry is nil (the key has no entry, or its entry
    is [undefined] or [null]) and the initializer returns. *)
Lemma handle_initializes d c referenceKey initializer s v s2 :
  isNil (entryOf s referenceKey) = true ->
  initializer (setReference referenceKey (VObject referenceKey) s) = (Ok v, s2) ->
  handle d c referenceKey initializer s
  = (Ok v, replayed referenceKey (setReference referenceKey v s2)).
Proof.
  intros Hnil Hinit.
  enter_handler d s referenceKey; rewrite Hnil, Hinit;
    rewrite resolveReferenceCallbacks_replayed; reflexivity.
Qed.

(** The first branch when the initializer throws: the exception passes
    through and the placeholder stays. *)
Lemma handle_initializer_throws d c referenceKey initializer s e s2 :
  isNil (entryOf s referenceKey) = true ->
  initializer (setReference referenceKey (VObject referenceKey) s) = (Throw e, s2) ->
  handle d c referenceKey initializer s = (Throw e, s2).
Proof.
  intros Hnil Hinit.
  enter_handler d s referenceKey; rewrite Hnil, Hinit; reflexivity.
Qed.

(** The second branch: the entry is the placeholder. *)
Lemma handle_placeholder d c referenceKey initializer s :
  entryOf s referenceKey = VObject referenceKey ->
  handle d c referenceKey initializer s = (Ok (VResolver referenceKey), s).
Proof.
  intros Hentry.
  enter_handler d s referenceKey; rewrite Hentry; simpl;
    unfold strictEquals; rewrite bool_decide_eq_true_2 by reflexivity; reflexivity.
Qed.

(** The third branch: the entry is a finished value. *)
Lemma handle_finished d c referenceKey initializer s :
  isNil (entryOf s referenceKey) = false ->
  entryOf s referenceKey <> VObject referenceKey ->
  handle d c referenceKey initializer s = (Ok (entryOf s referenceKey), s).
Proof.
  intros Hnil Hne.
  enter_handler d s referenceKey; rewrite Hnil;
    unfold strictEquals; rewrite bool_decide_eq_false_2 by assumption; reflexivity.
Qed.

(** C1, as amended.  For [define] and for [restore] alike (the direction
    [d]), with [entry = referenceMap.get(referenceKey)]:

    - when [entry] is nil (the key has no entry, or its entry is
      [undefined] or [null]), the initializer runs on the state in which
      the placeholder [referenceKey -> referenceKey] is already stored; its
      result [v] overwrites the entry in the state it left, the callbacks
      queued for the key are then replayed in order over that state, and
      [v] is returned (when the initializer throws, the exception passes
      through); the initializer runs once: the call depends on it only
      through that one run on the placeholder state;
    - when [entry] is the key itself, a resolver is returned and the state
      is untouched, so the initializer did not run; called later, the
      resolver reads the entry the map holds then;
    - otherwise [entry] is returned and the state is untouched. *)
Theorem handler_three_cases d c referenceKey initializer s :
  (isNil (entryOf s referenceKey) = true ->
     (forall v s2,
        initializer (setReference referenceKey (VObject referenceKey) s) = (Ok v, s2) ->
        handle d c referenceKey initializer s
        = (Ok v, replayed referenceKey (setReference referenceKey v s2)))
     /\ (forall e s2,
        initializer (setReference referenceKey (VObject referenceKey) s) = (Throw e, s2) ->
        handle d c referenceKey initializer s = (Throw e, s2))
     /\ (forall initializer',
        initializer' (setReference referenceKey (VObject referenceKey) s)
        = initializer (setReference referenceKey (VObject referenceKey) s) ->
        handle d c referenceKey initializer' s = handle d c referenceKey initializer s))
  /\ (entryOf s referenceKey = VObject referenceKey ->
        handle d c referenceKey initializer s = (Ok (VResolver referenceKey), s)
        /\ forall s', callResolver (VResolver referenceKey) s'
                      = (Ok (entryOf s' referenceKey), s'))
  /\ (isNil (entryOf s referenceKey) = false ->
      entryOf s referenceKey <> VObject referenceKey ->
        handle d c referenceKey initializer s = (Ok (entryOf s referenceKey), s)).
Proof.
  split; [|split].
  - intros Hnil. split; [|split].
    + intros v s2 Hinit. eapply handle_initializes; eassumption.
    + intros e s2 Hinit. eapply handle_initializer_throws; eassumption.
    + intros initializer' Hsame.
      destruct (initializer (setReference referenceKey (VObject referenceKey) s))
        as [[v|e] s2] eqn:Hinit.
      * rewrite (handle_initializes d c _ _ _ _ _ Hnil Hinit).
        apply handle_initializes; assumption.
      * rewrite (handle_initializer_throws d c _ _ _ _ _ Hnil Hinit).
        apply handle_initializer_throws; assumption.
  - intros Hentry. split.
    + apply handle_placeholder; assumption.
    + intros s'. reflexivity.
  - intros Hnil Hne. apply handle_finished; assumption.
Qed.

(** The three cases at concrete inputs: a first visit of object 1 whose
    initializer produces [7]; a first visit whose initializer queues the
    deferred setter of a set element for object 1 before it produces [7]
    (the replay hands [7] to the setter, which adds it to the set); a visit
    while object 1 is in progress; and a visit after [7] was stored. *)
Lemma handler_three_cases_witness :
  handle Serializing (Fixture.rootContext Fixture.numberMetadata) 1%positive
    (ret (VNumber 7)) (Fixture.freshState ∅)
  = (Ok (VNumber 7), Fixture.visitedState (VNumber 7))
  /\ (exists queue,
       handle Deserializing (Fixture.rootContext Fixture.numberMetadata) 1%positive
         (registerReferenceCallback Fixture.elementContext 1%positive ;;;
          ret (VNumber 7))
         (Fixture.freshState {[ 2%positive := OSet [] ]})
       = (Ok (VNumber 7),
          {| heap := {[ 2%positive := OSet [VNumber 7] ]};
             referenceMap := {[ 1%positive := VNumber 7 ]};
             referenceCallbackMap := queue;
             errorLog := [] |}))
  /\ handle Serializing (Fixture.rootContext Fixture.numberMetadata) 1%positive
       (ret (VNumber 7)) (Fixture.visitedState (VObject 1%positive))
     = (Ok (VResolver 1%positive), Fixture.visitedState (VObject 1%positive))
  /\ handle Deserializing (Fixture.rootContext Fixture.numberMetadata) 1%positive
       (throw (Error "not called")) (Fixture.visitedState (VNumber 7))
     = (Ok (VNumber 7), Fixture.visitedState (VNumber 7)).
Proof.
  split; [|split; [|split]].
  - exact (proj1 (proj1 (handler_three_cases Serializing
             (Fixture.rootContext Fixture.numberMetadata) 1%positive
             (ret (VNumber 7)) (Fixture.freshState ∅)) eq_refl)
             (VNumber 7) _ eq_refl).
  - eexists.
    exact (proj1 (proj1 (handler_three_cases Deserializing
             (Fixture.rootContext Fixture.numberMetadata) 1%positive
             (registerReferenceCallback Fixture.elementContext 1%positive ;;;
              ret (VNumber 7))
             (Fixture.freshState {[ 2%positive := OSet [] ]})) eq_refl)
             (VNumber 7) _ eq_refl).
  - exact (proj1 (proj1 (proj2 (handler_three_cases Serializing
             (Fixture.rootContext Fixture.numberMetadata) 1%positive
             (ret (VNumber 7)) (Fixture.visitedState (VObject 1%positive)))) eq_refl)).
  - refine (proj2 (proj2 (handler_three_cases Deserializing
             (Fixture.rootContext Fixture.numberMetadata) 1%positive
             (throw (Error "not called")) (Fixture.visitedState (VNumber 7))))
             eq_refl _).
    vm_compute. discriminate.
Defined.

(** C1, as the specification words its last case, fails: an entry that is
    [null] is not the key, yet the handler runs the initializer again
    instead of returning the entry. *)
Lemma stored_null_entry_not_returned : ~ stored_entry_returned_directly.
Proof.
  intros Hclaim.
  assert (Hrun :
    handle Serializing (Fixture.rootContext Fixture.numberMetadata) 1%positive
      (ret (VNumber 7)) (Fixture.visitedState VNull)
    = (Ok (VNumber 7), Fixture.visitedState (VNumber 7))) by reflexivity.
  assert (Hstored :
    handle Serializing (Fixture.rootContext Fixture.numberMetadata) 1%positive
      (ret (VNumber 7)) (Fixture.visitedState VNull)
    = (Ok VNull, Fixture.visitedState VNull)).
  { apply Hclaim; [reflexivity | discriminate]. }
  rewrite Hrun in Hstored. discriminate Hstored.
Qed.

(** C4, as amended.  When a first [define] or [restore] for a key ran its
    initializer (the entry was nil) and completed with a value [v] that is
    neither [undefined], [null] nor the key itself, the map holds [v] for
    the key afterwards, and every later call for the key, in any state in
    which the map still holds [v], returns [v] and leaves the state as it
    is, whatever its own initializer would do. *)
Theorem finished_value_is_reused d c referenceKey initializer s v s1 :
  isNil (entryOf s referenceKey) = true ->
  handle d c referenceKey initializer s = (Ok v, s1) ->
  isNil v = false ->
  v <> VObject referenceKey ->
  entryOf s1 referenceKey = v
  /\ forall d' c' initializer' s2,
       entryOf s2 referenceKey = v ->
       handle d' c' referenceKey initializer' s2 = (Ok v, s2).
Proof.
  intros Hnil Hfirst Hv Hne.
  assert (Hstored : entryOf s1 referenceKey = v).
  { destruct (initializer (setReference referenceKey (VObject referenceKey) s))
      as [[v0|e] s0] eqn:Hinit.
    - rewrite (handle_initializes d c _ _ _ _ _ Hnil Hinit) in Hfirst.
      injection Hfirst as Hv0 Hs1. subst v0 s1.
      unfold entryOf. rewrite replayed_referenceMap.
      apply entryOf_setReference.
    - rewrite (handle_initializer_throws d c _ _ _ _ _ Hnil Hinit) in Hfirst.
      discriminate Hfirst. }
  split; [exact Hstored|].
  intros d' c' initializer' s2 Hentry.
  rewrite <- Hentry at 1.
  apply handle_finished; rewrite Hentry; assumption.
Qed.

(** A first visit of object 1 produces [7]; a later visit, whose
    initializer would throw, returns [7]. *)
Lemma finished_value_is_reused_witness :
  handle Deserializing (Fixture.rootContext Fixture.numberMetadata) 1%positive
    (throw (Error "not called")) (Fixture.visitedState (VNumber 7))
  = (Ok (VNumber 7), Fixture.visitedState (VNumber 7)).
Proof.
  refine (proj2 (finished_value_is_reused Serializing
            (Fixture.rootContext Fixture.numberMetadata) 1%positive
            (ret (VNumber 7)) (Fixture.freshState ∅) (VNumber 7)
            (Fixture.visitedState (VNumber 7)) eq_refl eq_refl eq_refl _)
            Deserializing (Fixture.rootContext Fixture.numberMetadata)
            (throw (Error "not called")) (Fixture.visitedState (VNumber 7)) eq_refl).
  discriminate.
Defined.

(** C4, as the specification words it, fails: a first visit whose
    initializer produces [null] completes, and the next visit runs its own
    initializer and returns what that one produces. *)
Lemma produced_null_is_not_reused : ~ produced_value_always_reused.
Proof.
  intros Hclaim.
  specialize (Hclaim Serializing Serializing
                (Fixture.rootContext Fixture.numberMetadata)
                (Fixture.rootContext Fixture.numberMetadata)
                1%positive (ret VNull) (ret (VNumber 7))
                (Fixture.freshState ∅) VNull (Fixture.visitedState VNull)
                eq_refl eq_refl).
  assert (Hsecond :
    handle Serializing (Fixture.rootContext Fixture.numberMetadata) 1%positive
      (ret (VNumber 7)) (Fixture.visitedState VNull)
    = (Ok (VNumber 7), Fixture.visitedState (VNumber 7))) by reflexivity.
  rewrite Hsecond in Hclaim.
  discriminate Hclaim.
Qed.

(** The same failure for a produced value that is the key itself: the
    stored entry then reads as the placeholder, and the next visit returns
    a resolver instead of the value. *)
Lemma produced_key_is_taken_for_placeholder :
  handle Serializing (Fixture.rootContext Fixture.numberMetadata) 1%positive
    (ret (VObject 1%positive)) (Fixture.freshState ∅)
  = (Ok (VObject 1%positive), Fixture.visitedState (VObject 1%positive))
  /\ handle Serializing (Fixture.rootContext Fixture.numberMetadata) 1%positive
       (ret (VNumber 7)) (Fixture.visitedState (VObject 1%positive))
     = (Ok (VResolver 1%positive), Fixture.visitedState (VObject 1%positive)).
Proof. split; reflexivity. Qed.

(** C5.  [define] and [restore] are the same function: for every context,
    key, initializer and state they return the same outcome and leave the
    same state (reference map, callback queue, object graph and log). *)
Theorem define_restore_agree c referenceKey initializer s :
  DirectReferenceHandler.define c referenceKey initializer s
  = DirectReferenceHandler.restore c referenceKey initializer s.
Proof.
  unfold DirectReferenceHandler.define, DirectReferenceHandler.restore, bind.
  destruct (referenceMap_get referenceKey s) as [[referenceValue|e] s0];
    [|reflexivity].
  destruct (isNil referenceValue); [|reflexivity].
  destruct (referenceMap_set referenceKey (VObject referenceKey) s0) as [[[]|e] s1];
    reflexivity.
Qed.

(** ** Null and default values *)

Lemma serializedDefaultValue_configured c :
  useDefaultValue c = true ->
  serializedDefaultValue c
  = configuredDefault PropertyMetadata.serializedDefaultValue
      TypeMetadata.serializedDefaultValue c.
Proof.
  intros Huse. unfold serializedDefaultValue, configuredDefault, propertyValue, nullish.
  rewrite Huse. destruct (propertyMetadata c); reflexivity.
Qed.

Lemma deserializedDefaultValue_configured c :
  useDefaultValue c = true ->
  deserializedDefaultValue c
  = configuredDefault PropertyMetadata.deserializedDefaultValue
      TypeMetadata.deserializedDefaultValue c.
Proof.
  intros Huse. unfold deserializedDefaultValue, configuredDefault, propertyValue, nullish.
  rewrite Huse. destruct (propertyMetadata c); reflexivity.
Qed.

(** C7.  For every context, in both directions:

    - with null-preservation enabled the null value is [null], and the set
      serializer returns [null] for a [null] input;
    - with null-preservation disabled and default-substitution enabled the
      null value is the configured default (the property's when present,
      else the type's), and that is what the set serializer returns for
      [null];
    - with default-substitution disabled the default value is [undefined],
      which is what the set serializer returns for an absent input. *)
Theorem null_default_policy defineTypeMetadata serializeValue deserializeValue c s :
  (preserveNull c = true ->
     serializedNullValue c = VNull
     /\ deserializedNullValue c = VNull
     /\ SetSerializer.serialize defineTypeMetadata serializeValue VNull c s = (Ok VNull, s)
     /\ SetSerializer.deserialize defineTypeMetadata deserializeValue VNull c s
        = (Ok VNull, s))
  /\ (preserveNull c = false -> useDefaultValue c = true ->
     serializedNullValue c
       = configuredDefault PropertyMetadata.serializedDefaultValue
           TypeMetadata.serializedDefaultValue c
     /\ deserializedNullValue c
       = configuredDefault PropertyMetadata.deserializedDefaultValue
           TypeMetadata.deserializedDefaultValue c
     /\ SetSerializer.serialize defineTypeMetadata serializeValue VNull c s
        = (Ok (configuredDefault PropertyMetadata.serializedDefaultValue
                 TypeMetadata.serializedDefaultValue c), s)
     /\ SetSerializer.deserialize defineTypeMetadata deserializeValue VNull c s
        = (Ok (configuredDefault PropertyMetadata.deserializedDefaultValue
                 TypeMetadata.deserializedDefaultValue c), s))
  /\ (useDefaultValue c = false ->
     serializedDefaultValue c = VUndefined
     /\ deserializedDefaultValue c = VUndefined
     /\ SetSerializer.serialize defineTypeMetadata serializeValue VUndefined c s
        = (Ok VUndefined, s)
     /\ SetSerializer.deserialize defineTypeMetadata deserializeValue VUndefined c s
        = (Ok VUndefined, s)).
Proof.
  split; [|split].
  - intros Hnull.
    unfold SetSerializer.serialize, SetSerializer.deserialize, ret; simpl.
    unfold serializedNullValue, deserializedNullValue. rewrite Hnull. auto.
  - intros Hnull Huse.
    unfold SetSerializer.serialize, SetSerializer.deserialize, ret; simpl.
    unfold serializedNullValue, deserializedNullValue. rewrite Hnull.
    rewrite (serializedDefaultValue_configured c Huse),
      (deserializedDefaultValue_configured c Huse). auto.
  - intros Huse.
    unfold SetSerializer.serialize, SetSerializer.deserialize, ret; simpl.
    unfold serializedDefaultValue, deserializedDefaultValue. rewrite Huse. auto.
Qed.

(** The policy at three contexts: a set type that preserves null; a set
    field whose type substitutes the default [0] and whose property
    declares the default [5]; a set type with no substitution. *)
Lemma null_default_policy_witness :
  SetSerializer.serialize (fun _ => Throw (Error "unused")) (fun _ _ => ret VUndefined)
    VNull
    (Fixture.rootContext
       (Fixture.metadata "Set" SetSerializerImpl None true false VUndefined))
    (Fixture.freshState ∅)
  = (Ok VNull, Fixture.freshState ∅)
  /\ SetSerializer.serialize (fun _ => Throw (Error "unused")) (fun _ _ => ret VUndefined)
       VNull
       (Fixture.fieldContext
          (Fixture.metadata "Set" SetSerializerImpl None false true (VNumber 0))
          (Fixture.property "tags" None (VNumber 5)))
       (Fixture.freshState ∅)
     = (Ok (VNumber 5), Fixture.freshState ∅)
  /\ SetSerializer.serialize (fun _ => Throw (Error "unused")) (fun _ _ => ret VUndefined)
       VUndefined
       (Fixture.rootContext
          (Fixture.metadata "Set" SetSerializerImpl None false false (VNumber 0)))
       (Fixture.freshState ∅)
     = (Ok VUndefined, Fixture.freshState ∅).
Proof.
  split; [|split].
  - exact (proj1 (proj2 (proj2 (proj1 (null_default_policy
             (fun _ => Throw (Error "unused")) (fun _ _ => ret VUndefined)
             (fun _ _ => ret VUndefined)
             (Fixture.rootContext
                (Fixture.metadata "Set" SetSerializerImpl None true false VUndefined))
             (Fixture.freshState ∅)) eq_refl)))).
  - exact (proj1 (proj2 (proj2 (proj1 (proj2 (null_default_policy
             (fun _ => Throw (Error "unused")) (fun _ _ => ret VUndefined)
             (fun _ _ => ret VUndefined)
             (Fixture.fieldContext
                (Fixture.metadata "Set" SetSerializerImpl None false true (VNumber 0))
                (Fixture.property "tags" None (VNumber 5)))
             (Fixture.freshState ∅))) eq_refl eq_refl)))).
  - exact (proj1 (proj2 (proj2 (proj2 (proj2 (null_default_policy
             (fun _ => Throw (Error "unused")) (fun _ _ => ret VUndefined)
             (fun _ _ => ret VUndefined)
             (Fixture.rootContext
                (Fixture.metadata "Set" SetSerializerImpl None false false (VNumber 0)))
             (Fixture.freshState ∅))) eq_refl)))).
Defined.

(** ** The set serializer's handling of its input *)

(** C6, for the set serializer.  In both directions: an absent input
    returns the context's default value and a [null] input the context's
    null value, in that order and with no effect; an input that is a set
    (for [deserialize], an array) is handed to the reference handler with
    the collection as key; any other input returns [undefined] without
    throwing, after one [log.error] call naming the json path when error
    logging is enabled, and with no other effect. *)
Theorem set_serializer_input_order defineTypeMetadata serializeValue deserializeValue
    x c s :
  SetSerializer.serialize defineTypeMetadata serializeValue VUndefined c s
  = (Ok (serializedDefaultValue c), s)
  /\ SetSerializer.serialize defineTypeMetadata serializeValue VNull c s
     = (Ok (serializedNullValue c), s)
  /\ SetSerializer.deserialize defineTypeMetadata deserializeValue VUndefined c s
     = (Ok (deserializedDefaultValue c), s)
  /\ SetSerializer.deserialize defineTypeMetadata deserializeValue VNull c s
     = (Ok (deserializedNullValue c), s)
  /\ (isNil x = false ->
      (forall set items, asSet (heap s) x = Some (set, items) ->
         SetSerializer.serialize defineTypeMetadata serializeValue x c s
         = defineReference c set
             (SetSerializer.serializeInitializer defineTypeMetadata serializeValue set c) s)
      /\ (asSet (heap s) x = None ->
         SetSerializer.serialize defineTypeMetadata serializeValue x c s
         = (Ok VUndefined,
            afterErrorLog c (jsonPath c +:+ ": cannot serialize value as set.") x s))
      /\ (forall array items, asArray (heap s) x = Some (array, items) ->
         SetSerializer.deserialize defineTypeMetadata deserializeValue x c s
         = restoreReference c array
             (SetSerializer.deserializeInitializer defineTypeMetadata deserializeValue
                array c) s)
      /\ (asArray (heap s) x = None ->
         SetSerializer.deserialize defineTypeMetadata deserializeValue x c s
         = (Ok VUndefined,
            afterErrorLog c (jsonPath c +:+ ": cannot deserialize value as set.") x s))).
Proof.
  do 4 (split; [reflexivity|]).
  intros Hnil.
  assert (Hundefined : isUndefined x = false) by (destruct x; (discriminate || reflexivity)).
  assert (Hnull : isNull x = false) by (destruct x; (discriminate || reflexivity)).
  unfold SetSerializer.serialize, SetSerializer.deserialize, afterErrorLog.
  rewrite Hundefined, Hnull. unfold bind, getHeap.
  split; [|split; [|split]].
  - intros set items Hset. rewrite Hset. reflexivity.
  - intros Hset. rewrite Hset. destruct (errorEnabled (log c)); reflexivity.
  - intros array items Harray. rewrite Harray. reflexivity.
  - intros Harray. rewrite Harray. destruct (errorEnabled (log c)); reflexivity.
Qed.

(** A number where a set is expected, in a field [tags] of the root object:
    both directions log the mismatch and return [undefined]. *)
Lemma set_serializer_input_order_witness :
  SetSerializer.serialize (fun _ => Throw (Error "unused")) (fun _ _ => ret VUndefined)
    (VNumber 3)
    (Fixture.fieldContext
       (Fixture.metadata "Set" SetSerializerImpl None true false VUndefined)
       (Fixture.property "tags" None VUndefined))
    (Fixture.freshState ∅)
  = (Ok VUndefined,
     {| heap := ∅; referenceMap := ∅; referenceCallbackMap := ∅;
        errorLog := [("$['tags']: cannot serialize value as set.", VNumber 3)] |})
  /\ SetSerializer.deserialize (fun _ => Throw (Error "unused")) (fun _ _ => ret VUndefined)
       (VNumber 3)
       (Fixture.fieldContext
          (Fixture.metadata "Set" SetSerializerImpl None true false VUndefined)
          (Fixture.property "tags" None VUndefined))
       (Fixture.freshState ∅)
     = (Ok VUndefined,
        {| heap := ∅; referenceMap := ∅; referenceCallbackMap := ∅;
           errorLog := [("$['tags']: cannot deserialize value as set.", VNumber 3)] |}).
Proof.
  pose proof (set_serializer_input_order
                (fun _ => Throw (Error "unused")) (fun _ _ => ret VUndefined)
                (fun _ _ => ret VUndefined) (VNumber 3)
                (Fixture.fieldContext
                   (Fixture.metadata "Set" SetSerializerImpl None true false VUndefined)
                   (Fixture.property "tags" None VUndefined))
                (Fixture.freshState ∅)) as H.
  destruct H as (_ & _ & _ & _ & H).
  destruct (H eq_refl) as (_ & Hserialize & _ & Hdeserialize).
  split; [exact (Hserialize eq_refl) | exact (Hdeserialize eq_refl)].
Defined.

(** ** Generic contexts *)

Lemma arrayAt_None {A : Type} (items : list A) (i : Z) :
  arrayAt items i = None <-> i < 0 \/ Z.of_nat (length items) <= i.
Proof.
  unfold arrayAt. destruct (Z.ltb_spec i 0) as [Hneg|Hpos].
  - split; [intros _; left; exact Hneg | reflexivity].
  - rewrite lookup_ge_None. split.
    + intros Hlen. right. lia.
    + intros [Hneg|Hlen]; lia.
Qed.

Lemma genericArgumentAt_None c i :
  genericArgumentAt c i = None <->
  genericArguments c = None
  \/ exists arguments, genericArguments c = Some arguments
       /\ (i < 0 \/ Z.of_nat (length arguments) <= i).
Proof.
  unfold genericArgumentAt. destruct (genericArguments c) as [arguments|].
  - rewrite arrayAt_None. split.
    + intros Hrange. right. exists arguments. split; [reflexivity | exact Hrange].
    + intros [Habsent | (arguments' & Heq & Hrange)]; [discriminate Habsent|].
      injection Heq as <-. exact Hrange.
  - split; [intros _; left; reflexivity | reflexivity].
Qed.

Lemma defineGenericSerializerContext_absent defineTypeMetadata c i :
  genericArguments c = None ->
  defineGenericSerializerContext defineTypeMetadata c i
  = Throw (genericArgumentsMissing c).
Proof.
  intros Hnone. unfold defineGenericSerializerContext. rewrite Hnone. reflexivity.
Qed.

Lemma defineGenericSerializerContext_out_of_range defineTypeMetadata c i arguments :
  genericArguments c = Some arguments ->
  i < 0 \/ Z.of_nat (length arguments) <= i ->
  defineGenericSerializerContext defineTypeMetadata c i
  = Throw (genericArgumentMissing c i).
Proof.
  intros Hsome Hout. unfold defineGenericSerializerContext.
  rewrite Hsome. apply arrayAt_None in Hout. rewrite Hout. reflexivity.
Qed.


Lemma defineGenericSerializerContext_resolved defineTypeMetadata c i argument tm :
  genericArgumentAt c i = Some argument ->
  defineTypeMetadata (genericTypeArgument argument) = Ok tm ->
  exists c',
    defineGenericSerializerContext defineTypeMetadata c i = Ok c'
    /\ typeMetadata c' = tm
    /\ genericArguments c'
       = orElseOpt (genericGenericArguments argument) (TypeMetadata.genericArguments tm)
    /\ (forall t nested, argument = GenericPair t nested ->
          genericArguments c' = Some nested)
    /\ propertyMetadata c' = None
    /\ jsonPathKey c' = jsonPathKey c
    /\ referenceValueSetter c' = referenceValueSetter c
    /\ root c' = root c
    /\ parentSerializerContext c' = parentSerializerContext c.
Proof.
  intros Hat Htm. unfold genericArgumentAt in Hat.
  unfold defineGenericSerializerContext.
  destruct (genericArguments c) as [arguments|]; [|discriminate Hat].
  rewrite Hat, Htm. eexists. split; [reflexivity|].
  repeat split.
  intros t nested ->. reflexivity.
Qed.




(** ** Polymorphic contexts *)

(** The registry's resolver always resolves a type function. *)
Lemma resolveTypeMetadata_typeFn typeCtorMap extractTypeMetadata typeFn :
  resolveTypeMetadata typeCtorMap extractTypeMetadata (ArgTypeFn typeFn)
  = Ok (extractTypeMetadata typeFn).
Proof. reflexivity. Qed.

Lemma isCtorFunction_function x :
  isCtorFunction x = true <-> exists f, x = VFunction f /\ fnName f <> "".
Proof.
  unfold isCtorFunction. split.
  - intros H. apply andb_true_iff in H as [Hfunction Hname].
    destruct x as [| | | | | |f|]; try discriminate Hfunction; [|discriminate Hname].
    exists f. split; [reflexivity|].
    simpl in Hname. apply negb_true_iff, String.eqb_neq in Hname. exact Hname.
  - intros (f & -> & Hname). simpl.
    apply negb_true_iff, String.eqb_neq. exact Hname.
Qed.

Lemma Map_get_missing m k :
  (forall discriminant, (k, discriminant) ∉ m) -> Map_get m k = VUndefined.
Proof.
  intros Hmissing. unfold Map_get.
  destruct (find (fun entry => bool_decide (entry.1 = k)) m) as [[k' d]|] eqn:Hfind;
    [|reflexivity].
  apply find_some in Hfind as [Hin Hkey].
  apply bool_decide_eq_true in Hkey. simpl in Hkey. subst k'.
  exfalso. apply (Hmissing d). apply list_elem_of_In. exact Hin.
Qed.

Lemma getProperty_object h l name :
  exists v, getProperty h (VObject l) name = Ok v.
Proof.
  unfold getProperty. destruct (h !! l) as [[fields| | |]|]; eexists; reflexivity.
Qed.

(** The scan returns the first member that matches, and fails when none
    does. *)
Lemma scanDiscriminantMap_first defineTypeMetadata h c l before typeCtor discriminant
    after tm :
  (forall member, member ∈ before ->
     (exists tm', defineTypeMetadata (ArgTypeFn member.1) = Ok tm')
     /\ memberMatches defineTypeMetadata h (VObject l) member = false) ->
  defineTypeMetadata (ArgTypeFn typeCtor) = Ok tm ->
  getProperty h (VObject l) (TypeMetadata.discriminator tm) = Ok discriminant ->
  scanDiscriminantMap defineTypeMetadata h c (VObject l)
    (before ++ (typeCtor, discriminant) :: after)
  = Ok (withTypeMetadata c tm).
Proof.
  intros Hbefore Htm Hfield.
  induction before as [|[f d] before IH]; cbn [app scanDiscriminantMap].
  - rewrite Htm, Hfield. unfold strictEquals.
    rewrite bool_decide_eq_true_2 by reflexivity. reflexivity.
  - destruct (Hbefore (f, d)) as [[tm' Htm'] Hno]; [left|].
    unfold memberMatches in Hno. cbn [fst snd] in Hno, Htm'. rewrite Htm' in Hno |- *.
    destruct (getProperty_object h l (TypeMetadata.discriminator tm')) as [v Hv].
    rewrite Hv in Hno |- *. rewrite Hno.
    apply IH. intros member Hin. apply Hbefore. right. exact Hin.
Qed.

Lemma scanDiscriminantMap_none defineTypeMetadata h c l members :
  (forall member, member ∈ members ->
     (exists tm', defineTypeMetadata (ArgTypeFn member.1) = Ok tm')
     /\ memberMatches defineTypeMetadata h (VObject l) member = false) ->
  scanDiscriminantMap defineTypeMetadata h c (VObject l) members
  = Throw (discriminantMissing c).
Proof.
  intros Hmembers.
  induction members as [|[f d] members IH]; cbn [scanDiscriminantMap]; [reflexivity|].
  destruct (Hmembers (f, d)) as [[tm' Htm'] Hno]; [left|].
  unfold memberMatches in Hno. cbn [fst snd] in Hno, Htm'. rewrite Htm' in Hno |- *.
  destruct (getProperty_object h l (TypeMetadata.discriminator tm')) as [v Hv].
  rewrite Hv in Hno |- *. rewrite Hno.
  apply IH. intros member Hin. apply Hmembers. right. exact Hin.
Qed.

(** C9.  [definePolymorphicSerializerContext x] takes the type-function
    route exactly when [x] is a function whose name is not empty, and then
    looks [x] up in the discriminant map; every other value, a function
    with an empty name included, takes the record route and is matched by
    scanning the discriminator fields. *)
Theorem polymorphic_route_by_ctor_function defineTypeMetadata h c x :
  (isFunction x = true /\ functionName x <> "" ->
     exists typeFn,
       x = VFunction typeFn
       /\ definePolymorphicSerializerContext defineTypeMetadata h c x
          = definePolymorphicSerializerContextByTypeFn defineTypeMetadata c typeFn)
  /\ (~ (isFunction x = true /\ functionName x <> "") ->
     definePolymorphicSerializerContext defineTypeMetadata h c x
     = definePolymorphicSerializerContextByDiscriminant defineTypeMetadata h c x)
  /\ (forall f, fnName f = "" ->
     definePolymorphicSerializerContext defineTypeMetadata h c (VFunction f)
     = definePolymorphicSerializerContextByDiscriminant defineTypeMetadata h c
         (VFunction f)).
Proof.
  assert (Hctor : isCtorFunction x = true <-> isFunction x = true /\ functionName x <> "").
  { unfold isCtorFunction. rewrite andb_true_iff, negb_true_iff, String.eqb_neq.
    reflexivity. }
  split; [|split].
  - intros Hfunction. apply Hctor in Hfunction as Hx.
    apply isCtorFunction_function in Hx as (typeFn & -> & Hname).
    exists typeFn. split; [reflexivity|].
    unfold definePolymorphicSerializerContext.
    rewrite (proj2 Hctor Hfunction). reflexivity.
  - intros Hnot. unfold definePolymorphicSerializerContext.
    destruct (isCtorFunction x) eqn:Hx; [|reflexivity].
    exfalso. apply Hnot, Hctor. reflexivity.
  - intros f Hname. unfold definePolymorphicSerializerContext, isCtorFunction.
    simpl. rewrite Hname. reflexivity.
Qed.

(** The class [A] takes the type-function route; an anonymous function
    takes the record route and matches no member. *)
Lemma polymorphic_route_by_ctor_function_witness :
  definePolymorphicSerializerContext (Fixture.registry true) Fixture.taggedRecords
    (Fixture.rootContext (Fixture.memberMetadata "Root")) (VFunction Fixture.AFn)
  = Ok (withTypeMetadata (Fixture.rootContext (Fixture.memberMetadata "Root"))
          (Fixture.memberMetadata "A"))
  /\ definePolymorphicSerializerContext (Fixture.registry true) Fixture.taggedRecords
       (Fixture.rootContext (Fixture.memberMetadata "Root"))
       (VFunction {| fnId := 200%positive; fnName := "" |})
     = Throw (Error
         "$: cannot define discriminant of polymorphic type. This is usually caused by invalid configuration.").
Proof.
  split.
  - destruct (proj1 (polymorphic_route_by_ctor_function (Fixture.registry true)
                 Fixture.taggedRecords
                 (Fixture.rootContext (Fixture.memberMetadata "Root"))
                 (VFunction Fixture.AFn))
               (conj eq_refl (fun H : "A" = "" => eq_ind "A"
                  (fun s => match s with EmptyString => False | String _ _ => True end)
                  I "" H)))
      as (typeFn & Hx & Hroute).
    rewrite Hroute. injection Hx as <-. reflexivity.
  - rewrite (proj2 (proj2 (polymorphic_route_by_ctor_function (Fixture.registry true)
                 Fixture.taggedRecords
                 (Fixture.rootContext (Fixture.memberMetadata "Root"))
                 (VFunction {| fnId := 200%positive; fnName := "" |})))
               {| fnId := 200%positive; fnName := "" |} eq_refl).
    reflexivity.
Defined.

(** C3.  For every context [c] (its discriminant map is
    [discriminantMap c]):

    - when [x] is a type function (a function with a name), its
      discriminant is looked up in the map: no entry for it raises the
      configuration error, and an entry with a discriminant selects the
      metadata the registry resolves the type function to;
    - when [x] is a record, the map is scanned in order: the first member
      whose discriminator field in the record equals the member's
      discriminant is selected, and when no member matches the
      configuration error is raised.

    Selecting the metadata [tm] means that the function returns a context
    whose type metadata is [tm] and which is otherwise the given context:
    the same json-path key, property metadata, generic arguments, value
    setter, root and parent.  The members of the map are registered types:
    the registry resolves them. *)
Theorem polymorphic_resolution defineTypeMetadata h c :
  (forall typeFn, fnName typeFn <> "" ->
     ((forall discriminant, (typeFn, discriminant) ∉ discriminantMap c) ->
        definePolymorphicSerializerContext defineTypeMetadata h c (VFunction typeFn)
        = Throw (discriminantMissing c))
     /\ (forall tm,
        isNil (Map_get (discriminantMap c) typeFn) = false ->
        defineTypeMetadata (ArgTypeFn typeFn) = Ok tm ->
        exists c',
          definePolymorphicSerializerContext defineTypeMetadata h c (VFunction typeFn)
          = Ok c'
          /\ c' = withTypeMetadata c tm
          /\ polymorphicContextOf c tm c'))
  /\ (forall l,
     (forall member, member ∈ discriminantMap c ->
        exists tm, defineTypeMetadata (ArgTypeFn member.1) = Ok tm) ->
     (forall before typeCtor discriminant after tm,
        discriminantMap c = before ++ (typeCtor, discriminant) :: after ->
        (forall member, member ∈ before ->
           memberMatches defineTypeMetadata h (VObject l) member = false) ->
        defineTypeMetadata (ArgTypeFn typeCtor) = Ok tm ->
        getProperty h (VObject l) (TypeMetadata.discriminator tm) = Ok discriminant ->
        exists c',
          definePolymorphicSerializerContext defineTypeMetadata h c (VObject l) = Ok c'
          /\ c' = withTypeMetadata c tm
          /\ polymorphicContextOf c tm c')
     /\ ((forall member, member ∈ discriminantMap c ->
           memberMatches defineTypeMetadata h (VObject l) member = false) ->
        definePolymorphicSerializerContext defineTypeMetadata h c (VObject l)
        = Throw (discriminantMissing c))).
Proof.
  assert (Hcontext : forall tm, polymorphicContextOf c tm (withTypeMetadata c tm)).
  { intros tm. repeat split. }
  split.
  - intros typeFn Hname.
    assert (Hctor : isCtorFunction (VFunction typeFn) = true).
    { apply isCtorFunction_function. exists typeFn. split; [reflexivity | exact Hname]. }
    unfold definePolymorphicSerializerContext. rewrite Hctor.
    unfold definePolymorphicSerializerContextByTypeFn. split.
    + intros Hmissing. rewrite (Map_get_missing _ _ Hmissing). reflexivity.
    + intros tm Hfound Htm. rewrite Hfound, Htm.
      exists (withTypeMetadata c tm). split; [reflexivity|].
      split; [reflexivity | apply Hcontext].
  - intros l Hregistered.
    unfold definePolymorphicSerializerContext,
      definePolymorphicSerializerContextByDiscriminant. simpl isCtorFunction. cbv iota.
    split.
    + intros before typeCtor discriminant after tm Hmap Hbefore Htm Hfield.
      exists (withTypeMetadata c tm). split; [|split; [reflexivity | apply Hcontext]].
      rewrite Hmap. apply scanDiscriminantMap_first; try assumption.
      intros member Hin. split; [|apply Hbefore; exact Hin].
      apply Hregistered. rewrite Hmap. apply elem_of_app. left. exact Hin.
    + intros Hnone. apply scanDiscriminantMap_none.
      intros member Hin. split; [apply Hregistered | apply Hnone]; exact Hin.
Qed.

(** Members [A] (discriminant ["A"]) and [B] (discriminant ["B"]) under
    one root.  Serializing: the class [A] gives a context whose type
    metadata is [A]'s, the class [Number], which is no member, raises the
    configuration error.  Deserializing: [{tag: "A"}] gives a context whose
    type metadata is [A]'s, [{tag: "C"}] raises the configuration error. *)
Lemma polymorphic_resolution_witness :
  (exists c',
     definePolymorphicSerializerContext (Fixture.registry true) Fixture.taggedRecords
       (Fixture.rootContext (Fixture.memberMetadata "Root")) (VFunction Fixture.AFn)
     = Ok c'
     /\ typeMetadata c' = Fixture.memberMetadata "A"
     /\ jsonPath c' = "$")
  /\ definePolymorphicSerializerContext (Fixture.registry true) Fixture.taggedRecords
       (Fixture.rootContext (Fixture.memberMetadata "Root")) (VFunction Fixture.NumberFn)
     = Throw (Error
         "$: cannot define discriminant of polymorphic type. This is usually caused by invalid configuration.")
  /\ (exists c',
       definePolymorphicSerializerContext (Fixture.registry true) Fixture.taggedRecords
         (Fixture.rootContext (Fixture.memberMetadata "Root")) (VObject 10%positive)
       = Ok c'
       /\ typeMetadata c' = Fixture.memberMetadata "A"
       /\ jsonPath c' = "$")
  /\ definePolymorphicSerializerContext (Fixture.registry true) Fixture.taggedRecords
       (Fixture.rootContext (Fixture.memberMetadata "Root")) (VObject 11%positive)
     = Throw (Error
         "$: cannot define discriminant of polymorphic type. This is usually caused by invalid configuration.").
Proof.
  pose proof (polymorphic_resolution (Fixture.registry true) Fixture.taggedRecords
                (Fixture.rootContext (Fixture.memberMetadata "Root"))) as [Hfn Hrecord].
  assert (Hregistered : forall member,
    member ∈ discriminantMap (Fixture.rootContext (Fixture.memberMetadata "Root")) ->
    exists tm, Fixture.registry true (ArgTypeFn member.1) = Ok tm).
  { intros member Hin. apply list_elem_of_In in Hin.
    destruct Hin as [<-|[<-|[]]]; eexists; reflexivity. }
  split; [|split; [|split]].
  - assert (Hname : fnName Fixture.AFn <> "") by discriminate.
    destruct (proj2 (Hfn Fixture.AFn Hname) (Fixture.memberMetadata "A") eq_refl eq_refl)
      as (c' & Hrun & Hc' & Hmetadata & _).
    exists c'. split; [exact Hrun|]. split; [exact Hmetadata|].
    rewrite Hc'. reflexivity.
  - apply (Hfn Fixture.NumberFn); [discriminate|].
    intros discriminant Hin. apply list_elem_of_In in Hin.
    destruct Hin as [Heq|[Heq|[]]]; discriminate Heq.
  - assert (Hbefore : forall member : Fn * Value, member ∈ [] ->
      memberMatches (Fixture.registry true) Fixture.taggedRecords (VObject 10%positive)
        member = false).
    { intros member Hin. apply list_elem_of_In in Hin. destruct Hin. }
    destruct (proj1 (Hrecord 10%positive Hregistered) [] Fixture.AFn (VString "A")
                [(Fixture.BFn, VString "B")] (Fixture.memberMetadata "A")
                eq_refl Hbefore eq_refl eq_refl)
      as (c' & Hrun & Hc' & Hmetadata & _).
    exists c'. split; [exact Hrun|]. split; [exact Hmetadata|].
    rewrite Hc'. reflexivity.
  - apply (proj2 (Hrecord 11%positive Hregistered)).
    intros member Hin. apply list_elem_of_In in Hin.
    destruct Hin as [<-|[<-|[]]]; reflexivity.
Defined.

(** ** Round trip of a set *)

Lemma bind_Ok {A B} (m : M A) (k : A -> M B) s a s' :
  m s = (Ok a, s') -> bind m k s = k a s'.
Proof. intros H. unfold bind. rewrite H. reflexivity. Qed.

Lemma withHeap_withHeap h h' s : withHeap h (withHeap h' s) = withHeap h s.
Proof. reflexivity. Qed.

Lemma withHeap_heap s : withHeap (heap s) s = s.
Proof. destruct s. reflexivity. Qed.

Lemma alloc_fresh (h : Heap) : h !! fresh (dom h) = None.
Proof. apply not_elem_of_dom. apply is_fresh. Qed.

Lemma arrayStore_end items v :
  arrayStore items (Z.of_nat (length items)) v = items ++ [v].
Proof.
  unfold arrayStore.
  destruct (Z.ltb_spec (Z.of_nat (length items)) 0) as [Hneg|_]; [lia|].
  rewrite Nat2Z.id.
  destruct (Nat.ltb_spec (length items) (length items)) as [Hlt|_]; [lia|].
  rewrite Nat.sub_diag. reflexivity.
Qed.


Lemma serialize_S defineTypeMetadata externalSerialize depth c x :
  serialize defineTypeMetadata externalSerialize (S depth) c x
  = match serializer c with
    | SetSerializerImpl =>
        SetSerializer.serialize defineTypeMetadata
          (serialize defineTypeMetadata externalSerialize depth) x c
    | ExternalSerializer id => externalSerialize id x c
    end.
Proof. reflexivity. Qed.

Lemma deserialize_S defineTypeMetadata externalDeserialize depth c x :
  deserialize defineTypeMetadata externalDeserialize (S depth) c x
  = match serializer c with
    | SetSerializerImpl =>
        SetSerializer.deserialize defineTypeMetadata
          (deserialize defineTypeMetadata externalDeserialize depth) x c
    | ExternalSerializer id => externalDeserialize id x c
    end.
Proof. reflexivity. Qed.

Section RoundTrip.

Variable defineTypeMetadata : TypeArgument -> Outcome TypeMetadata.t.
Variable externalSerialize : string -> Value -> SerializerContext -> M Value.
Variable externalDeserialize : string -> Value -> SerializerContext -> M Value.

(** The element type: its metadata names an external serializer that maps
    each element [v] of the set to [wire v] and back, with no effect. *)
Variable id : string.
Variable elementMetadata : TypeMetadata.t.
Variable wire : Value -> Value.
Variable items : list Value.

Hypothesis element_serializer :
  TypeMetadata.serializer elementMetadata = ExternalSerializer id.

Hypothesis element_round_trip :
  forall v ctx s, v ∈ items ->
    externalSerialize id v ctx s = (Ok (wire v), s)
    /\ externalDeserialize id (wire v) ctx s = (Ok v, s).







End RoundTrip.



(** A set nested in a set: the field declares the element type with its own
    generic arguments, [[Set, [Number]]], but the context the set
    serializer builds for an element carries no generic arguments, and
    [Set] is registered with none of its own.  Serializing [{{1}}] throws
    the configuration error at the element. *)
Lemma nested_set_loses_generic_arguments :
  fst (serialize (Fixture.registry true) Fixture.passThrough 3
         (Fixture.nestedSetField true) (VObject 1%positive)
         (Fixture.freshState
            (<[1%positive := OSet [VObject 2%positive]]>
               {[ 2%positive := OSet [VNumber 1] ]})))
  = Throw (Error
      "$['tags'][0]: cannot define generic arguments. This is usually caused by invalid configuration.").
Proof. vm_compute. reflexivity. Qed.

(** * Further properties *)

(** ** The callback queue *)

Lemma pushReferenceCallback_state referenceKey callback s :
  pushReferenceCallback referenceKey callback s
  = (Ok tt,
     {| heap := heap s; referenceMap := referenceMap s;
        referenceCallbackMap :=
          <[referenceKey := queuedCallbacks s referenceKey ++ [callback]]>
            (referenceCallbackMap s);
        errorLog := errorLog s |}).
Proof. reflexivity. Qed.

Lemma pushedAll_queue referenceKey callbacks s :
  queuedCallbacks (pushedAll referenceKey callbacks s) referenceKey
  = queuedCallbacks s referenceKey ++ callbacks.
Proof.
  revert s. induction callbacks as [|callback callbacks IH]; intros s.
  - simpl. rewrite app_nil_r. reflexivity.
  - unfold pushedAll in *. cbn [fold_left]. rewrite IH.
    rewrite pushReferenceCallback_state. cbn [snd].
    unfold queuedCallbacks at 1. cbn [referenceCallbackMap].
    rewrite lookup_insert_eq, <- app_assoc. reflexivity.
Qed.

Lemma pushedAll_other referenceKey callbacks s other :
  other <> referenceKey ->
  queuedCallbacks (pushedAll referenceKey callbacks s) other = queuedCallbacks s other.
Proof.
  intros Hother. revert s. induction callbacks as [|callback callbacks IH]; intros s.
  - reflexivity.
  - unfold pushedAll in *. cbn [fold_left]. rewrite IH.
    rewrite pushReferenceCallback_state. cbn [snd].
    unfold queuedCallbacks. cbn [referenceCallbackMap].
    rewrite lookup_insert_ne by auto. reflexivity.
Qed.

Lemma pushedAll_frame referenceKey callbacks s :
  heap (pushedAll referenceKey callbacks s) = heap s
  /\ referenceMap (pushedAll referenceKey callbacks s) = referenceMap s
  /\ errorLog (pushedAll referenceKey callbacks s) = errorLog s.
Proof.
  revert s. induction callbacks as [|callback callbacks IH]; intros s.
  - auto.
  - unfold pushedAll in *. cbn [fold_left].
    destruct (IH (snd (pushReferenceCallback referenceKey callback s)))
      as (Hheap & Hmap & Hlog).
    rewrite Hheap, Hmap, Hlog. auto.
Qed.

Lemma fold_runReferenceCallback_queued callbacks s referenceKey :
  queuedCallbacks (fold_left runReferenceCallback callbacks s) referenceKey
  = queuedCallbacks s referenceKey.
Proof.
  revert s. induction callbacks as [|callback callbacks IH]; intros s; simpl;
    [reflexivity|].
  rewrite IH. reflexivity.
Qed.

(** X2.  The callback queue is first-in first-out, per key, and is never
    emptied.  After any callbacks were pushed for a key, in order: the
    key's queue is its old queue followed by the pushed callbacks; the
    queue of every other key, the object graph, the reference map and the
    log are as before; resolving the key replays the whole queue in that
    order; and the queue is still there afterwards, so resolving the key
    again replays it again. *)
Theorem callback_queue_fifo referenceKey callbacks s :
  queuedCallbacks (pushedAll referenceKey callbacks s) referenceKey
  = queuedCallbacks s referenceKey ++ callbacks
  /\ (forall other, other <> referenceKey ->
        queuedCallbacks (pushedAll referenceKey callbacks s) other
        = queuedCallbacks s other)
  /\ heap (pushedAll referenceKey callbacks s) = heap s
  /\ referenceMap (pushedAll referenceKey callbacks s) = referenceMap s
  /\ errorLog (pushedAll referenceKey callbacks s) = errorLog s
  /\ resolveReferenceCallbacks referenceKey (pushedAll referenceKey callbacks s)
     = (Ok tt,
        fold_left runReferenceCallback (queuedCallbacks s referenceKey ++ callbacks)
          (pushedAll referenceKey callbacks s))
  /\ queuedCallbacks
       (snd (resolveReferenceCallbacks referenceKey (pushedAll referenceKey callbacks s)))
       referenceKey
     = queuedCallbacks s referenceKey ++ callbacks.
Proof.
  destruct (pushedAll_frame referenceKey callbacks s) as (Hheap & Hmap & Hlog).
  split; [apply pushedAll_queue|].
  split; [intros other; apply pushedAll_other|].
  split; [exact Hheap|]. split; [exact Hmap|]. split; [exact Hlog|].
  rewrite resolveReferenceCallbacks_replayed. unfold replayed.
  rewrite pushedAll_queue. split; [reflexivity|].
  cbn [snd]. rewrite fold_runReferenceCallback_queued. apply pushedAll_queue.
Qed.

(** ** Deferred setters *)

Lemma bind_Throw {A B} (m : M A) (k : A -> M B) s e s' :
  m s = (Throw e, s') -> bind m k s = (Throw e, s').
Proof. intros H. unfold bind. rewrite H. reflexivity. Qed.

(** X3.  A deferred setter registered for a key while the key is in
    progress receives the value the key's initializer ends with.  When the
    initializer of a first visit registers the setter of a context for the
    key and then produces [v], queueing nothing else for the key, the
    handler applies the setter to [v] right after storing [v], and returns
    [v]. *)
Theorem registered_setter_receives_result d c element referenceKey setter body v s s2 :
  referenceValueSetter element = Some setter ->
  isNil (entryOf s referenceKey) = true ->
  queuedCallbacks s referenceKey = [] ->
  body (snd (registerReferenceCallback element referenceKey (inProgress referenceKey s)))
  = (Ok v, s2) ->
  queuedCallbacks s2 referenceKey
  = queuedCallbacks
      (snd (registerReferenceCallback element referenceKey (inProgress referenceKey s)))
      referenceKey ->
  handle d c referenceKey (registerReferenceCallback element referenceKey ;;; body) s
  = (Ok v, withHeap (setter v (heap s2)) (setReference referenceKey v s2)).
Proof.
  intros Hsetter Hnil Hqueue Hbody Hkept.
  unfold inProgress in Hbody, Hkept.
  assert (Hinitializer :
    (registerReferenceCallback element referenceKey ;;; body)
      (setReference referenceKey (VObject referenceKey) s) = (Ok v, s2)).
  { unfold bind.
    destruct (registerReferenceCallback element referenceKey
                (setReference referenceKey (VObject referenceKey) s))
      as [[[]|e] s'] eqn:Hregister.
    - exact Hbody.
    - unfold registerReferenceCallback in Hregister. rewrite Hsetter in Hregister.
      discriminate Hregister. }
  rewrite (handle_initializes d c _ _ _ _ _ Hnil Hinitializer).
  unfold replayed.
  replace (queuedCallbacks (setReference referenceKey v s2) referenceKey)
    with (queuedCallbacks s2 referenceKey) by reflexivity.
  rewrite Hkept. unfold registerReferenceCallback. rewrite Hsetter.
  rewrite pushReferenceCallback_state. cbn [snd].
  unfold queuedCallbacks at 1. cbn [referenceCallbackMap].
  rewrite lookup_insert_eq.
  replace (queuedCallbacks (setReference referenceKey (VObject referenceKey) s)
             referenceKey)
    with (queuedCallbacks s referenceKey) by reflexivity.
  rewrite Hqueue. cbn [app fold_left].
  unfold runReferenceCallback. cbn [referenceMap setReference heap].
  unfold WeakMap_get. rewrite lookup_insert_eq. reflexivity.
Qed.

(** The deferred setter of a set element, registered while object 1 is in
    progress, adds the value [7] object 1 ends with to the set. *)
Lemma registered_setter_receives_result_witness :
  exists queue,
    handle Deserializing (Fixture.rootContext Fixture.numberMetadata) 1%positive
      (registerReferenceCallback Fixture.elementContext 1%positive ;;; ret (VNumber 7))
      (Fixture.freshState {[ 2%positive := OSet [] ]})
    = (Ok (VNumber 7),
       {| heap := {[ 2%positive := OSet [VNumber 7] ]};
          referenceMap := {[ 1%positive := VNumber 7 ]};
          referenceCallbackMap := queue;
          errorLog := [] |}).
Proof.
  eexists.
  exact (registered_setter_receives_result Deserializing
           (Fixture.rootContext Fixture.numberMetadata) Fixture.elementContext
           1%positive (SetSerializer.setAddSetter 2%positive) (ret (VNumber 7))
           (VNumber 7) (Fixture.freshState {[ 2%positive := OSet [] ]}) _
           eq_refl eq_refl eq_refl eq_refl eq_refl).
Defined.

(** ** The set serializer and the reference handler *)

Lemma asSet_object h x set items :
  asSet h x = Some (set, items) -> x = VObject set /\ h !! set = Some (OSet items).
Proof.
  unfold asSet. destruct x; try discriminate.
  destruct (h !! l) as [[| |items'|]|] eqn:Hl; try discriminate.
  intros H. injection H as <- <-. auto.
Qed.

Lemma asArray_object h x array items :
  asArray h x = Some (array, items) -> x = VObject array /\ h !! array = Some (OArray items).
Proof.
  unfold asArray. destruct x; try discriminate.
  destruct (h !! l) as [[|items'| |]|] eqn:Hl; try discriminate.
  intros H. injection H as <- <-. auto.
Qed.

(** A set goes to the reference handler, keyed by itself. *)
Lemma serialize_set_handled defineTypeMetadata serializeValue x c s set items :
  asSet (heap s) x = Some (set, items) ->
  SetSerializer.serialize defineTypeMetadata serializeValue x c s
  = handle Serializing c set
      (SetSerializer.serializeInitializer defineTypeMetadata serializeValue set c) s.
Proof.
  intros Hset. destruct (asSet_object _ _ _ _ Hset) as [-> _].
  unfold SetSerializer.serialize. cbn [isUndefined isNull].
  rewrite (bind_Ok _ _ _ (heap s) s) by reflexivity. rewrite Hset.
  unfold defineReference. destruct (referenceHandler c). reflexivity.
Qed.

(** An array goes to the reference handler, keyed by itself. *)
Lemma deserialize_array_handled defineTypeMetadata deserializeValue x c s array items :
  asArray (heap s) x = Some (array, items) ->
  SetSerializer.deserialize defineTypeMetadata deserializeValue x c s
  = handle Deserializing c array
      (SetSerializer.deserializeInitializer defineTypeMetadata deserializeValue array c) s.
Proof.
  intros Harray. destruct (asArray_object _ _ _ _ Harray) as [-> _].
  unfold SetSerializer.deserialize. cbn [isUndefined isNull].
  rewrite (bind_Ok _ _ _ (heap s) s) by reflexivity. rewrite Harray.
  unfold restoreReference. destruct (referenceHandler c). reflexivity.
Qed.

(** X4.  A collection met again while it is being converted is not entered
    a second time: for a set whose entry is the placeholder, [serialize]
    returns a resolver at once, and so does [deserialize] for such an
    array; the state is untouched and no element is visited, whatever the
    serializer of the elements is. *)
Theorem collection_in_progress_yields_resolver defineTypeMetadata serializeValue
    deserializeValue x c l items s :
  entryOf s l = VObject l ->
  (asSet (heap s) x = Some (l, items) ->
     SetSerializer.serialize defineTypeMetadata serializeValue x c s
     = (Ok (VResolver l), s))
  /\ (asArray (heap s) x = Some (l, items) ->
     SetSerializer.deserialize defineTypeMetadata deserializeValue x c s
     = (Ok (VResolver l), s)).
Proof.
  intros Hentry. split.
  - intros Hset. rewrite (serialize_set_handled _ _ _ _ _ _ _ Hset).
    apply handle_placeholder. exact Hentry.
  - intros Harray. rewrite (deserialize_array_handled _ _ _ _ _ _ _ Harray).
    apply handle_placeholder. exact Hentry.
Qed.

(** The set at object 1, met while it is in progress; its one element is
    never handed to the element serializer, which would throw. *)
Lemma collection_in_progress_yields_resolver_witness :
  SetSerializer.serialize (Fixture.registry true)
    (fun _ _ => throw (Error "not called")) (VObject 1%positive)
    (Fixture.numberSetField true)
    {| heap := {[ 1%positive := OSet [VNumber 1] ]};
       referenceMap := {[ 1%positive := VObject 1%positive ]};
       referenceCallbackMap := ∅; errorLog := [] |}
  = (Ok (VResolver 1%positive),
     {| heap := {[ 1%positive := OSet [VNumber 1] ]};
        referenceMap := {[ 1%positive := VObject 1%positive ]};
        referenceCallbackMap := ∅; errorLog := [] |}).
Proof.
  exact (proj1 (collection_in_progress_yields_resolver (Fixture.registry true)
                  (fun _ _ => throw (Error "not called"))
                  (fun _ _ => throw (Error "not called"))
                  (VObject 1%positive) (Fixture.numberSetField true) 1%positive
                  [VNumber 1]
                  {| heap := {[ 1%positive := OSet [VNumber 1] ]};
                     referenceMap := {[ 1%positive := VObject 1%positive ]};
                     referenceCallbackMap := ∅; errorLog := [] |}
                  eq_refl) eq_refl).
Defined.

Lemma bind_Ok_inv {A B} (m : M A) (k : A -> M B) s b s' :
  bind m k s = (Ok b, s') ->
  exists a s1, m s = (Ok a, s1) /\ k a s1 = (Ok b, s').
Proof.
  unfold bind. destruct (m s) as [[a|e] s1]; [|discriminate].
  intros H. exists a, s1. split; [reflexivity | exact H].
Qed.

(** What the initializer of [serialize] returns is the array it made. *)
Lemma serializeInitializer_result defineTypeMetadata serializeValue set c s v s' :
  SetSerializer.serializeInitializer defineTypeMetadata serializeValue set c s = (Ok v, s') ->
  v = VObject (fresh (dom (heap s))).
Proof.
  unfold SetSerializer.serializeInitializer. intros H.
  apply bind_Ok_inv in H as (array & s1 & Halloc & H).
  unfold alloc in Halloc. injection Halloc as <- _.
  apply bind_Ok_inv in H as (g & s2 & _ & H).
  apply bind_Ok_inv in H as (ivar & s3 & _ & H).
  apply bind_Ok_inv in H as (items & s4 & _ & H).
  apply bind_Ok_inv in H as ([] & s5 & _ & H).
  injection H as <- _. reflexivity.
Qed.

(** What the initializer of [deserialize] returns is the set it made. *)
Lemma deserializeInitializer_result defineTypeMetadata deserializeValue array c s v s' :
  SetSerializer.deserializeInitializer defineTypeMetadata deserializeValue array c s
  = (Ok v, s') ->
  v = VObject (fresh (dom (heap s))).
Proof.
  unfold SetSerializer.deserializeInitializer. intros H.
  apply bind_Ok_inv in H as (set & s1 & Halloc & H).
  unfold alloc in Halloc. injection Halloc as <- _.
  apply bind_Ok_inv in H as (g & s2 & _ & H).
  apply bind_Ok_inv in H as (items & s4 & _ & H).
  apply bind_Ok_inv in H as ([] & s5 & _ & H).
  injection H as <- _. reflexivity.
Qed.

(** A first visit of the handler that returns has stored what it returns. *)
Lemma handle_stores d c referenceKey initializer s v s1 :
  isNil (entryOf s referenceKey) = true ->
  handle d c referenceKey initializer s = (Ok v, s1) ->
  entryOf s1 referenceKey = v
  /\ exists s2, initializer (setReference referenceKey (VObject referenceKey) s) = (Ok v, s2).
Proof.
  intros Hnil Hrun.
  destruct (initializer (setReference referenceKey (VObject referenceKey) s))
    as [[v'|e] s2] eqn:Hinitializer.
  - rewrite (handle_initializes d c _ _ _ _ _ Hnil Hinitializer) in Hrun.
    injection Hrun as <- <-. split; [|eexists; reflexivity].
    unfold entryOf. rewrite replayed_referenceMap. cbn [referenceMap setReference].
    unfold WeakMap_get. rewrite lookup_insert_eq. reflexivity.
  - rewrite (handle_initializer_throws d c _ _ _ _ _ Hnil Hinitializer) in Hrun.
    discriminate Hrun.
Qed.

Lemma fresh_not_allocated (h : Heap) l o :
  h !! l = Some o -> l <> fresh (dom h).
Proof.
  intros Hl Heq. pose proof (alloc_fresh h) as Hfresh.
  rewrite <- Heq in Hfresh. congruence.
Qed.

(** X5.  A collection is converted once per traversal.  When the first
    [serialize] of a set returns [v], then [v] is a new array, it is the
    set's entry, and every later [serialize] of the set in a state that
    still holds this entry returns the same [v] and leaves the state as it
    is, whatever the context and the serializer of the elements, and
    whatever the set then holds.  [deserialize] does the same for an array
    and the set it makes. *)
Theorem collection_converted_once defineTypeMetadata serializeValue deserializeValue
    c x l items s v s1 :
  isNil (entryOf s l) = true ->
  (asSet (heap s) x = Some (l, items) ->
   SetSerializer.serialize defineTypeMetadata serializeValue x c s = (Ok v, s1) ->
   entryOf s1 l = v
   /\ (exists array, v = VObject array /\ heap s !! array = None)
   /\ forall serializeValue' c' s2 items',
        entryOf s2 l = v ->
        asSet (heap s2) x = Some (l, items') ->
        SetSerializer.serialize defineTypeMetadata serializeValue' x c' s2 = (Ok v, s2))
  /\ (asArray (heap s) x = Some (l, items) ->
      SetSerializer.deserialize defineTypeMetadata deserializeValue x c s = (Ok v, s1) ->
      entryOf s1 l = v
      /\ (exists set, v = VObject set /\ heap s !! set = None)
      /\ forall deserializeValue' c' s2 items',
           entryOf s2 l = v ->
           asArray (heap s2) x = Some (l, items') ->
           SetSerializer.deserialize defineTypeMetadata deserializeValue' x c' s2
           = (Ok v, s2)).
Proof.
  intros Hnil. split.
  - intros Hset Hrun.
    rewrite (serialize_set_handled _ _ _ _ _ _ _ Hset) in Hrun.
    destruct (handle_stores _ _ _ _ _ _ _ Hnil Hrun) as (Hentry & s2 & Hinitializer).
    apply serializeInitializer_result in Hinitializer. cbn [heap setReference] in Hinitializer.
    destruct (asSet_object _ _ _ _ Hset) as [_ Hl].
    split; [exact Hentry|]. split.
    + eexists. split; [exact Hinitializer | apply alloc_fresh].
    + intros serializeValue' c' s3 items' Hentry' Hset'.
      rewrite (serialize_set_handled _ _ _ _ _ _ _ Hset').
      rewrite handle_finished; [rewrite Hentry'; reflexivity| |].
      * rewrite Hentry', Hinitializer. reflexivity.
      * rewrite Hentry', Hinitializer. intros Heq. injection Heq as Heq.
        exact (fresh_not_allocated _ _ _ Hl (eq_sym Heq)).
  - intros Harray Hrun.
    rewrite (deserialize_array_handled _ _ _ _ _ _ _ Harray) in Hrun.
    destruct (handle_stores _ _ _ _ _ _ _ Hnil Hrun) as (Hentry & s2 & Hinitializer).
    apply deserializeInitializer_result in Hinitializer.
    cbn [heap setReference] in Hinitializer.
    destruct (asArray_object _ _ _ _ Harray) as [_ Hl].
    split; [exact Hentry|]. split.
    + eexists. split; [exact Hinitializer | apply alloc_fresh].
    + intros deserializeValue' c' s3 items' Hentry' Harray'.
      rewrite (deserialize_array_handled _ _ _ _ _ _ _ Harray').
      rewrite handle_finished; [rewrite Hentry'; reflexivity| |].
      * rewrite Hentry', Hinitializer. reflexivity.
      * rewrite Hentry', Hinitializer. intros Heq. injection Heq as Heq.
        exact (fresh_not_allocated _ _ _ Hl (eq_sym Heq)).
Qed.

(** The set [{3}] at object 1, declared as a set of numbers: the first
    visit returns a new array and stores it as the entry of the set. *)
Lemma collection_converted_once_witness :
  exists v s1,
    SetSerializer.serialize (Fixture.registry true) (fun _ v => ret v)
      (VObject 1%positive) (Fixture.numberSetField true)
      (Fixture.freshState {[ 1%positive := OSet [VNumber 3] ]})
    = (Ok v, s1)
    /\ entryOf s1 1%positive = v.
Proof.
  destruct (SetSerializer.serialize (Fixture.registry true) (fun _ v => ret v)
              (VObject 1%positive) (Fixture.numberSetField true)
              (Fixture.freshState {[ 1%positive := OSet [VNumber 3] ]}))
    as [[v|e] s1] eqn:Hrun.
  - exists v, s1. split; [reflexivity|].
    exact (proj1 (proj1 (collection_converted_once (Fixture.registry true)
                           (fun _ v => ret v) (fun _ v => ret v)
                           (Fixture.numberSetField true) (VObject 1%positive)
                           1%positive [VNumber 3]
                           (Fixture.freshState {[ 1%positive := OSet [VNumber 3] ]})
                           v s1 eq_refl) eq_refl Hrun)).
  - vm_compute in Hrun. discriminate Hrun.
Defined.

Lemma defineGenericSerializerContext_no_argument defineTypeMetadata c i :
  genericArgumentAt c i = None ->
  exists e,
    defineGenericSerializerContext defineTypeMetadata c i = Throw e
    /\ (e = genericArgumentsMissing c \/ e = genericArgumentMissing c i).
Proof.
  intros Hnone. apply genericArgumentAt_None in Hnone as [Habsent|(arguments & Hsome & Hout)].
  - exists (genericArgumentsMissing c). split; [|left; reflexivity].
    apply defineGenericSerializerContext_absent. exact Habsent.
  - exists (genericArgumentMissing c i). split; [|right; reflexivity].
    exact (defineGenericSerializerContext_out_of_range _ _ _ _ Hsome Hout).
Qed.

(** The first visit of a set whose element type cannot be defined: the
    exception of [defineGenericSerializerContext] passes through, after the
    placeholder was stored and the array was made. *)
Lemma serialize_set_throws defineTypeMetadata serializeValue c x set items s e :
  asSet (heap s) x = Some (set, items) ->
  isNil (entryOf s set) = true ->
  defineGenericSerializerContext defineTypeMetadata c 0 = Throw e ->
  SetSerializer.serialize defineTypeMetadata serializeValue x c s
  = (Throw e,
     withHeap (<[fresh (dom (heap s)) := OArray []]> (heap s)) (inProgress set s)).
Proof.
  intros Hset Hnil Hthrow.
  rewrite (serialize_set_handled _ _ _ _ _ _ _ Hset).
  apply handle_initializer_throws; [exact Hnil|].
  unfold SetSerializer.serializeInitializer.
  rewrite (bind_Ok _ _ _ (fresh (dom (heap s)))
             (withHeap (<[fresh (dom (heap s)) := OArray []]> (heap s))
                (inProgress set s))) by reflexivity.
  apply bind_Throw. unfold liftOutcome. rewrite Hthrow. reflexivity.
Qed.

(** The same for the first visit of an array. *)
Lemma deserialize_array_throws defineTypeMetadata deserializeValue c x array items s e :
  asArray (heap s) x = Some (array, items) ->
  isNil (entryOf s array) = true ->
  defineGenericSerializerContext defineTypeMetadata c 0 = Throw e ->
  SetSerializer.deserialize defineTypeMetadata deserializeValue x c s
  = (Throw e,
     withHeap (<[fresh (dom (heap s)) := OSet []]> (heap s)) (inProgress array s)).
Proof.
  intros Harray Hnil Hthrow.
  rewrite (deserialize_array_handled _ _ _ _ _ _ _ Harray).
  apply handle_initializer_throws; [exact Hnil|].
  unfold SetSerializer.deserializeInitializer.
  rewrite (bind_Ok _ _ _ (fresh (dom (heap s)))
             (withHeap (<[fresh (dom (heap s)) := OSet []]> (heap s))
                (inProgress array s))) by reflexivity.
  apply bind_Throw. unfold liftOutcome. rewrite Hthrow. reflexivity.
Qed.

Lemma entryOf_inProgress h referenceKey s :
  entryOf (withHeap h (inProgress referenceKey s)) referenceKey = VObject referenceKey.
Proof.
  unfold entryOf, WeakMap_get. cbn [referenceMap withHeap inProgress setReference].
  rewrite lookup_insert_eq. reflexivity.
Qed.

(** X6.  A collection whose context has no generic argument 0 cannot be
    converted: the first visit of a set by [serialize], and of an array by
    [deserialize], throws the configuration error of
    [defineGenericSerializerContext], whatever the collection holds, even
    nothing.  The exception leaves the collection in progress: the
    placeholder stays in the reference map and the collection made for the
    result stays in the heap, nothing is logged and no callback is queued;
    converting the same collection again in the state the exception left
    then returns a resolver instead of throwing again. *)
Theorem collection_without_element_type_throws defineTypeMetadata serializeValue
    deserializeValue c x l items s :
  isNil (entryOf s l) = true ->
  genericArgumentAt c 0 = None ->
  exists e,
    (e = genericArgumentsMissing c \/ e = genericArgumentMissing c 0)
    /\ (asSet (heap s) x = Some (l, items) ->
        let s' := withHeap (<[fresh (dom (heap s)) := OArray []]> (heap s))
                    (inProgress l s) in
        SetSerializer.serialize defineTypeMetadata serializeValue x c s = (Throw e, s')
        /\ entryOf s' l = VObject l
        /\ SetSerializer.serialize defineTypeMetadata serializeValue x c s'
           = (Ok (VResolver l), s'))
    /\ (asArray (heap s) x = Some (l, items) ->
        let s' := withHeap (<[fresh (dom (heap s)) := OSet []]> (heap s))
                    (inProgress l s) in
        SetSerializer.deserialize defineTypeMetadata deserializeValue x c s = (Throw e, s')
        /\ entryOf s' l = VObject l
        /\ SetSerializer.deserialize defineTypeMetadata deserializeValue x c s'
           = (Ok (VResolver l), s')).
Proof.
  intros Hnil Hnone.
  destruct (defineGenericSerializerContext_no_argument defineTypeMetadata c 0 Hnone)
    as (e & Hthrow & He).
  exists e. split; [exact He|]. split.
  - intros Hset. cbn zeta.
    split; [exact (serialize_set_throws _ _ _ _ _ _ _ _ Hset Hnil Hthrow)|].
    split; [apply entryOf_inProgress|].
    destruct (asSet_object _ _ _ _ Hset) as [-> Hl].
    rewrite (serialize_set_handled _ _ _ _ _ l items).
    + apply handle_placeholder. apply entryOf_inProgress.
    + unfold asSet. cbn [heap withHeap].
      rewrite lookup_insert_ne by (apply not_eq_sym; exact (fresh_not_allocated _ _ _ Hl)).
      rewrite Hl. reflexivity.
  - intros Harray. cbn zeta.
    split; [exact (deserialize_array_throws _ _ _ _ _ _ _ _ Harray Hnil Hthrow)|].
    split; [apply entryOf_inProgress|].
    destruct (asArray_object _ _ _ _ Harray) as [-> Hl].
    rewrite (deserialize_array_handled _ _ _ _ _ l items).
    + apply handle_placeholder. apply entryOf_inProgress.
    + unfold asArray. cbn [heap withHeap].
      rewrite lookup_insert_ne by (apply not_eq_sym; exact (fresh_not_allocated _ _ _ Hl)).
      rewrite Hl. reflexivity.
Qed.

(** The empty set at object 1 under the field of a type whose set has no
    generic arguments. *)
Lemma collection_without_element_type_throws_witness :
  exists e s',
    SetSerializer.serialize (Fixture.registry true) (fun _ v => ret v)
      (VObject 1%positive)
      (Fixture.fieldContext (Fixture.setMetadata true)
         (Fixture.property "tags" None VUndefined))
      (Fixture.freshState {[ 1%positive := OSet [] ]})
    = (Throw e, s')
    /\ entryOf s' 1%positive = VObject 1%positive.
Proof.
  assert (Hset :
    asSet (heap (Fixture.freshState {[ 1%positive := OSet [] ]})) (VObject 1%positive)
    = Some (1%positive, [])) by reflexivity.
  destruct (collection_without_element_type_throws (Fixture.registry true)
              (fun _ v => ret v) (fun _ v => ret v)
              (Fixture.fieldContext (Fixture.setMetadata true)
                 (Fixture.property "tags" None VUndefined))
              (VObject 1%positive) 1%positive []
              (Fixture.freshState {[ 1%positive := OSet [] ]})
              eq_refl eq_refl)
    as (e & _ & Hserialize & _).
  destruct (Hserialize Hset) as (Hthrow & Hentry & _).
  exists e. eexists. split; [exact Hthrow | exact Hentry].
Defined.

(** ** The contexts of the elements *)

(** The handler uses its initializer only by running it once the
    placeholder is stored. *)
Lemma handle_initializer_agrees d c referenceKey initializer initializer' s :
  initializer (setReference referenceKey (VObject referenceKey) s)
  = initializer' (setReference referenceKey (VObject referenceKey) s) ->
  handle d c referenceKey initializer s = handle d c referenceKey initializer' s.
Proof.
  intros Hagree.
  enter_handler d s referenceKey;
    (destruct (isNil (entryOf s referenceKey)); [rewrite Hagree; reflexivity | reflexivity]).
Qed.

Lemma serializeItems_agree serializeValue serializeValue' genericSerializerContext
    array ivar :
  (forall ctx v st, elementContextOf genericSerializerContext ctx ->
     serializeValue ctx v st = serializeValue' ctx v st) ->
  forall items i s,
    SetSerializer.serializeItems serializeValue genericSerializerContext array ivar i
      items s
    = SetSerializer.serializeItems serializeValue' genericSerializerContext array ivar i
        items s.
Proof.
  intros Hagree items.
  induction items as [|v rest IH]; intros i s; [reflexivity|].
  cbn [SetSerializer.serializeItems]. unfold bind, updateHeap.
  rewrite Hagree by (repeat split; eexists; reflexivity).
  match goal with
  | |- context [serializeValue' ?ctx v ?st] =>
      destruct (serializeValue' ctx v st) as [[r|e] st']
  end; [apply IH | reflexivity].
Qed.

Lemma deserializeItems_agree deserializeValue deserializeValue' genericSerializerContext
    set :
  (forall ctx v st, elementContextOf genericSerializerContext ctx ->
     deserializeValue ctx v st = deserializeValue' ctx v st) ->
  forall items i s,
    SetSerializer.deserializeItems deserializeValue genericSerializerContext set i items s
    = SetSerializer.deserializeItems deserializeValue' genericSerializerContext set i
        items s.
Proof.
  intros Hagree items.
  induction items as [|v rest IH]; intros i s; [reflexivity|].
  cbn [SetSerializer.deserializeItems]. unfold bind, updateHeap.
  rewrite Hagree by (repeat split; eexists; reflexivity).
  match goal with
  | |- context [deserializeValue' ?ctx v ?st] =>
      destruct (deserializeValue' ctx v st) as [[r|e] st']
  end; [apply IH | reflexivity].
Qed.

(** X1.  The set serializer visits every element at a context that carries
    the element type's metadata and no generic arguments.  Every call of
    the element serializer that [serialize] and [deserialize] make is at a
    child, for an index, of the generic context of argument 0, with that
    context's type metadata, no property metadata and no generic arguments
    among its options: two element serializers that agree at such contexts
    give the same outcome and state.  The generic arguments such a context
    has are therefore those the element type was registered with, while
    arguments the declaration nests for the element type, [[t, nested]],
    reach the generic context only. *)
Theorem element_contexts_carry_no_generic_arguments defineTypeMetadata serializeValue
    serializeValue' x c s :
  (forall genericSerializerContext ctx v st,
     defineGenericSerializerContext defineTypeMetadata c 0 = Ok genericSerializerContext ->
     elementContextOf genericSerializerContext ctx ->
     serializeValue ctx v st = serializeValue' ctx v st) ->
  SetSerializer.serialize defineTypeMetadata serializeValue x c s
  = SetSerializer.serialize defineTypeMetadata serializeValue' x c s
  /\ SetSerializer.deserialize defineTypeMetadata serializeValue x c s
     = SetSerializer.deserialize defineTypeMetadata serializeValue' x c s
  /\ forall genericSerializerContext ctx,
       defineGenericSerializerContext defineTypeMetadata c 0 = Ok genericSerializerContext ->
       elementContextOf genericSerializerContext ctx ->
       typeMetadata ctx = typeMetadata genericSerializerContext
       /\ genericArguments ctx
          = TypeMetadata.genericArguments (typeMetadata genericSerializerContext)
       /\ forall t nested,
            genericArgumentAt c 0 = Some (GenericPair t nested) ->
            genericArguments genericSerializerContext = Some nested.
Proof.
  intros Hagree. split; [|split].
  - unfold SetSerializer.serialize.
    destruct (isUndefined x); [reflexivity|]. destruct (isNull x); [reflexivity|].
    unfold bind at 1 3. unfold getHeap.
    destruct (asSet (heap s) x) as [[set items]|]; [|reflexivity].
    unfold defineReference. destruct (referenceHandler c).
    apply (handle_initializer_agrees Serializing).
    unfold SetSerializer.serializeInitializer, bind, alloc, liftOutcome.
    destruct (defineGenericSerializerContext defineTypeMetadata c 0) as [g|e] eqn:Hg;
      [|reflexivity].
    match goal with
    | |- context [itemsOf set ?st] => destruct (itemsOf set st) as [[items'|e] st']
    end; [|reflexivity].
    rewrite (serializeItems_agree serializeValue serializeValue' g);
      [reflexivity | intros ctx v st Hctx; exact (Hagree g ctx v st eq_refl Hctx)].
  - unfold SetSerializer.deserialize.
    destruct (isUndefined x); [reflexivity|]. destruct (isNull x); [reflexivity|].
    unfold bind at 1 3. unfold getHeap.
    destruct (asArray (heap s) x) as [[array items]|]; [|reflexivity].
    unfold restoreReference. destruct (referenceHandler c).
    apply (handle_initializer_agrees Deserializing).
    unfold SetSerializer.deserializeInitializer, bind, alloc, liftOutcome.
    destruct (defineGenericSerializerContext defineTypeMetadata c 0) as [g|e] eqn:Hg;
      [|reflexivity].
    match goal with
    | |- context [itemsOf array ?st] => destruct (itemsOf array st) as [[items'|e] st']
    end; [|reflexivity].
    rewrite (deserializeItems_agree serializeValue serializeValue' g);
      [reflexivity | intros ctx v st Hctx; exact (Hagree g ctx v st eq_refl Hctx)].
  - intros g ctx Hg (_ & _ & Hmetadata & Hproperty & Hoptions & _).
    split; [exact Hmetadata|]. split.
    + unfold genericArguments. rewrite Hoptions, Hproperty, Hmetadata. reflexivity.
    + intros t nested Hat. unfold genericArgumentAt in Hat.
      unfold defineGenericSerializerContext in Hg.
      destruct (genericArguments c) as [arguments|]; [|discriminate Hat].
      rewrite Hat in Hg. cbn [genericTypeArgument] in Hg.
      destruct (defineTypeMetadata t) as [tm|e]; [|discriminate Hg].
      injection Hg as <-. reflexivity.
Qed.

(** The set [{1, 2}] declared as a set of numbers: a serializer that
    throws at every context with generic arguments among its options is
    never seen to throw. *)
Lemma element_contexts_carry_no_generic_arguments_witness :
  SetSerializer.serialize (Fixture.registry true) (fun _ v => ret v)
    (VObject 1%positive) (Fixture.numberSetField true)
    (Fixture.freshState {[ 1%positive := OSet [VNumber 1; VNumber 2] ]})
  = SetSerializer.serialize (Fixture.registry true)
      (fun ctx v =>
         match SerializerContextOptions.genericArguments (serializerContextOptions ctx) with
         | Some _ => throw (Error "generic arguments")
         | None => ret v
         end)
      (VObject 1%positive) (Fixture.numberSetField true)
      (Fixture.freshState {[ 1%positive := OSet [VNumber 1; VNumber 2] ]}).
Proof.
  apply (element_contexts_carry_no_generic_arguments (Fixture.registry true)
           (fun _ v => ret v)
           (fun ctx v =>
              match SerializerContextOptions.genericArguments (serializerContextOptions ctx)
              with
              | Some _ => throw (Error "generic arguments")
              | None => ret v
              end)).
  intros g ctx v st _ (_ & _ & _ & _ & Hoptions & _). rewrite Hoptions. reflexivity.
Defined.

(** ** Sets in sets *)

(** The path of the context the set serializer builds for element [i]. *)
Lemma jsonPath_element defineTypeMetadata c genericSerializerContext options i :
  defineGenericSerializerContext defineTypeMetadata c 0 = Ok genericSerializerContext ->
  SerializerContextOptions.jsonPathKey options = PathIndex i ->
  jsonPath (defineChildSerializerContext genericSerializerContext options)
  = elementPath (jsonPath c) i.
Proof.
  intros Hgeneric Hkey. unfold defineGenericSerializerContext in Hgeneric.
  destruct (genericArguments c) as [arguments|]; [|discriminate Hgeneric].
  destruct (arrayAt arguments 0) as [argument|]; [|discriminate Hgeneric].
  destruct (defineTypeMetadata (genericTypeArgument argument)) as [tm|e];
    [|discriminate Hgeneric].
  injection Hgeneric as <-.
  destruct options as [key tm' property arguments' setter].
  cbn [SerializerContextOptions.jsonPathKey] in Hkey. subst key.
  destruct c as [r o parent]. destruct parent as [parent|]; reflexivity.
Qed.

(** X7.  A set directly inside a set cannot be serialized when the type
    resolved for the elements is itself handled by the set serializer and
    is registered without generic arguments of its own: the context built
    for an element passes no generic arguments on, so the generic arguments
    the declaration nests for the inner set are not used, and the visit of
    the first element throws the configuration error at that element's
    path. *)
Theorem set_in_set_throws defineTypeMetadata externalSerialize depth c outer inner
    items innerItems argument tm s :
  serializer c = SetSerializerImpl ->
  genericArgumentAt c 0 = Some argument ->
  defineTypeMetadata (genericTypeArgument argument) = Ok tm ->
  TypeMetadata.serializer tm = SetSerializerImpl ->
  TypeMetadata.genericArguments tm = None ->
  heap s !! outer = Some (OSet (VObject inner :: items)) ->
  heap s !! inner = Some (OSet innerItems) ->
  inner <> outer ->
  isNil (entryOf s outer) = true ->
  isNil (entryOf s inner) = true ->
  exists s',
    serialize defineTypeMetadata externalSerialize (S (S depth)) c (VObject outer) s
    = (Throw (Error (elementPath (jsonPath c) 0 +:+
         ": cannot define generic arguments. This is usually caused by invalid configuration.")),
       s').
Proof.
  intros Hserializer Hat Htm Hset Hnone Houter Hinner Hne Hnil Hnil'.
  destruct (defineGenericSerializerContext_resolved defineTypeMetadata c 0 argument tm
              Hat Htm)
    as (g & Hgeneric & Hgtm & _).
  pose (a := fresh (dom (heap s))).
  pose (h1 := <[a := OArray []]> (heap s)).
  pose (b := fresh (dom h1)).
  pose (h2 := <[b := OVariable (-1)]> h1).
  pose (h3 := <[b := OVariable 0]> h2).
  assert (Hkeep : forall l o, heap s !! l = Some o -> h3 !! l = Some o).
  { intros l o Hl. unfold h3, h2.
    assert (Hl1 : h1 !! l = Some o).
    { unfold h1. rewrite lookup_insert_ne; [exact Hl|].
      apply not_eq_sym. exact (fresh_not_allocated _ _ _ Hl). }
    assert (Hb : b <> l) by (apply not_eq_sym; exact (fresh_not_allocated _ _ _ Hl1)).
    rewrite !lookup_insert_ne by exact Hb. exact Hl1. }
  pose (child := defineChildSerializerContext g
          {| SerializerContextOptions.jsonPathKey := PathIndex 0;
             SerializerContextOptions.typeMetadata := typeMetadata g;
             SerializerContextOptions.propertyMetadata := None;
             SerializerContextOptions.genericArguments := None;
             SerializerContextOptions.referenceValueSetter :=
               Some (SetSerializer.arraySlotSetter a b) |}).
  assert (Hchild_serializer : serializer child = SetSerializerImpl).
  { unfold child, serializer, typeMetadata, propertyMetadata. cbn.
    fold (typeMetadata g). rewrite Hgtm. exact Hset. }
  assert (Hchild_arguments : genericArguments child = None).
  { unfold child, genericArguments, typeMetadata, propertyMetadata. cbn.
    fold (typeMetadata g). rewrite Hgtm. exact Hnone. }
  assert (Hchild_path : jsonPath child = elementPath (jsonPath c) 0).
  { unfold child. apply (jsonPath_element defineTypeMetadata); [exact Hgeneric|reflexivity]. }
  pose (s3 := withHeap h3 (inProgress outer s)).
  assert (Hinner_throws :
    serialize defineTypeMetadata externalSerialize (S depth) child (VObject inner) s3
    = (Throw (genericArgumentsMissing child),
       withHeap (<[fresh (dom (heap s3)) := OArray []]> (heap s3))
         (inProgress inner s3))).
  { rewrite serialize_S, Hchild_serializer.
    apply (serialize_set_throws _ _ _ _ inner innerItems).
    - unfold asSet, s3. cbn [heap withHeap]. rewrite (Hkeep _ _ Hinner). reflexivity.
    - unfold entryOf, WeakMap_get, s3. cbn [referenceMap withHeap inProgress setReference].
      rewrite lookup_insert_ne by (apply not_eq_sym; exact Hne). exact Hnil'.
    - apply defineGenericSerializerContext_absent. exact Hchild_arguments. }
  eexists.
  rewrite serialize_S, Hserializer.
  rewrite (serialize_set_handled _ _ _ _ _ outer (VObject inner :: items))
    by (unfold asSet; rewrite Houter; reflexivity).
  apply handle_initializer_throws; [exact Hnil|].
  unfold SetSerializer.serializeInitializer.
  rewrite (bind_Ok _ _ _ a (withHeap h1 (inProgress outer s))) by reflexivity.
  rewrite (bind_Ok _ _ _ g (withHeap h1 (inProgress outer s)))
    by (unfold liftOutcome; rewrite Hgeneric; reflexivity).
  rewrite (bind_Ok _ _ _ b (withHeap h2 (inProgress outer s))) by reflexivity.
  rewrite (bind_Ok _ _ _ (VObject inner :: items) (withHeap h2 (inProgress outer s))).
  2:{ unfold itemsOf. cbn [heap withHeap].
      assert (Hlookup : h2 !! outer = Some (OSet (VObject inner :: items))).
      { pose proof (Hkeep _ _ Houter) as Hl. unfold h3 in Hl.
        destruct (decide (b = outer)) as [Heq|Hb].
        - rewrite Heq in Hl. rewrite lookup_insert_eq in Hl. discriminate Hl.
        - rewrite lookup_insert_ne in Hl by exact Hb. exact Hl. }
      rewrite Hlookup. reflexivity. }
  apply bind_Throw. cbn [SetSerializer.serializeItems].
  replace (-1 + 1) with 0 by reflexivity.
  rewrite (bind_Ok _ _ _ tt s3) by reflexivity.
  apply bind_Throw. fold child. rewrite Hinner_throws.
  unfold genericArgumentsMissing. rewrite Hchild_path. reflexivity.
Qed.

(** The set [{{1}}], declared as a set of sets of numbers. *)
Lemma set_in_set_throws_witness :
  exists s',
    serialize (Fixture.registry true) Fixture.passThrough 3
      (Fixture.nestedSetField true) (VObject 1%positive)
      (Fixture.freshState
         (<[1%positive := OSet [VObject 2%positive]]>
            {[ 2%positive := OSet [VNumber 1] ]}))
    = (Throw (Error (elementPath "$['tags']" 0 +:+
         ": cannot define generic arguments. This is usually caused by invalid configuration.")),
       s').
Proof.
  assert (Houter :
    heap (Fixture.freshState
            (<[1%positive := OSet [VObject 2%positive]]>
               {[ 2%positive := OSet [VNumber 1] ]})) !! 1%positive
    = Some (OSet [VObject 2%positive])) by reflexivity.
  assert (Hinner :
    heap (Fixture.freshState
            (<[1%positive := OSet [VObject 2%positive]]>
               {[ 2%positive := OSet [VNumber 1] ]})) !! 2%positive
    = Some (OSet [VNumber 1])) by reflexivity.
  assert (Hne : 2%positive <> 1%positive) by discriminate.
  exact (set_in_set_throws (Fixture.registry true) Fixture.passThrough 1
           (Fixture.nestedSetField true) 1%positive 2%positive [] [VNumber 1]
           (GenericPair (ArgTypeFn Fixture.SetFn) [GenericType (ArgTypeFn Fixture.NumberFn)])
           (Fixture.setMetadata true) _
           eq_refl eq_refl eq_refl eq_refl eq_refl Houter Hinner Hne eq_refl eq_refl).
Defined.

(** X17.  An array directly inside an array cannot be deserialized into a
    set of sets under the same registration: the context built for an
    element passes no generic arguments on, and the visit of the first
    element throws the configuration error at that element's path. *)
Theorem array_in_array_throws defineTypeMetadata externalDeserialize depth c outer inner
    items innerItems argument tm s :
  serializer c = SetSerializerImpl ->
  genericArgumentAt c 0 = Some argument ->
  defineTypeMetadata (genericTypeArgument argument) = Ok tm ->
  TypeMetadata.serializer tm = SetSerializerImpl ->
  TypeMetadata.genericArguments tm = None ->
  heap s !! outer = Some (OArray (VObject inner :: items)) ->
  heap s !! inner = Some (OArray innerItems) ->
  inner <> outer ->
  isNil (entryOf s outer) = true ->
  isNil (entryOf s inner) = true ->
  exists s',
    deserialize defineTypeMetadata externalDeserialize (S (S depth)) c (VObject outer) s
    = (Throw (Error (elementPath (jsonPath c) 0 +:+
         ": cannot define generic arguments. This is usually caused by invalid configuration.")),
       s').
Proof.
  intros Hserializer Hat Htm Hset Hnone Houter Hinner Hne Hnil Hnil'.
  destruct (defineGenericSerializerContext_resolved defineTypeMetadata c 0 argument tm
              Hat Htm)
    as (g & Hgeneric & Hgtm & _).
  pose (a := fresh (dom (heap s))).
  pose (h1 := <[a := OSet []]> (heap s)).
  assert (Hkeep : forall l o, heap s !! l = Some o -> h1 !! l = Some o).
  { intros l o Hl. unfold h1. rewrite lookup_insert_ne; [exact Hl|].
    apply not_eq_sym. exact (fresh_not_allocated _ _ _ Hl). }
  pose (child := defineChildSerializerContext g
          {| SerializerContextOptions.jsonPathKey := PathIndex 0;
             SerializerContextOptions.typeMetadata := typeMetadata g;
             SerializerContextOptions.propertyMetadata := None;
             SerializerContextOptions.genericArguments := None;
             SerializerContextOptions.referenceValueSetter :=
               Some (SetSerializer.setAddSetter a) |}).
  assert (Hchild_serializer : serializer child = SetSerializerImpl).
  { unfold child, serializer, typeMetadata, propertyMetadata. cbn.
    fold (typeMetadata g). rewrite Hgtm. exact Hset. }
  assert (Hchild_arguments : genericArguments child = None).
  { unfold child, genericArguments, typeMetadata, propertyMetadata. cbn.
    fold (typeMetadata g). rewrite Hgtm. exact Hnone. }
  assert (Hchild_path : jsonPath child = elementPath (jsonPath c) 0).
  { unfold child. apply (jsonPath_element defineTypeMetadata); [exact Hgeneric|reflexivity]. }
  pose (s1 := withHeap h1 (inProgress outer s)).
  assert (Hinner_throws :
    deserialize defineTypeMetadata externalDeserialize (S depth) child (VObject inner) s1
    = (Throw (genericArgumentsMissing child),
       withHeap (<[fresh (dom (heap s1)) := OSet []]> (heap s1))
         (inProgress inner s1))).
  { rewrite deserialize_S, Hchild_serializer.
    apply (deserialize_array_throws _ _ _ _ inner innerItems).
    - unfold asArray, s1. cbn [heap withHeap]. rewrite (Hkeep _ _ Hinner). reflexivity.
    - unfold entryOf, WeakMap_get, s1. cbn [referenceMap withHeap inProgress setReference].
      rewrite lookup_insert_ne by (apply not_eq_sym; exact Hne). exact Hnil'.
    - apply defineGenericSerializerContext_absent. exact Hchild_arguments. }
  eexists.
  rewrite deserialize_S, Hserializer.
  rewrite (deserialize_array_handled _ _ _ _ _ outer (VObject inner :: items))
    by (unfold asArray; rewrite Houter; reflexivity).
  apply handle_initializer_throws; [exact Hnil|].
  unfold SetSerializer.deserializeInitializer.
  rewrite (bind_Ok _ _ _ a s1) by reflexivity.
  rewrite (bind_Ok _ _ _ g s1) by (unfold liftOutcome; rewrite Hgeneric; reflexivity).
  rewrite (bind_Ok _ _ _ (VObject inner :: items) s1)
    by (unfold itemsOf, s1; cbn [heap withHeap]; rewrite (Hkeep _ _ Houter); reflexivity).
  apply bind_Throw. cbn [SetSerializer.deserializeItems].
  apply bind_Throw. fold child. rewrite Hinner_throws.
  unfold genericArgumentsMissing. rewrite Hchild_path. reflexivity.
Qed.

(** The array [[[1]]], declared as a set of sets of numbers. *)
Lemma array_in_array_throws_witness :
  exists s',
    deserialize (Fixture.registry true) Fixture.passThrough 3
      (Fixture.nestedSetField true) (VObject 1%positive)
      (Fixture.freshState
         (<[1%positive := OArray [VObject 2%positive]]>
            {[ 2%positive := OArray [VNumber 1] ]}))
    = (Throw (Error (elementPath "$['tags']" 0 +:+
         ": cannot define generic arguments. This is usually caused by invalid configuration.")),
       s').
Proof.
  assert (Houter :
    heap (Fixture.freshState
            (<[1%positive := OArray [VObject 2%positive]]>
               {[ 2%positive := OArray [VNumber 1] ]})) !! 1%positive
    = Some (OArray [VObject 2%positive])) by reflexivity.
  assert (Hinner :
    heap (Fixture.freshState
            (<[1%positive := OArray [VObject 2%positive]]>
               {[ 2%positive := OArray [VNumber 1] ]})) !! 2%positive
    = Some (OArray [VNumber 1])) by reflexivity.
  assert (Hne : 2%positive <> 1%positive) by discriminate.
  exact (array_in_array_throws (Fixture.registry true) Fixture.passThrough 1
           (Fixture.nestedSetField true) 1%positive 2%positive [] [VNumber 1]
           (GenericPair (ArgTypeFn Fixture.SetFn) [GenericType (ArgTypeFn Fixture.NumberFn)])
           (Fixture.setMetadata true) _
           eq_refl eq_refl eq_refl eq_refl eq_refl Houter Hinner Hne eq_refl eq_refl).
Defined.

(** ** A set that holds itself *)

(** X8.  A set that holds itself is serialized without entering it twice,
    when the type resolved for the elements is handled by the set
    serializer: the visit of the element meets the placeholder and returns
    a resolver, and the set serializer stores what the element's serializer
    returned.  The result is a new array whose one slot holds the resolver
    function itself; called after the traversal, the resolver returns that
    array. *)
Theorem set_holding_itself defineTypeMetadata externalSerialize depth c set argument tm s :
  serializer c = SetSerializerImpl ->
  genericArgumentAt c 0 = Some argument ->
  defineTypeMetadata (genericTypeArgument argument) = Ok tm ->
  TypeMetadata.serializer tm = SetSerializerImpl ->
  heap s !! set = Some (OSet [VObject set]) ->
  isNil (entryOf s set) = true ->
  queuedCallbacks s set = [] ->
  exists array s1,
    serialize defineTypeMetadata externalSerialize (S (S depth)) c (VObject set) s
    = (Ok (VObject array), s1)
    /\ heap s !! array = None
    /\ heap s1 !! array = Some (OArray [VResolver set])
    /\ heap s1 !! set = Some (OSet [VObject set])
    /\ entryOf s1 set = VObject array
    /\ callResolver (VResolver set) s1 = (Ok (VObject array), s1).
Proof.
  intros Hserializer Hat Htm Hset Hitems Hnil Hqueue.
  destruct (defineGenericSerializerContext_resolved defineTypeMetadata c 0 argument tm
              Hat Htm)
    as (g & Hgeneric & Hgtm & _).
  pose (a := fresh (dom (heap s))).
  pose (h1 := <[a := OArray []]> (heap s)).
  pose (b := fresh (dom h1)).
  pose (h2 := <[b := OVariable (-1)]> h1).
  pose (h3 := <[b := OVariable 0]> h2).
  assert (Ha1 : h1 !! a = Some (OArray [])) by (unfold h1; apply lookup_insert_eq).
  assert (Hba : b <> a) by (apply not_eq_sym; exact (fresh_not_allocated _ _ _ Ha1)).
  assert (Ha3 : h3 !! a = Some (OArray [])).
  { unfold h3, h2. rewrite !lookup_insert_ne by exact Hba. exact Ha1. }
  assert (Hset1 : h1 !! set = Some (OSet [VObject set])).
  { unfold h1. rewrite lookup_insert_ne; [exact Hitems|].
    apply not_eq_sym. exact (fresh_not_allocated _ _ _ Hitems). }
  assert (Hbset : b <> set) by (apply not_eq_sym; exact (fresh_not_allocated _ _ _ Hset1)).
  assert (Hset2 : h2 !! set = Some (OSet [VObject set])).
  { unfold h2. rewrite lookup_insert_ne by exact Hbset. exact Hset1. }
  assert (Hset3 : h3 !! set = Some (OSet [VObject set])).
  { unfold h3. rewrite lookup_insert_ne by exact Hbset. exact Hset2. }
  pose (child := defineChildSerializerContext g
          {| SerializerContextOptions.jsonPathKey := PathIndex 0;
             SerializerContextOptions.typeMetadata := typeMetadata g;
             SerializerContextOptions.propertyMetadata := None;
             SerializerContextOptions.genericArguments := None;
             SerializerContextOptions.referenceValueSetter :=
               Some (SetSerializer.arraySlotSetter a b) |}).
  assert (Hchild_serializer : serializer child = SetSerializerImpl).
  { unfold child, serializer, typeMetadata, propertyMetadata. cbn.
    fold (typeMetadata g). rewrite Hgtm. exact Hset. }
  pose (s3 := withHeap h3 (inProgress set s)).
  pose (h4 := <[a := OArray [VResolver set]]> h3).
  pose (s4 := withHeap h4 (inProgress set s)).
  assert (Helement :
    serialize defineTypeMetadata externalSerialize (S depth) child (VObject set) s3
    = (Ok (VResolver set), s3)).
  { rewrite serialize_S, Hchild_serializer.
    rewrite (serialize_set_handled _ _ _ _ _ set [VObject set]).
    - apply handle_placeholder. unfold entryOf, WeakMap_get, s3.
      cbn [referenceMap withHeap inProgress setReference].
      rewrite lookup_insert_eq. reflexivity.
    - unfold asSet, s3. cbn [heap withHeap]. rewrite Hset3. reflexivity. }
  assert (Hinitializer :
    SetSerializer.serializeInitializer defineTypeMetadata
      (serialize defineTypeMetadata externalSerialize (S depth)) set c
      (setReference set (VObject set) s)
    = (Ok (VObject a), s4)).
  { unfold SetSerializer.serializeInitializer.
    rewrite (bind_Ok _ _ _ a (withHeap h1 (inProgress set s))) by reflexivity.
    rewrite (bind_Ok _ _ _ g (withHeap h1 (inProgress set s)))
      by (unfold liftOutcome; rewrite Hgeneric; reflexivity).
    rewrite (bind_Ok _ _ _ b (withHeap h2 (inProgress set s))) by reflexivity.
    rewrite (bind_Ok _ _ _ [VObject set] (withHeap h2 (inProgress set s)))
      by (unfold itemsOf; cbn [heap withHeap]; rewrite Hset2; reflexivity).
    rewrite (bind_Ok _ _ _ tt s4); [reflexivity|].
    cbn [SetSerializer.serializeItems]. replace (-1 + 1) with 0 by reflexivity.
    rewrite (bind_Ok _ _ _ tt s3) by reflexivity.
    fold child. rewrite (bind_Ok _ _ _ _ _ Helement).
    rewrite (bind_Ok _ _ _ tt s4); [reflexivity|].
    unfold updateHeap, s3, s4, h4, heapArrayStore. cbn [heap withHeap].
    rewrite Ha3. reflexivity. }
  exists a, (replayed set (setReference set (VObject a) s4)).
  assert (Hreplayed :
    replayed set (setReference set (VObject a) s4) = setReference set (VObject a) s4).
  { unfold replayed.
    replace (queuedCallbacks (setReference set (VObject a) s4) set)
      with (queuedCallbacks s set) by reflexivity.
    rewrite Hqueue. reflexivity. }
  split.
  { rewrite serialize_S, Hserializer.
    rewrite (serialize_set_handled _ _ _ _ _ set [VObject set])
      by (unfold asSet; rewrite Hitems; reflexivity).
    exact (handle_initializes Serializing c _ _ _ _ _ Hnil Hinitializer). }
  rewrite Hreplayed.
  assert (Hentry : entryOf (setReference set (VObject a) s4) set = VObject a)
    by apply entryOf_setReference.
  split; [apply alloc_fresh|].
  split; [unfold s4, h4; cbn [heap setReference withHeap]; apply lookup_insert_eq|].
  split.
  { unfold s4, h4. cbn [heap setReference withHeap].
    rewrite lookup_insert_ne; [exact Hset3|].
    apply not_eq_sym. exact (fresh_not_allocated _ _ _ Hitems). }
  split; [exact Hentry|].
  unfold callResolver, referenceMap_get. fold (entryOf (setReference set (VObject a) s4) set).
  rewrite Hentry. reflexivity.
Qed.

(** The set at object 1 that holds itself, declared as a set of sets. *)
Lemma set_holding_itself_witness :
  exists array s1,
    serialize (Fixture.registry true) Fixture.passThrough 2
      (Fixture.nestedSetField true) (VObject 1%positive)
      (Fixture.freshState {[ 1%positive := OSet [VObject 1%positive] ]})
    = (Ok (VObject array), s1)
    /\ heap s1 !! array = Some (OArray [VResolver 1%positive]).
Proof.
  assert (Hitems :
    heap (Fixture.freshState {[ 1%positive := OSet [VObject 1%positive] ]}) !! 1%positive
    = Some (OSet [VObject 1%positive])) by reflexivity.
  destruct (set_holding_itself (Fixture.registry true) Fixture.passThrough 0
              (Fixture.nestedSetField true) 1%positive
              (GenericPair (ArgTypeFn Fixture.SetFn)
                 [GenericType (ArgTypeFn Fixture.NumberFn)])
              (Fixture.setMetadata true)
              (Fixture.freshState {[ 1%positive := OSet [VObject 1%positive] ]})
              eq_refl eq_refl eq_refl eq_refl Hitems eq_refl eq_refl)
    as (array & s1 & Hrun & _ & Harray & _).
  exists array, s1. split; [exact Hrun | exact Harray].
Defined.

(** ** The deferred setters of the array slots *)

Lemma arrayStore_inside items (m : nat) v :
  (m < length items)%nat -> arrayStore items (Z.of_nat m) v = <[m := v]> items.
Proof.
  intros Hm. unfold arrayStore.
  destruct (Z.ltb_spec (Z.of_nat m) 0) as [Hneg|_]; [lia|].
  rewrite Nat2Z.id.
  destruct (Nat.ltb_spec m (length items)) as [_|Hge]; [reflexivity|lia].
Qed.

(** One deferred call of the slot setter: it writes the slot the loop
    variable names when the call is made. *)
Lemma run_slot_setter array ivar referenceKey r (m : nat) items s :
  array <> ivar ->
  heap s !! ivar = Some (OVariable (Z.of_nat m)) ->
  heap s !! array = Some (OArray items) ->
  (m < length items)%nat ->
  entryOf s referenceKey = r ->
  let s' := runReferenceCallback s
              (deferredCallback (SetSerializer.arraySlotSetter array ivar) referenceKey) in
  heap s' !! array = Some (OArray (<[m := r]> items))
  /\ heap s' !! ivar = Some (OVariable (Z.of_nat m))
  /\ entryOf s' referenceKey = r.
Proof.
  intros Hne Hivar Harray Hm Hentry. cbn zeta.
  unfold runReferenceCallback, deferredCallback, SetSerializer.arraySlotSetter.
  fold (entryOf s referenceKey). rewrite Hivar, Hentry.
  unfold heapArrayStore. rewrite Harray. cbn [heap withHeap].
  rewrite (arrayStore_inside _ _ _ Hm).
  rewrite lookup_insert_eq, lookup_insert_ne by exact Hne.
  split; [reflexivity|]. split; [exact Hivar | exact Hentry].
Qed.

Lemma run_slot_setters array ivar referenceKey r (m : nat) k : forall items s,
  array <> ivar ->
  heap s !! ivar = Some (OVariable (Z.of_nat m)) ->
  heap s !! array = Some (OArray items) ->
  (m < length items)%nat ->
  entryOf s referenceKey = r ->
  heap (fold_left runReferenceCallback
          (replicate (S k)
             (deferredCallback (SetSerializer.arraySlotSetter array ivar) referenceKey)) s)
    !! array
  = Some (OArray (<[m := r]> items)).
Proof.
  induction k as [|k IH]; intros items s Hne Hivar Harray Hm Hentry.
  - cbn [replicate fold_left].
    exact (proj1 (run_slot_setter _ _ _ _ _ _ _ Hne Hivar Harray Hm Hentry)).
  - change (replicate (S (S k)) ?cb) with (cb :: replicate (S k) cb).
    cbn [fold_left].
    destruct (run_slot_setter _ _ _ _ _ _ _ Hne Hivar Harray Hm Hentry)
      as (Harray' & Hivar' & Hentry').
    rewrite (IH _ _ Hne Hivar' Harray'); [|rewrite length_insert; exact Hm|exact Hentry'].
    rewrite list_insert_insert_eq. reflexivity.
Qed.

(** The loop of [serialize] over elements whose visits defer: the array
    receives the elements, the loop variable ends at the last index, and
    one callback per element is queued for the awaited key. *)
Lemma serializeItems_deferring genericSerializerContext array ivar referenceKey items :
  forall i done s,
    array <> ivar ->
    heap s !! array = Some (OArray done) ->
    Z.of_nat (length done) = i + 1 ->
    exists s',
      SetSerializer.serializeItems (deferringSerializer referenceKey)
        genericSerializerContext array ivar i items s
      = (Ok tt, s')
      /\ heap s' !! array = Some (OArray (done ++ items))
      /\ heap s' !! ivar
         = match items with
           | [] => heap s !! ivar
           | _ => Some (OVariable (i + Z.of_nat (length items)))
           end
      /\ referenceMap s' = referenceMap s
      /\ queuedCallbacks s' referenceKey
         = queuedCallbacks s referenceKey
           ++ replicate (length items)
                (deferredCallback (SetSerializer.arraySlotSetter array ivar) referenceKey)
      /\ (forall other, other <> referenceKey ->
            queuedCallbacks s' other = queuedCallbacks s other).
Proof.
  induction items as [|v rest IH]; intros i done s Hne Harray Hlength.
  - exists s. rewrite !app_nil_r. auto 10.
  - pose (s1 := withHeap (<[ivar := OVariable (i + 1)]> (heap s)) s).
    pose (s2 := snd (pushReferenceCallback referenceKey
                       (deferredCallback (SetSerializer.arraySlotSetter array ivar)
                          referenceKey) s1)).
    pose (s3 := withHeap (<[array := OArray (done ++ [v])]> (heap s2)) s2).
    assert (Harray2 : heap s2 !! array = Some (OArray done)).
    { unfold s2. rewrite pushReferenceCallback_state. cbn [snd heap].
      unfold s1. cbn [heap withHeap].
      rewrite lookup_insert_ne by (apply not_eq_sym; exact Hne). exact Harray. }
    assert (Hlength' : Z.of_nat (length (done ++ [v])) = (i + 1) + 1).
    { rewrite length_app. cbn [length]. lia. }
    destruct (IH (i + 1) (done ++ [v]) s3 Hne) as (s' & Hrun & Harray' & Hivar' & Hmap & Hqueue & Hother).
    { unfold s3. cbn [heap withHeap]. apply lookup_insert_eq. }
    { exact Hlength'. }
    exists s'. split.
    { cbn [SetSerializer.serializeItems].
      rewrite (bind_Ok _ _ _ tt s1) by reflexivity.
      rewrite (bind_Ok _ _ _ v s2) by reflexivity.
      rewrite (bind_Ok _ _ _ tt s3); [exact Hrun|].
      unfold updateHeap, s3, heapArrayStore. rewrite Harray2.
      replace (i + 1) with (Z.of_nat (length done)) by lia.
      rewrite arrayStore_end. reflexivity. }
    split; [rewrite Harray', <- app_assoc; reflexivity|].
    split.
    { rewrite Hivar'. destruct rest as [|v' rest].
      - unfold s3, s2. rewrite pushReferenceCallback_state. cbn [snd heap withHeap].
        rewrite lookup_insert_ne by exact Hne.
        unfold s1. cbn [heap withHeap]. rewrite lookup_insert_eq. reflexivity.
      - f_equal. f_equal. cbn [length]. lia. }
    split; [rewrite Hmap; reflexivity|].
    split.
    { rewrite Hqueue. unfold s3, s2. rewrite pushReferenceCallback_state.
      cbn [snd]. unfold queuedCallbacks at 1. cbn [referenceCallbackMap withHeap].
      rewrite lookup_insert_eq.
      replace (queuedCallbacks s1 referenceKey) with (queuedCallbacks s referenceKey)
        by reflexivity.
      rewrite <- app_assoc. reflexivity. }
    intros other Hneq. rewrite (Hother other Hneq).
    unfold s3, s2. rewrite pushReferenceCallback_state. cbn [snd].
    unfold queuedCallbacks. cbn [referenceCallbackMap withHeap].
    rewrite lookup_insert_ne by (apply not_eq_sym; exact Hneq). reflexivity.
Qed.

(** X9.  The deferred setters of a serialized set all write the last slot
    of the array.  The setter [serialize] hands to the context of each
    element is [v => array[i] = v] over the one loop variable [i], which
    the closure reads when it is called.  When the visit of every element
    registers that setter for a key that is still in progress and returns
    the element, the array first holds the elements and one callback per
    element is queued; once the key's value [r] is stored and the queue is
    replayed, only the last slot holds [r] and every other slot is as the
    loop left it. *)
Theorem deferred_array_setters_write_last_slot defineTypeMetadata c set referenceKey
    items argument tm s r :
  genericArgumentAt c 0 = Some argument ->
  defineTypeMetadata (genericTypeArgument argument) = Ok tm ->
  heap s !! set = Some (OSet items) ->
  items <> [] ->
  isNil (entryOf s set) = true ->
  set <> referenceKey ->
  queuedCallbacks s referenceKey = [] ->
  queuedCallbacks s set = [] ->
  exists array s1,
    SetSerializer.serialize defineTypeMetadata (deferringSerializer referenceKey)
      (VObject set) c s
    = (Ok (VObject array), s1)
    /\ heap s1 !! array = Some (OArray items)
    /\ length (queuedCallbacks s1 referenceKey) = length items
    /\ heap (replayed referenceKey (setReference referenceKey r s1)) !! array
       = Some (OArray (<[(length items - 1)%nat := r]> items)).
Proof.
  intros Hat Htm Hitems Hnonempty Hnil Hne Hqueue Hqueue'.
  destruct (defineGenericSerializerContext_resolved defineTypeMetadata c 0 argument tm
              Hat Htm)
    as (g & Hgeneric & _).
  pose (a := fresh (dom (heap s))).
  pose (h1 := <[a := OArray []]> (heap s)).
  pose (b := fresh (dom h1)).
  pose (h2 := <[b := OVariable (-1)]> h1).
  assert (Ha1 : h1 !! a = Some (OArray [])) by (unfold h1; apply lookup_insert_eq).
  assert (Hba : b <> a) by (apply not_eq_sym; exact (fresh_not_allocated _ _ _ Ha1)).
  assert (Hset1 : h1 !! set = Some (OSet items)).
  { unfold h1. rewrite lookup_insert_ne; [exact Hitems|].
    apply not_eq_sym. exact (fresh_not_allocated _ _ _ Hitems). }
  assert (Hset2 : h2 !! set = Some (OSet items)).
  { unfold h2. rewrite lookup_insert_ne; [exact Hset1|].
    apply not_eq_sym. exact (fresh_not_allocated _ _ _ Hset1). }
  pose (s2 := withHeap h2 (inProgress set s)).
  destruct (serializeItems_deferring g a b referenceKey items (-1) [] s2)
    as (s' & Hloop & Harray & Hivar & Hmap & Hqueued & Hother).
  { apply not_eq_sym. exact Hba. }
  { unfold s2, h2. cbn [heap withHeap]. rewrite lookup_insert_ne by exact Hba. exact Ha1. }
  { reflexivity. }
  cbn [app] in Harray.
  assert (Hinitializer :
    SetSerializer.serializeInitializer defineTypeMetadata (deferringSerializer referenceKey)
      set c (setReference set (VObject set) s)
    = (Ok (VObject a), s')).
  { unfold SetSerializer.serializeInitializer.
    rewrite (bind_Ok _ _ _ a (withHeap h1 (inProgress set s))) by reflexivity.
    rewrite (bind_Ok _ _ _ g (withHeap h1 (inProgress set s)))
      by (unfold liftOutcome; rewrite Hgeneric; reflexivity).
    rewrite (bind_Ok _ _ _ b s2) by reflexivity.
    rewrite (bind_Ok _ _ _ items s2)
      by (unfold itemsOf, s2; cbn [heap withHeap]; rewrite Hset2; reflexivity).
    rewrite (bind_Ok _ _ _ _ _ Hloop). reflexivity. }
  assert (Hreplayed :
    replayed set (setReference set (VObject a) s') = setReference set (VObject a) s').
  { unfold replayed.
    replace (queuedCallbacks (setReference set (VObject a) s') set)
      with (queuedCallbacks s' set) by reflexivity.
    rewrite (Hother set Hne).
    replace (queuedCallbacks s2 set) with (queuedCallbacks s set) by reflexivity.
    rewrite Hqueue'. reflexivity. }
  assert (Hqueued' :
    queuedCallbacks s' referenceKey
    = replicate (length items)
        (deferredCallback (SetSerializer.arraySlotSetter a b) referenceKey)).
  { rewrite Hqueued.
    replace (queuedCallbacks s2 referenceKey) with (queuedCallbacks s referenceKey)
      by reflexivity.
    rewrite Hqueue. reflexivity. }
  exists a, (setReference set (VObject a) s'). split.
  { rewrite (serialize_set_handled _ _ _ _ _ set items)
      by (unfold asSet; rewrite Hitems; reflexivity).
    rewrite <- Hreplayed.
    exact (handle_initializes Serializing c _ _ _ _ _ Hnil Hinitializer). }
  split; [exact Harray|].
  split.
  { replace (queuedCallbacks (setReference set (VObject a) s') referenceKey)
      with (queuedCallbacks s' referenceKey) by reflexivity.
    rewrite Hqueued'. apply length_replicate. }
  unfold replayed.
  replace (queuedCallbacks
             (setReference referenceKey r (setReference set (VObject a) s')) referenceKey)
    with (queuedCallbacks s' referenceKey) by reflexivity.
  rewrite Hqueued'.
  destruct items as [|v rest]; [contradiction Hnonempty; reflexivity|].
  change (length (v :: rest)) with (S (length rest)).
  replace (S (length rest) - 1)%nat with (length rest) by lia.
  apply run_slot_setters.
  - apply not_eq_sym. exact Hba.
  - cbn [heap setReference]. rewrite Hivar. f_equal. f_equal. cbn [length]. lia.
  - exact Harray.
  - cbn [length]. lia.
  - apply entryOf_setReference.
Qed.

(** The set [{1, 2, 3}] at object 1, every element awaiting object 9: the
    replay writes the value 7 object 9 ends with to slot 2 alone. *)
Lemma deferred_array_setters_write_last_slot_witness :
  exists array s1,
    SetSerializer.serialize (Fixture.registry true) (deferringSerializer 9%positive)
      (VObject 1%positive) (Fixture.numberSetField true)
      (Fixture.freshState {[ 1%positive := OSet [VNumber 1; VNumber 2; VNumber 3] ]})
    = (Ok (VObject array), s1)
    /\ heap (replayed 9%positive (setReference 9%positive (VNumber 7) s1)) !! array
       = Some (OArray [VNumber 1; VNumber 2; VNumber 7]).
Proof.
  assert (Hitems :
    heap (Fixture.freshState {[ 1%positive := OSet [VNumber 1; VNumber 2; VNumber 3] ]})
      !! 1%positive
    = Some (OSet [VNumber 1; VNumber 2; VNumber 3])) by reflexivity.
  assert (Hnonempty : [VNumber 1; VNumber 2; VNumber 3] <> []) by discriminate.
  assert (Hne : 1%positive <> 9%positive) by discriminate.
  destruct (deferred_array_setters_write_last_slot (Fixture.registry true)
              (Fixture.numberSetField true) 1%positive 9%positive
              [VNumber 1; VNumber 2; VNumber 3]
              (GenericType (ArgTypeFn Fixture.NumberFn)) Fixture.numberMetadata
              (Fixture.freshState
                 {[ 1%positive := OSet [VNumber 1; VNumber 2; VNumber 3] ]})
              (VNumber 7)
              eq_refl eq_refl Hitems Hnonempty eq_refl Hne eq_refl eq_refl)
    as (array & s1 & Hrun & _ & _ & Hreplay).
  exists array, s1. split; [exact Hrun | exact Hreplay].
Defined.

(** ** Duplicates on the wire *)

Lemma setAdd_NoDup items v : NoDup items -> NoDup (setAdd items v).
Proof.
  intros Hnodup. unfold setAdd. case_bool_decide as Hin; [exact Hnodup|].
  apply NoDup_app. split; [exact Hnodup|]. split.
  - intros x Hx Hx'. apply list_elem_of_singleton in Hx'. subst x. exact (Hin Hx).
  - apply NoDup_singleton.
Qed.

Lemma setAdd_elem_of items v x : x ∈ setAdd items v <-> x ∈ items \/ x = v.
Proof.
  unfold setAdd. case_bool_decide as Hin.
  - split; [auto|]. intros [Hx| ->]; assumption.
  - rewrite elem_of_app, list_elem_of_singleton. reflexivity.
Qed.

Lemma fold_setAdd_NoDup values : forall done,
  NoDup done -> NoDup (fold_left setAdd values done).
Proof.
  induction values as [|v values IH]; intros done Hnodup; [exact Hnodup|].
  cbn [fold_left]. apply IH. apply setAdd_NoDup. exact Hnodup.
Qed.

Lemma fold_setAdd_elem_of values : forall done x,
  x ∈ fold_left setAdd values done <-> x ∈ done \/ x ∈ values.
Proof.
  induction values as [|v values IH]; intros done x; cbn [fold_left].
  - split; [auto|]. intros [Hx|Hx]; [exact Hx|]. inversion Hx.
  - rewrite IH, setAdd_elem_of, elem_of_cons. tauto.
Qed.

(** The loop of [deserialize] over elements an external deserializer
    decodes without effect: each decoded element is added to the set. *)
Lemma deserializeItems_decoded defineTypeMetadata externalDeserialize depth id decode
    genericSerializerContext set (wires : list Value) :
  TypeMetadata.serializer (typeMetadata genericSerializerContext) = ExternalSerializer id ->
  forall rest done i s,
    (forall w, w ∈ rest -> w ∈ wires) ->
    (forall w ctx st, w ∈ wires -> externalDeserialize id w ctx st = (Ok (decode w), st)) ->
    heap s !! set = Some (OSet done) ->
    SetSerializer.deserializeItems
      (deserialize defineTypeMetadata externalDeserialize (S depth))
      genericSerializerContext set i rest s
    = (Ok tt,
       withHeap (<[set := OSet (fold_left setAdd (map decode rest) done)]> (heap s)) s).
Proof.
  intros Hserializer rest.
  induction rest as [|w rest IH]; intros done i s Hwires Hdecode Hset.
  - cbn [SetSerializer.deserializeItems map fold_left].
    rewrite (insert_id (heap s) set) by exact Hset.
    rewrite withHeap_heap. reflexivity.
  - cbn [SetSerializer.deserializeItems map fold_left].
    set (valueSerializerContext := defineChildSerializerContext _ _).
    assert (Hvalue : forall s',
      deserialize defineTypeMetadata externalDeserialize (S depth)
        valueSerializerContext w s' = (Ok (decode w), s')).
    { intros s'. rewrite deserialize_S.
      assert (Hchild : serializer valueSerializerContext = ExternalSerializer id)
        by exact Hserializer.
      rewrite Hchild. apply Hdecode. apply Hwires. left. }
    rewrite (bind_Ok _ _ _ _ _ (Hvalue _)).
    unfold updateHeap at 1. unfold bind at 1.
    assert (Hadded :
      heapSetAdd set (decode w) (heap s)
      = <[set := OSet (setAdd done (decode w))]> (heap s)).
    { unfold heapSetAdd. rewrite Hset. reflexivity. }
    rewrite Hadded.
    rewrite (IH (setAdd done (decode w))).
    + rewrite withHeap_withHeap. cbn [heap withHeap].
      rewrite insert_insert_eq. reflexivity.
    + intros w' Hin. apply Hwires. right. exact Hin.
    + exact Hdecode.
    + cbn [heap withHeap]. apply lookup_insert_eq.
Qed.

(** X10.  Deserializing an array into a set collapses duplicates.  When the
    element type is decoded by an external deserializer without effect, the
    array [wires] becomes a new set that holds the decoded elements in the
    order of their first occurrence, each once: the set has no duplicates,
    holds exactly the values decoded from the array, and never more
    elements than the array; the array is untouched. *)
Theorem deserialized_set_collapses_duplicates defineTypeMetadata externalDeserialize
    depth c array (wires : list Value) decode id argument tm s :
  serializer c = SetSerializerImpl ->
  genericArgumentAt c 0 = Some argument ->
  defineTypeMetadata (genericTypeArgument argument) = Ok tm ->
  TypeMetadata.serializer tm = ExternalSerializer id ->
  (forall w ctx st, w ∈ wires -> externalDeserialize id w ctx st = (Ok (decode w), st)) ->
  heap s !! array = Some (OArray wires) ->
  isNil (entryOf s array) = true ->
  queuedCallbacks s array = [] ->
  exists set s1,
    deserialize defineTypeMetadata externalDeserialize (S (S depth)) c (VObject array) s
    = (Ok (VObject set), s1)
    /\ heap s !! set = None
    /\ heap s1 !! set = Some (OSet (addedAll (map decode wires)))
    /\ heap s1 !! array = Some (OArray wires)
    /\ NoDup (addedAll (map decode wires))
    /\ (forall v, v ∈ addedAll (map decode wires) <-> v ∈ map decode wires)
    /\ (length (addedAll (map decode wires)) <= length wires)%nat.
Proof.
  intros Hserializer Hat Htm Hexternal Hdecode Harray Hnil Hqueue.
  destruct (defineGenericSerializerContext_resolved defineTypeMetadata c 0 argument tm
              Hat Htm)
    as (g & Hgeneric & Hgtm & _).
  pose (a := fresh (dom (heap s))).
  pose (h1 := <[a := OSet []]> (heap s)).
  pose (s1 := withHeap h1 (inProgress array s)).
  pose (h2 := <[a := OSet (addedAll (map decode wires))]> h1).
  pose (s2 := withHeap h2 (inProgress array s)).
  assert (Hne : a <> array) by (apply not_eq_sym; exact (fresh_not_allocated _ _ _ Harray)).
  assert (Harray1 : h1 !! array = Some (OArray wires)).
  { unfold h1. rewrite lookup_insert_ne by exact Hne. exact Harray. }
  assert (Hinitializer :
    SetSerializer.deserializeInitializer defineTypeMetadata
      (deserialize defineTypeMetadata externalDeserialize (S depth)) array c
      (setReference array (VObject array) s)
    = (Ok (VObject a), s2)).
  { unfold SetSerializer.deserializeInitializer.
    rewrite (bind_Ok _ _ _ a s1) by reflexivity.
    rewrite (bind_Ok _ _ _ g s1) by (unfold liftOutcome; rewrite Hgeneric; reflexivity).
    rewrite (bind_Ok _ _ _ wires s1)
      by (unfold itemsOf, s1; cbn [heap withHeap]; rewrite Harray1; reflexivity).
    rewrite (bind_Ok _ _ _ tt s2); [reflexivity|].
    rewrite (deserializeItems_decoded defineTypeMetadata externalDeserialize depth id
               decode g a wires) with (done := []).
    - reflexivity.
    - rewrite Hgtm. exact Hexternal.
    - auto.
    - exact Hdecode.
    - unfold s1, h1. cbn [heap withHeap]. apply lookup_insert_eq. }
  exists a, (setReference array (VObject a) s2).
  split.
  { rewrite deserialize_S, Hserializer.
    rewrite (deserialize_array_handled _ _ _ _ _ array wires)
      by (unfold asArray; rewrite Harray; reflexivity).
    rewrite (handle_initializes Deserializing c _ _ _ _ _ Hnil Hinitializer).
    unfold replayed.
    replace (queuedCallbacks (setReference array (VObject a) s2) array)
      with (queuedCallbacks s array) by reflexivity.
    rewrite Hqueue. reflexivity. }
  split; [apply alloc_fresh|].
  split; [unfold s2, h2; cbn [heap setReference withHeap]; apply lookup_insert_eq|].
  split.
  { unfold s2, h2. cbn [heap setReference withHeap].
    rewrite lookup_insert_ne by exact Hne. exact Harray1. }
  split; [apply fold_setAdd_NoDup; apply NoDup_nil_2|].
  split.
  { intros v. unfold addedAll. rewrite fold_setAdd_elem_of.
    split; [intros [Hv|Hv]; [inversion Hv | exact Hv] | auto]. }
  rewrite <- (length_map decode wires).
  apply submseteq_length, NoDup_submseteq.
  - apply fold_setAdd_NoDup, NoDup_nil_2.
  - intros v Hv. unfold addedAll in Hv. apply fold_setAdd_elem_of in Hv as [Hv|Hv];
      [inversion Hv | exact Hv].
Qed.

(** The array [[1, 2, 1]], declared as a set of numbers: the set is
    [{1, 2}]. *)
Lemma deserialized_set_collapses_duplicates_witness :
  exists set s1,
    deserialize (Fixture.registry true) Fixture.passThrough 2
      (Fixture.numberSetField true) (VObject 1%positive)
      (Fixture.freshState {[ 1%positive := OArray [VNumber 1; VNumber 2; VNumber 1] ]})
    = (Ok (VObject set), s1)
    /\ heap s1 !! set = Some (OSet [VNumber 1; VNumber 2]).
Proof.
  assert (Harray :
    heap (Fixture.freshState {[ 1%positive := OArray [VNumber 1; VNumber 2; VNumber 1] ]})
      !! 1%positive
    = Some (OArray [VNumber 1; VNumber 2; VNumber 1])) by reflexivity.
  destruct (deserialized_set_collapses_duplicates (Fixture.registry true)
              Fixture.passThrough 0 (Fixture.numberSetField true) 1%positive
              [VNumber 1; VNumber 2; VNumber 1] (fun w => w) "Number"
              (GenericType (ArgTypeFn Fixture.NumberFn)) Fixture.numberMetadata
              (Fixture.freshState
                 {[ 1%positive := OArray [VNumber 1; VNumber 2; VNumber 1] ]})
              eq_refl eq_refl eq_refl eq_refl (fun w ctx st _ => eq_refl)
              Harray eq_refl eq_refl)
    as (set & s1 & Hrun & _ & Hset & _).
  exists set, s1. split; [exact Hrun | exact Hset].
Defined.

(** ** The polymorphic context is a member of the hierarchy *)

Lemma Map_get_member m k :
  isNil (Map_get m k) = false ->
  exists before after,
    m = before ++ (k, Map_get m k) :: after
    /\ forall member, member ∈ before -> member.1 <> k.
Proof.
  unfold Map_get. induction m as [|[k' d] m IH]; cbn [find]; [discriminate|].
  cbn [fst]. case_bool_decide as Hkey.
  - subst k'. intros _. exists [], m. split; [reflexivity|].
    intros member Hin. inversion Hin.
  - intros Hnil. destruct (IH Hnil) as (before & after & Hsplit & Hbefore).
    exists ((k', d) :: before), after. split.
    + cbn [app]. f_equal. exact Hsplit.
    + intros member Hin. apply elem_of_cons in Hin as [-> | Hin];
        [exact Hkey | exact (Hbefore member Hin)].
Qed.

Lemma scanDiscriminantMap_member defineTypeMetadata h c record members c' :
  scanDiscriminantMap defineTypeMetadata h c record members = Ok c' ->
  exists typeCtor discriminant tm,
    (typeCtor, discriminant) ∈ members
    /\ defineTypeMetadata (ArgTypeFn typeCtor) = Ok tm
    /\ getProperty h record (TypeMetadata.discriminator tm) = Ok discriminant
    /\ c' = withTypeMetadata c tm.
Proof.
  induction members as [|[typeCtor discriminant] members IH];
    cbn [scanDiscriminantMap]; [discriminate|].
  destruct (defineTypeMetadata (ArgTypeFn typeCtor)) as [tm|e] eqn:Htm; [|discriminate].
  destruct (getProperty h record (TypeMetadata.discriminator tm)) as [v|e] eqn:Hfield;
    [|discriminate].
  unfold strictEquals. case_bool_decide as Hmatch.
  - intros Hfound. injection Hfound as <-. subst v.
    exists typeCtor, discriminant, tm. split; [left|auto].
  - intros Hrest. destruct (IH Hrest) as (f & d & tm' & Hin & Hrest').
    exists f, d, tm'. split; [right; exact Hin | exact Hrest'].
Qed.

Lemma jsonPath_withTypeMetadata c tm : jsonPath (withTypeMetadata c tm) = jsonPath c.
Proof. destruct c as [r o parent]. destruct parent as [parent|]; reflexivity. Qed.

(** X11.  A polymorphic context is never built for a type outside the
    hierarchy.  Whenever [definePolymorphicSerializerContext] returns a
    context, it is the given context with the type metadata of a member of
    the discriminant map and nothing else changed: the member is the given
    type function, with a discriminant that is not nil, or a member whose
    discriminator field in the given value equals its discriminant.  The
    path, the parent, the generic arguments passed as options, the deferred
    setter and the property metadata are those of the given context, so a
    serializer the property declares still takes precedence over the
    member's. *)
Theorem polymorphic_context_is_a_member defineTypeMetadata h c x c' :
  definePolymorphicSerializerContext defineTypeMetadata h c x = Ok c' ->
  exists typeCtor discriminant tm,
    (typeCtor, discriminant) ∈ discriminantMap c
    /\ defineTypeMetadata (ArgTypeFn typeCtor) = Ok tm
    /\ (x = VFunction typeCtor /\ isNil discriminant = false
        \/ getProperty h x (TypeMetadata.discriminator tm) = Ok discriminant)
    /\ c' = withTypeMetadata c tm
    /\ typeMetadata c' = tm
    /\ jsonPath c' = jsonPath c
    /\ parentSerializerContext c' = parentSerializerContext c
    /\ propertyMetadata c' = propertyMetadata c
    /\ referenceValueSetter c' = referenceValueSetter c
    /\ serializer c'
       = orElse (propertyMetadata c ≫= PropertyMetadata.serializer)
           (TypeMetadata.serializer tm).
Proof.
  intros Hresult.
  assert (Hmember :
    exists typeCtor discriminant tm,
      (typeCtor, discriminant) ∈ discriminantMap c
      /\ defineTypeMetadata (ArgTypeFn typeCtor) = Ok tm
      /\ (x = VFunction typeCtor /\ isNil discriminant = false
          \/ getProperty h x (TypeMetadata.discriminator tm) = Ok discriminant)
      /\ c' = withTypeMetadata c tm).
  { unfold definePolymorphicSerializerContext in Hresult.
    destruct (isCtorFunction x) eqn:Hctor.
    - apply isCtorFunction_function in Hctor as (typeFn & -> & _).
      unfold definePolymorphicSerializerContextByTypeFn in Hresult. cbn zeta in Hresult.
      destruct (isNil (Map_get (discriminantMap c) typeFn)) eqn:Hnil; [discriminate|].
      destruct (defineTypeMetadata (ArgTypeFn typeFn)) as [tm|e] eqn:Htm; [|discriminate].
      injection Hresult as <-.
      destruct (Map_get_member _ _ Hnil) as (before & after & Hsplit & _).
      remember (Map_get (discriminantMap c) typeFn) as discriminant eqn:Hdiscriminant.
      exists typeFn, discriminant, tm.
      split; [|auto].
      rewrite Hsplit. apply elem_of_app. right. left.
    - destruct (scanDiscriminantMap_member _ _ _ _ _ _ Hresult)
        as (typeCtor & discriminant & tm & Hin & Htm & Hfield & Hc').
      exists typeCtor, discriminant, tm. auto. }
  destruct Hmember as (typeCtor & discriminant & tm & Hin & Htm & Hroute & ->).
  exists typeCtor, discriminant, tm.
  split; [exact Hin|]. split; [exact Htm|]. split; [exact Hroute|].
  split; [reflexivity|]. split; [reflexivity|].
  split; [apply jsonPath_withTypeMetadata|].
  repeat split; reflexivity.
Qed.

(** The record [{tag: "A"}] under the root of the hierarchy is given the
    metadata of the member [A]. *)
Lemma polymorphic_context_is_a_member_witness :
  exists typeCtor discriminant tm,
    (typeCtor, discriminant)
      ∈ discriminantMap (Fixture.rootContext (Fixture.memberMetadata "Root"))
    /\ Fixture.registry true (ArgTypeFn typeCtor) = Ok tm
    /\ TypeMetadata.typeName tm = "A".
Proof.
  assert (Hresult :
    definePolymorphicSerializerContext (Fixture.registry true) Fixture.taggedRecords
      (Fixture.rootContext (Fixture.memberMetadata "Root")) (VObject 10%positive)
    = Ok (withTypeMetadata (Fixture.rootContext (Fixture.memberMetadata "Root"))
            (Fixture.memberMetadata "A"))) by reflexivity.
  destruct (polymorphic_context_is_a_member _ _ _ _ _ Hresult)
    as (typeCtor & discriminant & tm & Hin & Htm & _ & _ & Hmetadata & _).
  exists typeCtor, discriminant, tm.
  split; [exact Hin|]. split; [exact Htm|].
  rewrite <- Hmetadata. reflexivity.
Defined.

(** ** From a type to its discriminant and back *)

(** X12.  Serializing by type and deserializing by discriminant select the
    same member.  In a hierarchy whose members are registered under one
    discriminator field and whose discriminants are pairwise distinct,
    when the type function [typeFn] selects a context, every record whose
    discriminator field holds the discriminant of [typeFn] selects the
    same context. *)
Theorem polymorphic_type_round_trip defineTypeMetadata h h' c typeFn l name c' :
  NoDup (discriminantMap c).*2 ->
  (forall member, member ∈ discriminantMap c ->
     exists tm, defineTypeMetadata (ArgTypeFn member.1) = Ok tm
       /\ TypeMetadata.discriminator tm = name) ->
  fnName typeFn <> "" ->
  definePolymorphicSerializerContext defineTypeMetadata h c (VFunction typeFn) = Ok c' ->
  getProperty h' (VObject l) name = Ok (Map_get (discriminantMap c) typeFn) ->
  definePolymorphicSerializerContext defineTypeMetadata h' c (VObject l) = Ok c'.
Proof.
  intros Hdistinct Hmembers Hname Hby_type Hfield.
  unfold definePolymorphicSerializerContext in Hby_type.
  assert (Hctor : isCtorFunction (VFunction typeFn) = true)
    by (apply isCtorFunction_function; eauto).
  rewrite Hctor in Hby_type.
  unfold definePolymorphicSerializerContextByTypeFn in Hby_type. cbn zeta in Hby_type.
  destruct (isNil (Map_get (discriminantMap c) typeFn)) eqn:Hnil; [discriminate|].
  destruct (defineTypeMetadata (ArgTypeFn typeFn)) as [tm|e] eqn:Htm; [|discriminate].
  injection Hby_type as <-.
  destruct (Map_get_member _ _ Hnil) as (before & after & Hsplit & _).
  remember (Map_get (discriminantMap c) typeFn) as discriminant eqn:Hdiscriminant.
  assert (Hdiscriminator : TypeMetadata.discriminator tm = name).
  { destruct (Hmembers (typeFn, discriminant)) as (tm' & Htm' & Hname').
    - rewrite Hsplit. apply elem_of_app. right. left.
    - cbn [fst] in Htm'. rewrite Htm in Htm'. injection Htm' as <-. exact Hname'. }
  unfold definePolymorphicSerializerContext. cbn [isCtorFunction isFunction andb].
  unfold definePolymorphicSerializerContextByDiscriminant. rewrite Hsplit.
  apply scanDiscriminantMap_first.
  - intros [f d] Hin.
    destruct (Hmembers (f, d)) as (tm' & Htm' & Hname').
    { rewrite Hsplit. apply elem_of_app. left. exact Hin. }
    split; [exists tm'; exact Htm'|].
    unfold memberMatches. cbn [fst snd] in *. rewrite Htm', Hname', Hfield.
    unfold strictEquals. apply bool_decide_eq_false_2. intros Heq.
    rewrite Hsplit, fmap_app, fmap_cons in Hdistinct. cbn [snd] in Hdistinct.
    apply NoDup_app in Hdistinct as (_ & Hdisjoint & _).
    apply (Hdisjoint d).
    + apply list_elem_of_fmap. exists (f, d). split; [reflexivity | exact Hin].
    + rewrite <- Heq. left.
  - exact Htm.
  - rewrite Hdiscriminator. exact Hfield.
Qed.

(** The member [A] of the hierarchy and the record [{tag: "A"}]. *)
Lemma polymorphic_type_round_trip_witness :
  definePolymorphicSerializerContext (Fixture.registry true) Fixture.taggedRecords
    (Fixture.rootContext (Fixture.memberMetadata "Root")) (VObject 10%positive)
  = Ok (withTypeMetadata (Fixture.rootContext (Fixture.memberMetadata "Root"))
          (Fixture.memberMetadata "A")).
Proof.
  apply (polymorphic_type_round_trip (Fixture.registry true) ∅ Fixture.taggedRecords
           (Fixture.rootContext (Fixture.memberMetadata "Root")) Fixture.AFn
           10%positive "tag").
  - apply (bool_decide_unpack _). vm_compute. exact I.
  - intros member Hin. cbn in Hin.
    apply elem_of_cons in Hin as [-> | Hin]; [eexists; split; reflexivity|].
    apply elem_of_cons in Hin as [-> | Hin]; [eexists; split; reflexivity|].
    inversion Hin.
  - discriminate.
  - reflexivity.
  - reflexivity.
Defined.

(** ** Generic arguments of the second level *)

Lemma jsonPath_same_key_parent c c' :
  jsonPathKey c' = jsonPathKey c ->
  parentSerializerContext c' = parentSerializerContext c ->
  jsonPath c' = jsonPath c.
Proof.
  destruct c as [r o parent], c' as [r' o' parent'].
  unfold jsonPathKey. cbn [serializerContextOptions parentSerializerContext].
  intros Hkey ->. destruct parent as [parent|]; cbn [jsonPath parentSerializerContext];
    unfold jsonPathKey; cbn [serializerContextOptions]; rewrite Hkey; reflexivity.
Qed.

(** X13.  Nested generic arguments are threaded through generic contexts.
    When argument [i] of a context is declared with generic arguments of
    its own, [[t, nested]], the generic context for [i] carries [nested],
    so the generic context for index [j] defined from it resolves
    [nested[j]], whatever generic arguments the type [t] was registered
    with; both contexts have the path and the parent of the first one. *)
Theorem nested_generic_arguments_are_threaded defineTypeMetadata c i j t nested inner
    tm tm' :
  genericArgumentAt c i = Some (GenericPair t nested) ->
  defineTypeMetadata t = Ok tm ->
  arrayAt nested j = Some inner ->
  defineTypeMetadata (genericTypeArgument inner) = Ok tm' ->
  exists g g',
    defineGenericSerializerContext defineTypeMetadata c i = Ok g
    /\ defineGenericSerializerContext defineTypeMetadata g j = Ok g'
    /\ typeMetadata g = tm
    /\ typeMetadata g' = tm'
    /\ genericArguments g = Some nested
    /\ genericArguments g'
       = orElseOpt (genericGenericArguments inner) (TypeMetadata.genericArguments tm')
    /\ jsonPath g = jsonPath c
    /\ jsonPath g' = jsonPath c
    /\ parentSerializerContext g' = parentSerializerContext c.
Proof.
  intros Hat Htm Hinner Htm'.
  destruct (defineGenericSerializerContext_resolved defineTypeMetadata c i
              (GenericPair t nested) tm Hat Htm)
    as (g & Hg & Hgtm & _ & Hnested & _ & Hkey & _ & _ & Hparent).
  assert (Hat' : genericArgumentAt g j = Some inner).
  { unfold genericArgumentAt. rewrite (Hnested t nested eq_refl). exact Hinner. }
  destruct (defineGenericSerializerContext_resolved defineTypeMetadata g j inner tm'
              Hat' Htm')
    as (g' & Hg' & Hgtm' & Harguments' & _ & _ & Hkey' & _ & _ & Hparent').
  exists g, g'.
  split; [exact Hg|]. split; [exact Hg'|]. split; [exact Hgtm|]. split; [exact Hgtm'|].
  split; [exact (Hnested t nested eq_refl)|]. split; [exact Harguments'|].
  split; [exact (jsonPath_same_key_parent _ _ Hkey Hparent)|].
  split.
  - rewrite (jsonPath_same_key_parent _ _ Hkey' Hparent').
    exact (jsonPath_same_key_parent _ _ Hkey Hparent).
  - rewrite Hparent'. exact Hparent.
Qed.

(** The field declared as a set of sets of numbers: the context of the
    elements of the elements is that of numbers. *)
Lemma nested_generic_arguments_are_threaded_witness :
  exists g g',
    defineGenericSerializerContext (Fixture.registry true) (Fixture.nestedSetField true) 0
    = Ok g
    /\ defineGenericSerializerContext (Fixture.registry true) g 0 = Ok g'
    /\ typeMetadata g' = Fixture.numberMetadata.
Proof.
  destruct (nested_generic_arguments_are_threaded (Fixture.registry true)
              (Fixture.nestedSetField true) 0 0 (ArgTypeFn Fixture.SetFn)
              [GenericType (ArgTypeFn Fixture.NumberFn)]
              (GenericType (ArgTypeFn Fixture.NumberFn))
              (Fixture.setMetadata true) Fixture.numberMetadata
              eq_refl eq_refl eq_refl eq_refl)
    as (g & g' & Hg & Hg' & _ & Hmetadata & _).
  exists g, g'. split; [exact Hg|]. split; [exact Hg' | exact Hmetadata].
Defined.

(** ** Json paths *)

Lemma string_app_assoc (s1 s2 s3 : string) : (s1 +:+ s2) +:+ s3 = s1 +:+ (s2 +:+ s3).
Proof.
  induction s1 as [|a s1 IH]; [reflexivity|].
  change (String a ((s1 +:+ s2) +:+ s3) = String a (s1 +:+ (s2 +:+ s3))).
  rewrite IH. reflexivity.
Qed.

Lemma string_app_nil_r (s : string) : s +:+ "" = s.
Proof.
  induction s as [|a s IH]; [reflexivity|].
  change (String a (s +:+ "") = String a s). rewrite IH. reflexivity.
Qed.

Lemma jsonPath_child c options :
  jsonPath (defineChildSerializerContext c options)
  = jsonPath c +:+ pathSegment (SerializerContextOptions.jsonPathKey options).
Proof.
  destruct options as [key tm property arguments setter].
  destruct key; reflexivity.
Qed.

(** X14.  The json path of a context spells the descent that led to it:
    the path of the context reached from [c] through child contexts is the
    path of [c] followed, in order, by [[i]] for each index key and
    [['name']] for each name key; generic and polymorphic contexts, which
    stand for the same place with another type, have the path of the
    context they were derived from. *)
Theorem json_path_spells_the_descent :
  (forall c steps, jsonPath (descendant c steps) = jsonPath c +:+ pathSegments steps)
  /\ (forall defineTypeMetadata c i g,
        defineGenericSerializerContext defineTypeMetadata c i = Ok g ->
        jsonPath g = jsonPath c)
  /\ (forall defineTypeMetadata h c x c',
        definePolymorphicSerializerContext defineTypeMetadata h c x = Ok c' ->
        jsonPath c' = jsonPath c).
Proof.
  split; [|split].
  - intros c steps. revert c. induction steps as [|options steps IH]; intros c.
    + cbn. rewrite string_app_nil_r. reflexivity.
    + unfold descendant in *. cbn [fold_left pathSegments fold_right].
      rewrite IH, jsonPath_child, string_app_assoc. reflexivity.
  - intros defineTypeMetadata c i g Hg.
    unfold defineGenericSerializerContext in Hg.
    destruct (genericArguments c) as [arguments|]; [|discriminate Hg].
    destruct (arrayAt arguments i) as [argument|]; [|discriminate Hg].
    destruct (defineTypeMetadata (genericTypeArgument argument)) as [tm|e];
      [|discriminate Hg].
    injection Hg as <-. apply jsonPath_same_key_parent; reflexivity.
  - intros defineTypeMetadata h c x c' Hc'.
    unfold definePolymorphicSerializerContext in Hc'.
    assert (Hscan : forall record,
      definePolymorphicSerializerContextByDiscriminant defineTypeMetadata h c record
      = Ok c' -> jsonPath c' = jsonPath c).
    { intros record Hrecord.
      destruct (scanDiscriminantMap_member _ _ _ _ _ _ Hrecord)
        as (typeCtor & discriminant & tm & _ & _ & _ & ->).
      apply jsonPath_withTypeMetadata. }
    destruct (isCtorFunction x); [|exact (Hscan x Hc')].
    destruct x as [| | | | | |typeFn|]; try exact (Hscan _ Hc').
    unfold definePolymorphicSerializerContextByTypeFn in Hc'. cbn zeta in Hc'.
    destruct (isNil (Map_get (discriminantMap c) typeFn)); [discriminate Hc'|].
    destruct (defineTypeMetadata (ArgTypeFn typeFn)) as [tm|e]; [|discriminate Hc'].
    injection Hc' as <-. apply jsonPath_withTypeMetadata.
Qed.

(** ** Resolving a type argument *)

Lemma QuoteJSONCharacter_plain a :
  plainCharacter a = true -> QuoteJSONCharacter a = String a EmptyString.
Proof.
  unfold plainCharacter, QuoteJSONCharacter. cbn zeta.
  intros Hplain. apply andb_true_iff in Hplain as [Hplain Hbackslash].
  apply andb_true_iff in Hplain as [Hcontrol Hquote].
  apply Nat.leb_le in Hcontrol.
  apply negb_true_iff in Hquote, Hbackslash. rewrite Hquote, Hbackslash.
  repeat match goal with
         | |- context [(?n =? ?k)%nat] =>
             destruct (Nat.eqb_spec n k) as [Heq|_]; [lia|]
         end.
  destruct (Nat.ltb_spec (Ascii.nat_of_ascii a) 32) as [Hlt|_]; [lia | reflexivity].
Qed.

Lemma QuoteJSONText_plain s : plainText s = true -> QuoteJSONText s = s.
Proof.
  induction s as [|a s IH]; [reflexivity|].
  cbn [plainText QuoteJSONText]. intros Hplain.
  apply andb_true_iff in Hplain as [Ha Hs].
  rewrite (QuoteJSONCharacter_plain a Ha), (IH Hs). reflexivity.
Qed.

(** X15.  [resolveTypeMetadata] fails exactly for an alias no type was
    registered under and for a resolver that yields nothing; the message
    holds the alias as [JSON.stringify] writes it, between double quotes
    with double quotes, backslashes and control characters escaped (an
    alias with none of these is quoted as it is), and says [undefined] for
    the resolver.  Every other argument resolves to the metadata extracted
    from its type function: the one registered under the alias, the
    function itself, or the one the resolver yields. *)
Theorem type_argument_resolution typeCtorMap extractTypeMetadata typeArgument :
  ((exists e, resolveTypeMetadata typeCtorMap extractTypeMetadata typeArgument = Throw e)
   <-> ((exists alias, typeArgument = ArgAlias alias /\ typeCtorMap !! alias = None)
        \/ typeArgument = ArgTypeResolver None))
  /\ (forall alias, typeCtorMap !! alias = None ->
        resolveTypeMetadata typeCtorMap extractTypeMetadata (ArgAlias alias)
        = Throw (Error ("Cannot resolve type metadata for provided type argument: "
                        +:+ QuoteJSONString alias
                        +:+ "! Looks like your configuration is invalid!")))
  /\ (forall alias, plainText alias = true ->
        QuoteJSONString alias = doubleQuote +:+ alias +:+ doubleQuote)
  /\ (forall before after,
        QuoteJSONString (before +:+ backslash +:+ after)
        = doubleQuote +:+ QuoteJSONText before +:+ backslash +:+ backslash
          +:+ QuoteJSONText after +:+ doubleQuote
        /\ QuoteJSONString (before +:+ doubleQuote +:+ after)
           = doubleQuote +:+ QuoteJSONText before +:+ backslash +:+ doubleQuote
             +:+ QuoteJSONText after +:+ doubleQuote)
  /\ resolveTypeMetadata typeCtorMap extractTypeMetadata (ArgTypeResolver None)
     = Throw (Error "Cannot resolve type metadata for provided type argument: undefined! Looks like your configuration is invalid!")
  /\ (forall alias typeCtor, typeCtorMap !! alias = Some typeCtor ->
        resolveTypeMetadata typeCtorMap extractTypeMetadata (ArgAlias alias)
        = Ok (extractTypeMetadata typeCtor))
  /\ (forall typeCtor,
        resolveTypeMetadata typeCtorMap extractTypeMetadata (ArgTypeFn typeCtor)
        = Ok (extractTypeMetadata typeCtor)
        /\ resolveTypeMetadata typeCtorMap extractTypeMetadata
             (ArgTypeResolver (Some typeCtor))
           = Ok (extractTypeMetadata typeCtor))
  /\ (forall alias typeCtor other,
        other <> alias ->
        resolveTypeMetadata (<[alias := typeCtor]> typeCtorMap) extractTypeMetadata
          (ArgAlias alias)
        = Ok (extractTypeMetadata typeCtor)
        /\ resolveTypeMetadata (<[alias := typeCtor]> typeCtorMap) extractTypeMetadata
             (ArgAlias other)
           = resolveTypeMetadata typeCtorMap extractTypeMetadata (ArgAlias other)).
Proof.
  assert (Htext : forall s1 s2, QuoteJSONText (s1 +:+ s2)
                                = QuoteJSONText s1 +:+ QuoteJSONText s2).
  { intros s1 s2. induction s1 as [|a s1 IH]; [reflexivity|].
    change (QuoteJSONCharacter a +:+ QuoteJSONText (s1 +:+ s2)
            = (QuoteJSONCharacter a +:+ QuoteJSONText s1) +:+ QuoteJSONText s2).
    rewrite IH, string_app_assoc. reflexivity. }
  split; [|split; [|split; [|split; [|split; [|split; [|split]]]]]].
  - unfold resolveTypeMetadata. split.
    + intros [e He]. destruct typeArgument as [alias|typeFn|[typeFn|]].
      * left. exists alias. split; [reflexivity|].
        destruct (typeCtorMap !! alias); [discriminate He | reflexivity].
      * discriminate He.
      * discriminate He.
      * right. reflexivity.
    + intros [(alias & -> & Hnone) | ->].
      * rewrite Hnone. eexists. reflexivity.
      * eexists. reflexivity.
  - intros alias Hnone. unfold resolveTypeMetadata. rewrite Hnone. reflexivity.
  - intros alias Hplain. unfold QuoteJSONString.
    rewrite (QuoteJSONText_plain alias Hplain). reflexivity.
  - intros before after. unfold QuoteJSONString. rewrite !Htext.
    split; rewrite !string_app_assoc; reflexivity.
  - reflexivity.
  - intros alias typeCtor Hsome. unfold resolveTypeMetadata. rewrite Hsome. reflexivity.
  - intros typeCtor. split; reflexivity.
  - intros alias typeCtor other Hother. unfold resolveTypeMetadata. split.
    + rewrite lookup_insert_eq. reflexivity.
    + rewrite lookup_insert_ne by (apply not_eq_sym; exact Hother). reflexivity.
Qed.

(** ** The inject sorter *)

(** X16.  [DescInjectSorter.sort] is a comparator for descending inject
    indexes: it is negative exactly when the first inject has the greater
    index (so that it is placed first), zero exactly for equal indexes, it
    changes sign when its arguments are swapped, and it is transitive; a
    list is in the order of this comparator exactly when its inject indexes
    never increase. *)
Theorem desc_inject_sorter_is_descending :
  (forall x y, DescInjectSorter.sort x y < 0 <-> injectIndex y < injectIndex x)
  /\ (forall x y, DescInjectSorter.sort x y = 0 <-> injectIndex x = injectIndex y)
  /\ (forall x y, DescInjectSorter.sort y x = - DescInjectSorter.sort x y)
  /\ (forall x y z,
        DescInjectSorter.sort x y <= 0 -> DescInjectSorter.sort y z <= 0 ->
        DescInjectSorter.sort x z <= 0)
  /\ (forall injects,
        sorterOrdered injects
        <-> forall i j x y, (i < j)%nat ->
              injects !! i = Some x -> injects !! j = Some y ->
              injectIndex y <= injectIndex x).
Proof.
  unfold sorterOrdered, DescInjectSorter.sort.
  split; [intros; lia|]. split; [intros; lia|]. split; [intros; lia|].
  split; [intros; lia|].
  intros injects. split; intros Hordered i j x y Hlt Hx Hy.
  - pose proof (Hordered i j x y Hlt Hx Hy). lia.
  - pose proof (Hordered i j x y Hlt Hx Hy). lia.
Qed.
